(** * Spendora: the product price normalisation and estimation engine

    A shallow embedding of the scraper (simpleProductScraper), the market
    data generator (realMarketDataAPI) and the comparison service
    (productScrapingService), and the properties of their price handling.
    Of their caller (flashAIIntegration), the market intelligence and the
    score computed from the comparisons are embedded as well.

    Conventions of the embedding.
    - A JavaScript string is the list of its UTF-16 code units.
    - A JavaScript number is an exact rational; every finite double is one.
      Where a value is read digit for digit or compared at the precision of
      a double, the rounding to binary64 is written out with [round64]:
      in parseFloat and parseInt, in the multipliers of extractPrice, in the
      percentage of calculateDiscount and in the rating of
      generateFallbackPlatformData.  Elsewhere arithmetic is exact.  NaN
      and the infinities are not modelled (parseFloat's NaN is [None]), so
      a result of 2^1024 or more stays finite.
    - The 32-bit integer arithmetic of the string hash is written out on [Z].
    - What the engine and the network supply (Math.sin, Math.random, the URL
      parser, the page fetch followed by cheerio.load) is a [Host] record.
    - console.log is write-only and is left out. *)

From Stdlib Require Import ZArith QArith Qround Qabs Qpower List Bool Lia Lqa String Ascii.
Import ListNotations.

Set Implicit Arguments.

(** ** JavaScript strings *)

Module JS.

Definition jsstring := list Z.

Definition unit_of_ascii (a : ascii) : Z := Z.of_N (N_of_ascii a).

(** The code units of an ASCII literal. *)
Definition js (s : string) : jsstring := map unit_of_ascii (list_ascii_of_string s).

Fixpoint str_eqb (a b : jsstring) : bool :=
  match a, b with
  | [], [] => true
  | x :: a', y :: b' => (x =? y)%Z && str_eqb a' b'
  | _, _ => false
  end.

Fixpoint startsWith (s prefix : jsstring) : bool :=
  match prefix, s with
  | [], _ => true
  | p :: prefix', c :: s' => (p =? c)%Z && startsWith s' prefix'
  | _ :: _, [] => false
  end.

(** [s.includes(needle)] *)
Fixpoint includes (s needle : jsstring) : bool :=
  startsWith s needle ||
  match s with
  | [] => false
  | _ :: s' => includes s' needle
  end.

(** [s.substring(0, n)] *)
Definition substring0 (n : nat) (s : jsstring) : jsstring := firstn n s.

(** WhiteSpace and LineTerminator code units: what [\s] matches and what
    [trim] removes. *)
Definition isWhiteSpace (c : Z) : bool :=
  ((9 <=? c) && (c <=? 13) || (c =? 32) || (c =? 160) || (c =? 5760)
   || (8192 <=? c) && (c <=? 8202) || (c =? 8232) || (c =? 8233)
   || (c =? 8239) || (c =? 8287) || (c =? 12288) || (c =? 65279))%Z.

Fixpoint trimStart (s : jsstring) : jsstring :=
  match s with
  | c :: s' => if isWhiteSpace c then trimStart s' else s
  | [] => []
  end.

Definition trim (s : jsstring) : jsstring := rev (trimStart (rev (trimStart s))).

(** Case mapping of one code unit.  Besides the ASCII letters, the tables
    list every unit whose image contains an ASCII letter; any other unit is
    kept, its real image lying outside ASCII.  The program only ever searches
    a case-mapped string for ASCII keywords, which this leaves exact. *)
Definition lowerUnit (c : Z) : list Z :=
  if ((65 <=? c) && (c <=? 90))%Z then [c + 32]%Z
  else if (c =? 8490)%Z then [107]%Z              (* KELVIN SIGN *)
  else if (c =? 304)%Z then [105; 775]%Z          (* capital I with dot above *)
  else [c].

Definition upperUnit (c : Z) : list Z :=
  if ((97 <=? c) && (c <=? 122))%Z then [c - 32]%Z
  else if (c =? 223)%Z then [83; 83]%Z            (* sharp s *)
  else if (c =? 305)%Z then [73]%Z                (* dotless i *)
  else if (c =? 383)%Z then [83]%Z                (* long s *)
  else if (c =? 329)%Z then [700; 78]%Z
  else if (c =? 496)%Z then [74; 780]%Z
  else if (c =? 7830)%Z then [72; 817]%Z
  else if (c =? 7831)%Z then [84; 776]%Z
  else if (c =? 7832)%Z then [87; 778]%Z
  else if (c =? 7833)%Z then [89; 778]%Z
  else if (c =? 7834)%Z then [65; 702]%Z
  else if (c =? 64256)%Z then [70; 70]%Z          (* ligatures ff .. st *)
  else if (c =? 64257)%Z then [70; 73]%Z
  else if (c =? 64258)%Z then [70; 76]%Z
  else if (c =? 64259)%Z then [70; 70; 73]%Z
  else if (c =? 64260)%Z then [70; 70; 76]%Z
  else if (c =? 64261)%Z then [83; 84]%Z
  else if (c =? 64262)%Z then [83; 84]%Z
  else [c].

Definition toLowerCase (s : jsstring) : jsstring := flat_map lowerUnit s.
Definition toUpperCase (s : jsstring) : jsstring := flat_map upperUnit s.

(** [s.replace(/c/g, d)] for a single code unit [c]. *)
Definition replaceAllUnit (c d : Z) (s : jsstring) : jsstring :=
  map (fun x => if (x =? c)%Z then d else x) s.

(** [s.split(sep)] for a one-unit separator: always at least one part. *)
Fixpoint split (sep : Z) (s : jsstring) : list jsstring :=
  match s with
  | [] => [[]]
  | c :: s' =>
      if (c =? sep)%Z then [] :: split sep s'
      else match split sep s' with
           | part :: parts => (c :: part) :: parts
           | [] => [[c]]
           end
  end.

(** [parts.indexOf(x)]: -1 when absent. *)
Fixpoint indexOf (parts : list jsstring) (x : jsstring) : Z :=
  match parts with
  | [] => -1
  | p :: parts' =>
      if str_eqb p x then 0
      else let i := indexOf parts' x in if (i <? 0)%Z then -1 else i + 1
  end%Z.

(** [parts.join(sep)] *)
Fixpoint join (sep : jsstring) (parts : list jsstring) : jsstring :=
  match parts with
  | [] => []
  | [p] => p
  | p :: parts' => p ++ sep ++ join sep parts'
  end.

Definition isDigit (c : Z) : bool := ((48 <=? c) && (c <=? 57))%Z.

(** [\w] *)
Definition isWordUnit (c : Z) : bool :=
  (isDigit c || (65 <=? c) && (c <=? 90) || (97 <=? c) && (c <=? 122) || (c =? 95))%Z.

(** ** Numbers *)

Definition number := Q.

Definition Qlt_bool (a b : Q) : bool := negb (Qle_bool b a).

Definition Math_floor (x : Q) : Q := inject_Z (Qfloor x).

(** Math.round rounds halves upwards. *)
Definition Math_round (x : Q) : Q := inject_Z (Qfloor (x + 0.5)).

Definition Math_max (a b : Q) : Q := if Qle_bool a b then b else a.
Definition Math_min (a b : Q) : Q := if Qle_bool a b then a else b.

(** *** Binary64

    The rounding of a number to the nearest double, halves to the double
    with the even significand: what the engine does to the exact result of
    a sum, a product or a quotient, and to a decimal literal. *)

(** The integer part of the binary logarithm of a positive number. *)
Definition ilog2 (x : Q) : Z :=
  let e := (Z.log2 (Qnum x) - Z.log2 (Z.pos (Qden x)))%Z in
  if Qle_bool (2 ^ e) x then e else (e - 1)%Z.

(** Rounding to the nearest integer, halves to the even one. *)
Definition roundEven (x : Q) : Z :=
  let f := Qfloor x in
  let d := x - inject_Z f in
  if Qlt_bool d 0.5 then f
  else if Qlt_bool 0.5 d then (f + 1)%Z
  else if Z.even f then f else (f + 1)%Z.

(** The exponent of the binade of [x], not below that of the subnormal
    numbers, and the distance of two neighbouring doubles in that binade:
    a significand has 53 bits. *)
Definition exponent (x : Q) : Z := Z.max (ilog2 (Qabs x)) (-1022).
Definition quantum (x : Q) : Q := 2 ^ (exponent x - 52).

Definition round64 (x : Q) : Q :=
  inject_Z (roundEven (x / quantum x)) * quantum x.

(** ToInt32: the wrap-around of the bit operators. *)
Definition toInt32 (z : Z) : Z :=
  let m := (z mod 2 ^ 32)%Z in
  if (m >=? 2 ^ 31)%Z then (m - 2 ^ 32)%Z else m.

(** [a << n] on 32-bit integers. *)
Definition shl32 (a n : Z) : Z := toInt32 (Z.shiftl (toInt32 a) n).

(** [a & b] on 32-bit integers. *)
Definition and32 (a b : Z) : Z := toInt32 (Z.land (toInt32 a) (toInt32 b)).

(** The value of a run of decimal digits, most significant first. *)
Definition digitsValue (ds : list Z) : Z :=
  fold_left (fun acc d => acc * 10 + (d - 48))%Z ds 0%Z.

Fixpoint takeDigits (s : jsstring) : list Z * jsstring :=
  match s with
  | c :: s' =>
      if isDigit c then let '(ds, rest) := takeDigits s' in (c :: ds, rest)
      else ([], s)
  | [] => ([], [])
  end.

(** parseFloat on the text the price patterns capture: digits and dots.
    It reads the longest prefix [digits], [digits . digits?] or [. digits]
    and is NaN ([None]) when there is none; its value is the double nearest
    to the decimal number read.  Signs, exponents and leading blanks, which
    no capture contains, are not read. *)
Definition parseFloat (s : jsstring) : option Q :=
  let '(ip, rest) := takeDigits s in
  let fp := match rest with
            | 46%Z :: rest' => fst (takeDigits rest')
            | _ => []
            end in
  match ip, fp with
  | [], [] => None
  | _, _ =>
      Some (round64
              (inject_Z (digitsValue ip)
               + inject_Z (digitsValue fp) / inject_Z (10 ^ Z.of_nat (List.length fp))))
  end.

(** parseInt on a run of digits (the review-count capture with its commas
    removed). *)
Definition parseInt (s : jsstring) : option Q :=
  match fst (takeDigits s) with
  | [] => None
  | ds => Some (round64 (inject_Z (digitsValue ds)))
  end.

(** *** encodeURIComponent *)

Definition isHighSurrogate (c : Z) : bool := ((55296 <=? c) && (c <=? 56319))%Z.
Definition isLowSurrogate (c : Z) : bool := ((56320 <=? c) && (c <=? 57343))%Z.

(** The code points of a string; [None] at an unpaired surrogate, where
    encodeURIComponent throws a URIError. *)
Fixpoint codePointsFrom (pending : option Z) (s : jsstring) : option (list Z) :=
  match s with
  | [] => match pending with
          | None => Some []
          | Some _ => None
          end
  | c :: s' =>
      match pending with
      | Some h =>
          if isLowSurrogate c then
            option_map (cons (65536 + (h - 55296) * 1024 + (c - 56320))%Z)
              (codePointsFrom None s')
          else None
      | None =>
          if isLowSurrogate c then None
          else if isHighSurrogate c then codePointsFrom (Some c) s'
          else option_map (cons c) (codePointsFrom None s')
      end
  end.

Definition codePoints (s : jsstring) : option (list Z) := codePointsFrom None s.

Definition utf8 (cp : Z) : list Z :=
  (if cp <? 128 then [cp]
   else if cp <? 2048 then [192 + cp / 64; 128 + cp mod 64]
   else if cp <? 65536 then [224 + cp / 4096; 128 + (cp / 64) mod 64; 128 + cp mod 64]
   else [240 + cp / 262144; 128 + (cp / 4096) mod 64;
         128 + (cp / 64) mod 64; 128 + cp mod 64])%Z.

Definition hexDigit (d : Z) : Z := (if d <? 10 then 48 + d else 55 + d)%Z.

Definition percentByte (b : Z) : jsstring := [37; hexDigit (b / 16); hexDigit (b mod 16)]%Z.

(** The units encodeURIComponent leaves as they are: letters, digits and
    [- _ . ! ~ * ' ( )]. *)
Definition isUriUnreserved (c : Z) : bool :=
  (isWordUnit c || (c =? 45) || (c =? 46) || (c =? 33) || (c =? 126)
   || (c =? 42) || (c =? 39) || (c =? 40) || (c =? 41))%Z.

Definition encodeCodePoint (cp : Z) : jsstring :=
  if isUriUnreserved cp then [cp] else flat_map percentByte (utf8 cp).

Definition encodeURIComponent (s : jsstring) : option jsstring :=
  option_map (flat_map encodeCodePoint) (codePoints s).

End JS.
Import JS.

(** ** Regular expressions

    A backtracking matcher for the constructs the program's patterns use:
    classes, sequences, greedy quantifiers and one capture group.  A pattern
    is tried at every start position from the left, and at each position the
    alternatives are explored in the engine's order: a quantifier first takes
    one more iteration, then gives it back. *)

Module Regex.

Inductive regex : Type :=
| Cls (p : Z -> bool)                          (* one unit of a class *)
| Seq (r1 r2 : regex)
| Quant (lo : nat) (hi : option nat) (r : regex) (* r{lo,hi}, greedy *)
| Group (r : regex).                           (* ( r ), capture 1 *)

Definition Opt (r : regex) : regex := Quant 0 (Some 1%nat) r.
Definition Star (r : regex) : regex := Quant 0 None r.
Definition Plus (r : regex) : regex := Quant 1 None r.

Definition chr (c : Z) : regex := Cls (Z.eqb c).
Definition oneOf (cs : jsstring) : regex := Cls (fun x => existsb (Z.eqb x) cs).

Definition asciiLower (c : Z) : Z :=
  if ((65 <=? c) && (c <=? 90))%Z then (c + 32)%Z else c.

(** A unit under the [i] flag.  Without the [u] flag no unit outside ASCII
    is identified with an ASCII letter. *)
Definition ichr (c : Z) : regex := Cls (fun x => (asciiLower x =? asciiLower c)%Z).

Fixpoint seqOf (rs : list regex) : regex :=
  match rs with
  | [] => Quant 0 (Some 0%nat) (Cls (fun _ => false))
  | [r] => r
  | r :: rs' => Seq r (seqOf rs')
  end.

Definition str (s : jsstring) : regex := seqOf (map chr s).
Definition istr (s : jsstring) : regex := seqOf (map ichr s).

Section Matcher.
Variable A : Type.

(** A continuation receives the rest of the input and capture 1. *)
Definition cont := jsstring -> jsstring -> option A.
Definition matcher := jsstring -> jsstring -> cont -> option A.

(** [quant fuel body lo hi]: an iteration has to consume input, which every
    quantified body of the program's patterns does; [fuel] bounds the
    number of iterations by the length of the input. *)
Fixpoint quant (fuel : nat) (body : matcher) (lo : nat) (hi : option nat)
    (s cap : jsstring) (k : cont) : option A :=
  match fuel with
  | O => match lo with
         | O => k s cap
         | S _ => None
         end
  | S fuel' =>
      let more :=
        match hi with
        | Some O => None
        | _ =>
            body s cap (fun s' cap' =>
              if (List.length s' <? List.length s)%nat
              then quant fuel' body (Nat.pred lo) (option_map Nat.pred hi) s' cap' k
              else None)
        end in
      match more with
      | Some res => Some res
      | None => match lo with
                | O => k s cap
                | S _ => None
                end
      end
  end.

Fixpoint run (r : regex) (s cap : jsstring) (k : cont) : option A :=
  match r with
  | Cls p =>
      match s with
      | c :: s' => if p c then k s' cap else None
      | [] => None
      end
  | Seq r1 r2 => run r1 s cap (fun s' cap' => run r2 s' cap' k)
  | Quant lo hi r' => quant (S (List.length s)) (run r') lo hi s cap k
  | Group r' =>
      run r' s cap (fun s' _ => k s' (firstn (List.length s - List.length s') s))
  end.
End Matcher.

(** [s.match(r)] for a pattern without the [g] flag: capture 1 of the
    leftmost match.  Capture 1 takes part in every match of the patterns
    below. *)
Fixpoint search (r : regex) (s : jsstring) : option jsstring :=
  match run r s [] (fun _ cap => Some cap) with
  | Some cap => Some cap
  | None => match s with
            | [] => None
            | _ :: s' => search r s'
            end
  end.

Definition ws : regex := Cls isWhiteSpace.
Definition digit : regex := Cls isDigit.

End Regex.
Import Regex.

(** ** The page, the engine and the network *)

(** What cheerio exposes of a loaded page: a selector gives the matched
    elements in document order; an element has its text, its attributes and
    the elements a selector finds below it. *)
#[local] Unset Elimination Schemes.
Inductive Node : Type :=
| mkNode (text : jsstring) (attrs : jsstring -> option jsstring)
         (find : jsstring -> list Node).
#[local] Set Elimination Schemes.

Definition nodeText (n : Node) : jsstring := let 'mkNode t _ _ := n in t.
Definition nodeAttr (n : Node) : jsstring -> option jsstring := let 'mkNode _ a _ := n in a.
Definition nodeFind (n : Node) : jsstring -> list Node := let 'mkNode _ _ f := n in f.

Definition Selection := list Node.
Definition Cheerio := jsstring -> Selection.

(** [sel.text()]: the combined text of the matched elements. *)
Definition selText (sel : Selection) : jsstring := flat_map nodeText sel.
(** [sel.first()] *)
Definition selFirst (sel : Selection) : Selection := firstn 1 sel.
(** [sel.find(q)] *)
Definition selFind (q : jsstring) (sel : Selection) : Selection :=
  flat_map (fun n => nodeFind n q) sel.
(** [sel.attr(a)]: the attribute of the first matched element. *)
Definition selAttr (a : jsstring) (sel : Selection) : option jsstring :=
  match sel with
  | n :: _ => nodeAttr n a
  | [] => None
  end.

(** A parsed URL, as far as the program reads it. *)
Record URL : Type := {
  pathname : jsstring;
  searchParams_get : jsstring -> option jsstring
}.

Record Host : Type := {
  (** Math.sin at an integer argument. *)
  Math_sin : Z -> Q;
  (** The n-th value Math.random returns. *)
  Math_random : nat -> Q;
  (** [new URL(url)]; [None] when it throws. *)
  new_URL : jsstring -> option URL;
  (** fetch with the given User-Agent, [response.ok], [response.text()] and
      cheerio.load; [None] for a failed request, a status outside 2xx or an
      empty body. *)
  fetchPage : jsstring -> option jsstring -> option Cheerio
}.

(** *** Effects: the draws of Math.random and exceptions *)

Inductive Outcome (A : Type) : Type :=
| Return (a : A)
| Throw.
Arguments Throw {A}.

(** A computation runs from the number of draws made so far. *)
Definition M (A : Type) : Type := nat -> Outcome A * nat.

Definition ret {A} (a : A) : M A := fun n => (Return a, n).
Definition throw {A} : M A := fun n => (Throw, n).
Definition bind {A B} (m : M A) (f : A -> M B) : M B :=
  fun n => match m n with
           | (Return a, n') => f a n'
           | (Throw, n') => (Throw, n')
           end.
(** [try { m } catch { h }] *)
Definition try_catch {A} (m : M A) (h : M A) : M A :=
  fun n => match m n with
           | (Return a, n') => (Return a, n')
           | (Throw, n') => h n'
           end.

Notation "x <- m ;; k" := (bind m (fun x => k))
  (at level 61, m at next level, right associativity).

Fixpoint mapM {A B} (f : A -> M B) (l : list A) : M (list B) :=
  match l with
  | [] => ret []
  | a :: l' => b <- f a ;; bs <- mapM f l' ;; ret (b :: bs)
  end.

(** A value or an exception of a pure library call. *)
Definition orThrow {A} (o : option A) : M A :=
  match o with
  | Some a => ret a
  | None => throw
  end.

(** ** simpleProductScraper: prices *)

Definition rupee : Z := 8377.       (* the INR sign, U+20B9 *)
Definition quote : Z := 34.

Definition isEmpty (s : jsstring) : bool :=
  match s with
  | [] => true
  | _ :: _ => false
  end.

(** [a || b] on strings: the empty string is falsy. *)
Definition orElse (a b : jsstring) : jsstring := if isEmpty a then b else a.

(** [!x] on numbers. *)
Definition isZero (x : number) : bool := Qeq_bool x 0.

Record PriceRange : Type := { min : Z; max : Z }.

Record ValidationRange : Type := {
  vmin : Z; vmax : Z; typicalMin : Z; typicalMax : Z
}.

(** The entries of an object literal, in the order Object.entries yields
    them: the order of insertion. *)
Definition priceRanges : list (jsstring * PriceRange) :=
  [ (js "phone", {| min := 8000; max := 100000 |});
    (js "smartphone", {| min := 8000; max := 100000 |});
    (js "laptop", {| min := 25000; max := 150000 |});
    (js "tablet", {| min := 10000; max := 80000 |});
    (js "headphone", {| min := 1000; max := 50000 |});
    (js "earphone", {| min := 500; max := 15000 |});
    (js "tv", {| min := 15000; max := 200000 |});
    (js "camera", {| min := 10000; max := 200000 |});
    (js "shirt", {| min := 400; max := 5000 |});
    (js "t-shirt", {| min := 300; max := 3000 |});
    (js "dress", {| min := 600; max := 10000 |});
    (js "jeans", {| min := 800; max := 8000 |});
    (js "shoes", {| min := 1000; max := 15000 |});
    (js "sneaker", {| min := 1500; max := 12000 |});
    (js "cream", {| min := 200; max := 3000 |});
    (js "perfume", {| min := 800; max := 8000 |});
    (js "sunscreen", {| min := 200; max := 1500 |});
    (js "shampoo", {| min := 150; max := 2000 |});
    (js "makeup", {| min := 300; max := 5000 |});
    (js "microwave", {| min := 5000; max := 40000 |});
    (js "refrigerator", {| min := 15000; max := 100000 |});
    (js "washing", {| min := 12000; max := 80000 |});
    (js "book", {| min := 100; max := 2000 |});
    (js "default", {| min := 500; max := 10000 |}) ]%Z.

Definition priceRanges_default : PriceRange := {| min := 500; max := 10000 |}.

Definition validationRanges : list (jsstring * ValidationRange) :=
  [ (js "phone", {| vmin := 3000; vmax := 200000; typicalMin := 8000; typicalMax := 80000 |});
    (js "smartphone", {| vmin := 3000; vmax := 200000; typicalMin := 8000; typicalMax := 80000 |});
    (js "laptop", {| vmin := 15000; vmax := 300000; typicalMin := 25000; typicalMax := 120000 |});
    (js "tablet", {| vmin := 5000; vmax := 150000; typicalMin := 10000; typicalMax := 60000 |});
    (js "headphone", {| vmin := 200; vmax := 100000; typicalMin := 1000; typicalMax := 25000 |});
    (js "earphone", {| vmin := 100; vmax := 50000; typicalMin := 500; typicalMax := 10000 |});
    (js "shirt", {| vmin := 150; vmax := 15000; typicalMin := 400; typicalMax := 4000 |});
    (js "t-shirt", {| vmin := 100; vmax := 10000; typicalMin := 300; typicalMax := 2500 |});
    (js "jeans", {| vmin := 400; vmax := 20000; typicalMin := 800; typicalMax := 6000 |});
    (js "shoes", {| vmin := 500; vmax := 50000; typicalMin := 1000; typicalMax := 12000 |});
    (js "cream", {| vmin := 50; vmax := 10000; typicalMin := 200; typicalMax := 2500 |});
    (js "perfume", {| vmin := 200; vmax := 30000; typicalMin := 800; typicalMax := 8000 |});
    (js "makeup", {| vmin := 100; vmax := 15000; typicalMin := 300; typicalMax := 4000 |}) ]%Z.

Definition maxReasonablePrice : number := 500000.
Definition minReasonablePrice : number := 10.

(** The discount fields of a record; [None] is a field left undefined. *)
Record Discount : Type := {
  disc_percentage : option number;
  disc_amount : option number
}.

(** The quotient and the product of the percentage are rounded to binary64
    before Math.round reads them, as the engine rounds them.  The amount is
    the exact difference: the prices passed are whole numbers (results of
    Math.round) far below 2^53, and the difference of two such numbers is a
    double. *)
Definition calculateDiscount (sellingPrice : number) (mrp : option number) : Discount :=
  match mrp with
  | None => {| disc_percentage := None; disc_amount := None |}
  | Some mrp =>
      if isZero mrp || Qle_bool mrp sellingPrice
      then {| disc_percentage := None; disc_amount := None |}
      else
        let discountAmount := mrp - sellingPrice in
        let discountPercentage :=
          Math_round (round64 (round64 (discountAmount / mrp) * 100)) in
        {| disc_percentage := Some discountPercentage;
           disc_amount := Some discountAmount |}
  end.

(** One turn of the loop of generateSimpleHash:
    [hash = ((hash << 5) - hash) + char; hash = hash & hash]. *)
Definition hashStep (hash char : Z) : Z :=
  let hash := (shl32 hash 5 - hash + char)%Z in
  and32 hash hash.

Definition generateSimpleHash (str : jsstring) : Z :=
  Z.abs (fold_left hashStep str 0%Z).

(** The data the reason text of a rejection is built from. *)
Record Reason : Type := {
  detectedType : jsstring;
  rejectedPrice : number;
  reasonableMin : Z;
  reasonableMax : Z
}.

Record Validation : Type := {
  isValid : bool;
  reason : option Reason;
  suggestedPrice : option number
}.

(** The first entry whose keyword the lowered name includes. *)
Definition matchingRange (name : jsstring) : option (jsstring * ValidationRange) :=
  find (fun entry => includes name (fst entry)) validationRanges.

Definition validatePriceByCategory (price : number) (productName platform : jsstring)
    : Validation :=
  let name := toLowerCase productName in
  match matchingRange name with
  | Some (detectedType, selectedRange) =>
      if Qlt_bool price (inject_Z (vmin selectedRange))
         || Qlt_bool (inject_Z (vmax selectedRange)) price
      then
        let suggestedPrice :=
          Math_min (Math_max price (inject_Z (typicalMin selectedRange)))
                   (inject_Z (typicalMax selectedRange)) in
        {| isValid := false;
           reason := Some {| detectedType := detectedType;
                             rejectedPrice := price;
                             reasonableMin := vmin selectedRange;
                             reasonableMax := vmax selectedRange |};
           suggestedPrice := Some suggestedPrice |}
      else {| isValid := true; reason := None; suggestedPrice := None |}
  | None => {| isValid := true; reason := None; suggestedPrice := None |}
  end.

Section Scraper.
Variable host : Host.

(** The range generateReasonablePrice selects: the first keyword other
    than default that the lowered name includes, else the default. *)
Definition selectedPriceRange (name : jsstring) : PriceRange :=
  match find (fun entry => negb (str_eqb (fst entry) (js "default"))
                           && includes name (fst entry)) priceRanges with
  | Some (_, range) => range
  | None => priceRanges_default
  end.

Definition generateReasonablePrice (productName : jsstring) : number :=
  let name := toLowerCase productName in
  let selectedRange := selectedPriceRange name in
  let nameHash := generateSimpleHash productName in
  let seededValue := Math_sin host nameHash * 10000 in
  let normalizedSeed := Qabs (seededValue - Math_floor seededValue) in
  Math_floor (normalizedSeed
              * (inject_Z (max selectedRange) - inject_Z (min selectedRange) + 1))
  + inject_Z (min selectedRange).

Definition validateAndNormalizePrice (price : number) (productName platform : jsstring)
    : number :=
  if isZero price || Qle_bool price 0 then 0
  else if Qlt_bool maxReasonablePrice price then generateReasonablePrice productName
  else if Qlt_bool price minReasonablePrice then generateReasonablePrice productName
  else
    let categoryValidation := validatePriceByCategory price productName platform in
    if negb (isValid categoryValidation) then
      match suggestedPrice categoryValidation with
      | Some suggested => if isZero suggested then price else suggested
      | None => price
      end
    else price.
End Scraper.

(** *** extractPrice *)

(** The class of the cleaning pattern [/[^\d\.,₹Rs KLCrore lakhlac]/gi]:
    the units it keeps. *)
Definition keptByCleaning (c : Z) : bool :=
  isDigit c
  || existsb (fun k => (asciiLower c =? asciiLower k)%Z)
       ([46; 44; rupee]%Z ++ js "Rs KLCrore lakhlac").

(** [([\d,]+(?:\.\d{1,2})?)] *)
Definition groupedDecimal : regex :=
  Group (Seq (Plus (Cls (fun c => isDigit c || (c =? 44)%Z)))
             (Opt (Seq (chr 46) (Quant 1 (Some 2%nat) digit)))).

(** [([\d\.]+)] *)
Definition dottedDigits : regex :=
  Group (Plus (Cls (fun c => isDigit c || (c =? 46)%Z))).

Definition formats : list regex :=
  [ (* /₹\s*([\d,]+(?:\.\d{1,2})?)/ *)
    seqOf [chr rupee; Star ws; groupedDecimal];
    (* /Rs\.?\s*([\d,]+(?:\.\d{1,2})?)/i *)
    seqOf [istr (js "Rs"); Opt (chr 46); Star ws; groupedDecimal];
    (* /₹?\s*([\d\.]+)\s*[KkलakLakh]/ *)
    seqOf [Opt (chr rupee); Star ws; dottedDigits; Star ws;
           oneOf (js "Kk" ++ [2354]%Z ++ js "akLakh")];
    (* /₹?\s*([\d\.]+)\s*L(?:akh)?/i *)
    seqOf [Opt (chr rupee); Star ws; dottedDigits; Star ws;
           ichr 76; Opt (istr (js "akh"))];
    (* /₹?\s*([\d\.]+)\s*Cr(?:ore)?/i *)
    seqOf [Opt (chr rupee); Star ws; dottedDigits; Star ws;
           istr (js "Cr"); Opt (istr (js "ore"))];
    (* /([\d]{1,2}[,\d]*(?:\.\d{1,2})?)/ *)
    Group (seqOf [Quant 1 (Some 2%nat) digit;
                  Star (Cls (fun c => (c =? 44)%Z || isDigit c));
                  Opt (Seq (chr 46) (Quant 1 (Some 2%nat) digit))]);
    (* /(\d+(?:\.\d{1,2})?)/ *)
    Group (Seq (Plus digit) (Opt (Seq (chr 46) (Quant 1 (Some 2%nat) digit)))) ].

(** The crore, lakh and thousand multipliers, read off the original text;
    the product is a double. *)
Definition applySuffix (priceText : jsstring) (price : number) : number :=
  let upperText := toUpperCase priceText in
  if includes upperText (js "CR") || includes upperText (js "CRORE")
  then round64 (price * 10000000)
  else if includes upperText (js "L") || includes upperText (js "LAKH")
          || includes upperText (js "LAC")
  then round64 (price * 100000)
  else if includes upperText (js "K") then round64 (price * 1000)
  else price.

(** The loop over the formats: the first format that matches and whose
    capture parses decides. *)
Fixpoint extractWith (fs : list regex) (priceText cleanedText : jsstring) : number :=
  match fs with
  | [] => 0
  | format :: fs' =>
      match search format cleanedText with
      | Some capture =>
          let priceStr := filter (fun c => negb (c =? 44)%Z) capture in
          match parseFloat priceStr with
          | None => extractWith fs' priceText cleanedText
          | Some price => Math_round (applySuffix priceText price)
          end
      | None => extractWith fs' priceText cleanedText
      end
  end.

Definition extractPrice (priceText : jsstring) : number :=
  if isEmpty priceText then 0
  else
    let cleanedText :=
      trim (map (fun c => if keptByCleaning c then c else 32%Z) priceText) in
    extractWith formats priceText cleanedText.

(** The rating pattern: a captured run of digits, an optional dot and more
    digits, then blanks and the words out of. *)
Definition extractRating (ratingText : jsstring) : option number :=
  match search (seqOf [Group (seqOf [Plus digit; Opt (chr 46); Star digit]);
                       Star ws; str (js "out of")]) ratingText with
  | Some capture => parseFloat capture
  | None => None
  end.

(** The review-count pattern: captured digits in comma-separated groups,
    then blanks and the word rating. *)
Definition extractReviewCount (reviewText : jsstring) : option number :=
  match search (seqOf [Group (Seq (Plus digit) (Star (Seq (chr 44) (Plus digit))));
                       Star ws; str (js "rating")]) reviewText with
  | Some capture => parseInt (filter (fun c => negb (c =? 44)%Z) capture)
  | None => None
  end.

(** ** simpleProductScraper: pages *)

Record ProductData : Type := {
  pd_name : jsstring;
  pd_price : number;
  pd_originalPrice : option number;
  pd_discountPercentage : option number;
  pd_discountAmount : option number;
  pd_rating : option number;
  pd_reviewCount : option number;
  pd_availability : jsstring;
  pd_features : list jsstring;
  pd_platform : jsstring;
  pd_url : jsstring
}.

Definition USER_AGENTS : list jsstring :=
  [ js "Mozilla/5.0 (Windows NT 10.0; Win64; x64) AppleWebKit/537.36 (KHTML, like Gecko) Chrome/120.0.0.0 Safari/537.36";
    js "Mozilla/5.0 (Macintosh; Intel Mac OS X 10_15_7) AppleWebKit/537.36 (KHTML, like Gecko) Chrome/120.0.0.0 Safari/537.36";
    js "Mozilla/5.0 (Windows NT 10.0; Win64; x64; rv:121.0) Gecko/20100101 Firefox/121.0" ].

(** [l[i]] at a numeric index: undefined outside the list. *)
Definition atIndex {A} (l : list A) (i : number) : option A :=
  if Qlt_bool i 0 then None else nth_error l (Z.to_nat (Qfloor i)).

Definition detectPlatform (url : jsstring) : jsstring :=
  let hostname := toLowerCase url in
  if includes hostname (js "amazon") then js "Amazon"
  else if includes hostname (js "flipkart") then js "Flipkart"
  else if includes hostname (js "myntra") then js "Myntra"
  else if includes hostname (js "nykaa") then js "Nykaa"
  else if includes hostname (js "ajio") then js "Ajio"
  else js "Unknown".

(** [$(selector).text().trim()] and [$(selector).first().text().trim()] *)
Definition textOf (doc : Cheerio) (selector : jsstring) : jsstring :=
  trim (selText (doc selector)).
Definition firstTextOf (doc : Cheerio) (selector : jsstring) : jsstring :=
  trim (selText (selFirst (doc selector))).

(** An attribute selector [[attr="value"]], with [suffix] after it. *)
Definition attrSelector (attr value suffix : string) : jsstring :=
  js "[" ++ js attr ++ js "=" ++ [quote] ++ js value ++ [quote] ++ js "]" ++ js suffix.

(** The loop over the selectors of the selling price: the first selector
    with text whose price is positive; 0 when there is none. *)
Fixpoint findSellingPrice (doc : Cheerio) (selectors : list jsstring) : number :=
  match selectors with
  | [] => 0
  | selector :: rest =>
      let priceText := firstTextOf doc selector in
      if negb (isEmpty priceText) && Qlt_bool 0 (extractPrice priceText)
      then extractPrice priceText
      else findSellingPrice doc rest
  end.

(** The loop over the selectors of the list price: the first selector with
    text whose price exceeds the selling price; undefined when there is
    none. *)
Fixpoint findMrp (doc : Cheerio) (selectors : list jsstring) (sellingPrice : number)
    : option number :=
  match selectors with
  | [] => None
  | selector :: rest =>
      let mrpText := firstTextOf doc selector in
      if negb (isEmpty mrpText) && Qlt_bool sellingPrice (extractPrice mrpText)
      then Some (extractPrice mrpText)
      else findMrp doc rest sellingPrice
  end.

Definition amazonSellingPriceSelectors : list jsstring :=
  [ js ".a-price.a-text-price.a-size-medium.apexPriceToPay .a-offscreen";
    js ".a-price-range .a-offscreen";
    js ".a-price .a-offscreen";
    js ".a-price-whole";
    js "span.a-price.a-text-price.a-size-medium.apexPriceToPay span.a-offscreen";
    js ".a-color-price.a-size-medium";
    js "#priceblock_dealprice";
    js "#priceblock_ourprice";
    js ".a-price.a-text-price .a-offscreen";
    js ".a-price.a-text-price.a-size-base .a-offscreen";
    js ".a-section .a-price .a-offscreen";
    js "span.a-price-symbol + span.a-price-whole";
    js ".a-price-current .a-offscreen";
    js "[data-asin-price] .a-offscreen";
    js ".a-box .a-price .a-offscreen" ].

Definition amazonMrpSelectors : list jsstring :=
  [ js ".a-price.a-text-price .a-offscreen";
    js "span.a-price.a-text-price span.a-offscreen";
    js ".a-text-strike .a-offscreen";
    js ".a-text-price.a-size-base .a-offscreen";
    js "#listPrice .a-offscreen";
    js ".a-price.a-text-price.a-size-base.a-color-secondary .a-offscreen";
    js ".a-price.a-text-price.a-size-small .a-offscreen";
    js ".a-text-strike";
    attrSelector "data-a-color" "secondary" " .a-offscreen";
    js ".a-row .a-price.a-text-price .a-offscreen" ].

Definition flipkartSellingPriceSelectors : list jsstring :=
  [ js "._30jeq3._16Jk6d"; js "._1_WHN1"; js ".Nx9bqj.CxhGGd"; js "._30jeq3";
    js ".Nx9bqj"; js "._25b18c"; js "._1_WHN1._30jeq3"; js ".Nx9bqj";
    js "._16Jk6d"; attrSelector "data-testid" "price-final" "";
    js "._4b5DiR"; js "._13fcjj"; js ".CEmiEU" ].

Definition flipkartMrpSelectors : list jsstring :=
  [ js "._3I9_wc._27UcVY"; js "._3auQ3N._1POkHg"; js "._3I9_wc"; js "._3auQ3N";
    js "._27UcVY"; js ".yRaY8j"; js "._2Tpdn3";
    attrSelector "data-testid" "price-original" ""; js ".CEmiEU._16Jk6d" ].

Definition genericPriceSelectors : list jsstring :=
  [ js ".price"; js ".product-price"; attrSelector "data-testid" "price" "";
    js ".current-price"; js ".final-price"; js ".selling-price"; js ".offer-price";
    js ".discounted-price"; js ".price-current"; js ".price-now"; js ".sale-price" ].

Definition genericMrpSelectors : list jsstring :=
  [ js ".original-price"; js ".mrp"; js ".price-original"; js ".was-price";
    js ".list-price"; js ".regular-price"; js ".crossed-price"; js ".strike-price" ].

(** The result of extractAmazonPrices and extractFlipkartPrices. *)
Record Prices : Type := { rawPrice : number; rawOriginalPrice : option number }.

Definition extractAmazonPrices (doc : Cheerio) : Prices :=
  let sellingPrice := findSellingPrice doc amazonSellingPriceSelectors in
  let mrp := findMrp doc amazonMrpSelectors sellingPrice in
  {| rawPrice := sellingPrice; rawOriginalPrice := mrp |}.

Definition extractFlipkartPrices (doc : Cheerio) : Prices :=
  let sellingPrice := findSellingPrice doc flipkartSellingPriceSelectors in
  let mrp := findMrp doc flipkartMrpSelectors sellingPrice in
  {| rawPrice := sellingPrice; rawOriginalPrice := mrp |}.

(** [x ? f(x) : undefined] on an optional number: 0 is falsy. *)
Definition whenTruthy (x : option number) (f : number -> number) : option number :=
  match x with
  | Some v => if isZero v then None else Some (f v)
  | None => None
  end.

(** The trimmed texts of the matched elements that are longer than [n]
    units, the first ten of them. *)
Definition featureTexts (doc : Cheerio) (selector : jsstring) (n : nat) : list jsstring :=
  firstn 10 (filter (fun feature => (n <? List.length feature)%nat)
                    (map (fun el => trim (nodeText el)) (doc selector))).

(** [createSearchTerms]: the name lowered, every unit outside [\w] and [\s]
    blanked, split at runs of blanks; the first four words longer than two
    units that are not stop words. *)
Definition stopWords : list jsstring :=
  map js ["the"; "a"; "an"; "and"; "or"; "but"; "in"; "on"; "at"; "to"; "for";
          "of"; "with"]%string.

(** [s.split(/\s+/)] *)
Fixpoint splitBlanks (s : jsstring) : list jsstring :=
  match s with
  | [] => [[]]
  | c :: s' =>
      if isWhiteSpace c then
        match s' with
        | d :: _ => if isWhiteSpace d then splitBlanks s' else [] :: splitBlanks s'
        | [] => [[]; []]
        end
      else match splitBlanks s' with
           | part :: parts => (c :: part) :: parts
           | [] => [[c]]
           end
  end.

Definition createSearchTerms (productName : jsstring) : jsstring :=
  let words :=
    firstn 4
      (filter (fun word => (2 <? List.length word)%nat
                           && negb (existsb (str_eqb word) stopWords))
         (splitBlanks
            (map (fun c => if isWordUnit c || isWhiteSpace c then c else 32%Z)
                 (toLowerCase productName)))) in
  join (js " ") words.

Definition isEmpty_sel (sel : Selection) : bool :=
  match sel with
  | [] => true
  | _ :: _ => false
  end.

(** [buildSearchUrl]; the exception is encodeURIComponent's URIError. *)
Definition buildSearchUrl (platform searchTerms : jsstring) : option jsstring :=
  match encodeURIComponent searchTerms with
  | None => None
  | Some encodedTerms =>
      Some (if str_eqb platform (js "Amazon")
            then js "https://www.amazon.in/s?k=" ++ encodedTerms ++ js "&ref=nb_sb_noss"
            else if str_eqb platform (js "Flipkart")
            then js "https://www.flipkart.com/search?q=" ++ encodedTerms
            else js "https://www.google.com/search?q=" ++ encodedTerms)
  end.

Definition extractFirstAmazonResult (doc : Cheerio) (searchUrl searchTerms : jsstring)
    : option ProductData :=
  let firstResult := selFirst (doc (attrSelector "data-component-type" "s-search-result" "")) in
  if isEmpty_sel firstResult then None
  else
    let name := trim (selText (selFind (js "h2 a span") firstResult)) in
    let priceText := trim (selText (selFind (js ".a-price .a-offscreen") firstResult)) in
    let linkHref := selAttr (js "href") (selFind (js "h2 a") firstResult) in
    let price := extractPrice priceText in
    match linkHref with
    | None => None
    | Some linkHref =>
        if isEmpty name || isZero price || isEmpty linkHref then None
        else
          Some {| pd_name := substring0 150 name;
                  pd_price := price;
                  pd_originalPrice := None;
                  pd_discountPercentage := None;
                  pd_discountAmount := None;
                  pd_rating := None;
                  pd_reviewCount := None;
                  pd_availability := js "In Stock";
                  pd_features := [js "Amazon product"];
                  pd_platform := js "Amazon";
                  pd_url := js "https://www.amazon.in" ++ linkHref |}
    end.

Definition extractFirstFlipkartResult (doc : Cheerio) (searchUrl searchTerms : jsstring)
    : option ProductData :=
  let firstResult := selFirst (doc (js "._1AtVbE")) in
  if isEmpty_sel firstResult then None
  else
    let name := trim (selText (selFind (js "._4rR01T") firstResult)) in
    let priceText := trim (selText (selFind (js "._30jeq3") firstResult)) in
    let linkHref := selAttr (js "href") (selFind (js "._1fQZEK") firstResult) in
    let price := extractPrice priceText in
    match linkHref with
    | None => None
    | Some linkHref =>
        if isEmpty name || isZero price || isEmpty linkHref then None
        else
          Some {| pd_name := substring0 150 name;
                  pd_price := price;
                  pd_originalPrice := None;
                  pd_discountPercentage := None;
                  pd_discountAmount := None;
                  pd_rating := None;
                  pd_reviewCount := None;
                  pd_availability := js "In Stock";
                  pd_features := [js "Flipkart product"];
                  pd_platform := js "Flipkart";
                  pd_url := js "https://www.flipkart.com" ++ linkHref |}
    end.

(** The product name each extractor reads: the first selector of its chain
    with text; empty when none has. *)
Definition amazonName (doc : Cheerio) : jsstring :=
  orElse (textOf doc (js "#productTitle"))
    (orElse (textOf doc (js "h1.a-size-large span"))
            (textOf doc (js "h1 span"))).

Definition flipkartName (doc : Cheerio) : jsstring :=
  orElse (textOf doc (js "h1.yhB1nd"))
    (orElse (textOf doc (js "h1._35KyD6"))
            (textOf doc (js ".B_NuCI"))).

Definition genericName (doc : Cheerio) : jsstring :=
  orElse (firstTextOf doc (js "h1"))
    (orElse (textOf doc (attrSelector "data-testid" "product-title" ""))
       (orElse (textOf doc (js ".product-title"))
          (orElse (textOf doc (js ".product-name"))
             (orElse (textOf doc (js "h1.title"))
                     (textOf doc (js ".main-title")))))).

Section ScraperPages.
Variable host : Host.

(** The try blocks of the three extractors enclose no call that throws, so
    their catch blocks, which return null, are never entered. *)

Definition extractAmazonData (doc : Cheerio) (url : jsstring) : option ProductData :=
  let name := amazonName doc in
  if isEmpty name then None
  else
    let prices := extractAmazonPrices doc in
    if isZero (rawPrice prices) then None
    else
      let price := validateAndNormalizePrice host (rawPrice prices) name (js "Amazon") in
      let originalPrice :=
        whenTruthy (rawOriginalPrice prices)
          (fun raw => validateAndNormalizePrice host raw name (js "Amazon")) in
      if isZero price then None
      else
        let ratingText := trim (selText (selFirst (doc (js ".a-icon-alt")))) in
        let rating := extractRating ratingText in
        let reviewText := textOf doc (js "#acrCustomerReviewText") in
        let reviewCount := extractReviewCount reviewText in
        let discount := calculateDiscount price originalPrice in
        let features := featureTexts doc (js "#feature-bullets ul li span") 10 in
        Some {| pd_name := substring0 150 name;
                pd_price := price;
                pd_originalPrice := originalPrice;
                pd_discountPercentage := disc_percentage discount;
                pd_discountAmount := disc_amount discount;
                pd_rating := rating;
                pd_reviewCount := reviewCount;
                pd_availability := js "In Stock";
                pd_features := features;
                pd_platform := js "Amazon";
                pd_url := url |}.

Definition extractFlipkartData (doc : Cheerio) (url : jsstring) : option ProductData :=
  let name := flipkartName doc in
  if isEmpty name then None
  else
    let prices := extractFlipkartPrices doc in
    if isZero (rawPrice prices) then None
    else
      let price := validateAndNormalizePrice host (rawPrice prices) name (js "Flipkart") in
      let originalPrice :=
        whenTruthy (rawOriginalPrice prices)
          (fun raw => validateAndNormalizePrice host raw name (js "Flipkart")) in
      if isZero price then None
      else
        let ratingText := textOf doc (js "._3LWZlK") in
        let rating := extractRating ratingText in
        let reviewText := textOf doc (js "._2_R_DZ") in
        let reviewCount := extractReviewCount reviewText in
        let discount := calculateDiscount price originalPrice in
        let features := featureTexts doc (js "._21lJbe li") 5 in
        Some {| pd_name := substring0 150 name;
                pd_price := price;
                pd_originalPrice := originalPrice;
                pd_discountPercentage := disc_percentage discount;
                pd_discountAmount := disc_amount discount;
                pd_rating := rating;
                pd_reviewCount := reviewCount;
                pd_availability := js "In Stock";
                pd_features := features;
                pd_platform := js "Flipkart";
                pd_url := url |}.

Definition extractGenericData (doc : Cheerio) (url platform : jsstring)
    : option ProductData :=
  let name := genericName doc in
  let price := findSellingPrice doc genericPriceSelectors in
  let originalPrice := findMrp doc genericMrpSelectors price in
  let price :=
    if isZero price then generateReasonablePrice host (orElse name []) else price in
  let validatedPrice :=
    validateAndNormalizePrice host price (orElse name (js "Product")) platform in
  let validatedOriginalPrice :=
    whenTruthy originalPrice
      (fun raw => validateAndNormalizePrice host raw (orElse name (js "Product")) platform) in
  let discount := calculateDiscount validatedPrice validatedOriginalPrice in
  Some {| pd_name := orElse name (js "Product");
          pd_price := validatedPrice;
          pd_originalPrice := validatedOriginalPrice;
          pd_discountPercentage := disc_percentage discount;
          pd_discountAmount := disc_amount discount;
          pd_rating := None;
          pd_reviewCount := None;
          pd_availability := js "Available";
          pd_features := [platform ++ js " product"];
          pd_platform := platform;
          pd_url := url |}.

(** The extractor of a platform: the switch of extractProductData. *)
Definition extractByPlatform (platform : jsstring) (doc : Cheerio) (url : jsstring)
    : option ProductData :=
  if str_eqb platform (js "Amazon") then extractAmazonData doc url
  else if str_eqb platform (js "Flipkart") then extractFlipkartData doc url
  else extractGenericData doc url platform.

Definition dashesToBlanks (s : jsstring) : jsstring := replaceAllUnit 45 32 s.

Definition extractProductNameFromUrl (url : jsstring) : jsstring :=
  match new_URL host url with
  | None => js "Product"
  | Some urlObj =>
      let pathname := pathname urlObj in
      let fromDp :=
        if includes pathname (js "/dp/") then
          let parts := split 47 pathname in
          let dpIndex := indexOf parts (js "dp") in
          if (0 <? dpIndex)%Z then
            match nth_error parts (Z.to_nat (dpIndex - 1)) with
            | Some part => if isEmpty part then None else Some (dashesToBlanks part)
            | None => None
            end
          else None
        else None in
      let fromP :=
        if includes pathname (js "/p/") then
          match split 47 pathname with
          | _ :: part :: _ => Some (dashesToBlanks part)
          | _ => None
          end
        else None in
      let query :=
        match searchParams_get urlObj (js "q") with
        | Some q => if isEmpty q then searchParams_get urlObj (js "search") else Some q
        | None => searchParams_get urlObj (js "search")
        end in
      let fromQuery :=
        match query with
        | Some q => if isEmpty q then None else Some q
        | None => None
        end in
      let pathParts :=
        filter (fun part => negb (isEmpty part) && (2 <? List.length part)%nat)
               (split 47 pathname) in
      match fromDp, fromP, fromQuery with
      | Some n, _, _ => n
      | None, Some n, _ => n
      | None, None, Some n => n
      | None, None, None =>
          match rev pathParts with
          | last :: _ => dashesToBlanks last
          | [] => js "Product"
          end
      end
  end.

Definition generateFallbackData (url platform : jsstring) : ProductData :=
  let productName := extractProductNameFromUrl url in
  {| pd_name := orElse productName (js "Product");
     pd_price := generateReasonablePrice host (orElse productName []);
     pd_originalPrice := None;
     pd_discountPercentage := None;
     pd_discountAmount := None;
     pd_rating := None;
     pd_reviewCount := None;
     pd_availability := js "Check availability";
     pd_features := [platform ++ js " product"; js "Real-time data available on platform"];
     pd_platform := platform;
     pd_url := url |}.

(** [Math.random()] *)
Definition random : M number := fun n => (Return (Math_random host n), S n).

Definition fetchPageContent (url : jsstring) : M (option Cheerio) :=
  r <- random ;;
  let userAgent := atIndex USER_AGENTS (Math_floor (r * inject_Z (Z.of_nat (List.length USER_AGENTS)))) in
  ret (fetchPage host url userAgent).

Definition extractProductData (url : jsstring) : M (option ProductData) :=
  try_catch
    (let platform := detectPlatform url in
     html <- fetchPageContent url ;;
     match html with
     | None => ret (Some (generateFallbackData url platform))
     | Some doc =>
         match extractByPlatform platform doc url with
         | Some productData => ret (Some productData)
         | None => ret (Some (generateFallbackData url platform))
         end
     end)
    (ret (Some (generateFallbackData url (detectPlatform url)))).

(** The rating is compared at the precision of a double: its product and
    its sum are rounded to binary64, and 0.8 is the double of that literal. *)
Definition generateFallbackPlatformData (platform : jsstring)
    (originalProduct : ProductData) (searchTerms : jsstring) : M ProductData :=
  let basePrice := pd_price originalProduct in
  let variation := if str_eqb platform (js "Amazon") then 0.95 else 1.05 in
  r1 <- random ;;
  let finalVariation := variation + (r1 * 0.2 - 0.1) in
  let price := Math_round (basePrice * finalVariation) in
  r2 <- random ;;
  let rating := round64 (4.0 + round64 (r2 * round64 0.8)) in
  r3 <- random ;;
  let reviewCount := Math_floor (r3 * 2000) + 500 in
  searchUrl <- orThrow (buildSearchUrl platform searchTerms) ;;
  ret {| pd_name := pd_name originalProduct;
         pd_price := price;
         pd_originalPrice := None;
         pd_discountPercentage := None;
         pd_discountAmount := None;
         pd_rating := Some rating;
         pd_reviewCount := Some reviewCount;
         pd_availability := js "In Stock";
         pd_features := [platform ++ js " product"; js "Similar product available"];
         pd_platform := platform;
         pd_url := searchUrl |}.

Definition searchPlatform (platform searchTerms : jsstring) : M (option ProductData) :=
  try_catch
    (searchUrl <- orThrow (buildSearchUrl platform searchTerms) ;;
     html <- fetchPageContent searchUrl ;;
     match html with
     | None => ret None
     | Some doc =>
         if str_eqb platform (js "Amazon")
         then ret (extractFirstAmazonResult doc searchUrl searchTerms)
         else if str_eqb platform (js "Flipkart")
         then ret (extractFirstFlipkartResult doc searchUrl searchTerms)
         else ret None
     end)
    (ret None).

(** One platform of findSimilarProducts: skipped for the platform of the
    original, else the search result or the fallback record is pushed. *)
Definition similarOn (platform : jsstring) (originalProduct : ProductData)
    (searchTerms : jsstring) (results : list ProductData) : M (list ProductData) :=
  if negb (str_eqb (pd_platform originalProduct) platform) then
    found <- searchPlatform platform searchTerms ;;
    match found with
    | Some result => ret (results ++ [result])
    | None =>
        fallback <- generateFallbackPlatformData platform originalProduct searchTerms ;;
        ret (results ++ [fallback])
    end
  else ret results.

(** The catch block pushes onto the results gathered before the
    exception. *)
Definition findSimilarProducts (originalProduct : ProductData) : M (list ProductData) :=
  let searchTerms := createSearchTerms (pd_name originalProduct) in
  let onError (results : list ProductData) : M (list ProductData) :=
    let fallbackPlatform :=
      if str_eqb (pd_platform originalProduct) (js "Amazon")
      then js "Flipkart" else js "Amazon" in
    fallback <- generateFallbackPlatformData fallbackPlatform originalProduct
                  (createSearchTerms (pd_name originalProduct)) ;;
    ret (results ++ [fallback]) in
  fun n =>
    match similarOn (js "Amazon") originalProduct searchTerms [] n with
    | (Throw, n1) => onError [] n1
    | (Return results, n1) =>
        try_catch (similarOn (js "Flipkart") originalProduct searchTerms results)
                  (onError results) n1
    end.
End ScraperPages.

(** ** realMarketDataAPI *)

Inductive Category : Type := general | electronics | fashion | beauty.

Record ProductInfo : Type := {
  pi_name : jsstring;
  pi_brand : jsstring;
  pi_category : Category;
  pi_url : jsstring
}.

Definition brandPatterns : list jsstring :=
  map js ["Samsung"; "Apple"; "iPhone"; "OnePlus"; "Xiaomi"; "Realme";
          "Nike"; "Adidas"; "Puma"; "Reebok";
          "Sony"; "LG"; "Dell"; "HP"; "Lenovo";
          "Lakme"; "Maybelline"; "Nykaa"; "Loreal"]%string.

Definition includesAny (s : jsstring) (words : list string) : bool :=
  existsb (fun w => includes s (js w)) words.

Definition extractProductInfo (productName productUrl : jsstring) : ProductInfo :=
  let name := orElse productName (js "Product") in
  let brand :=
    match find (fun brandName => includes (toUpperCase name) (toUpperCase brandName))
               brandPatterns with
    | Some brandName => brandName
    | None => []
    end in
  let nameUpper := toUpperCase name in
  let category :=
    if includesAny nameUpper ["PHONE"; "MOBILE"; "SMARTPHONE"; "LAPTOP"; "TABLET"; "TV";
                              "REFRIGERATOR"; "HEADPHONE"]%string
    then electronics
    else if includesAny nameUpper ["SHIRT"; "JEANS"; "SHOE"; "DRESS"; "SNEAKER"]%string
    then fashion
    else if includesAny nameUpper ["SUNSCREEN"; "CREAM"; "SPF"; "MOISTURIZER"; "MAKEUP"]%string
    then beauty
    else general in
  {| pi_name := name; pi_brand := brand; pi_category := category; pi_url := productUrl |}.

(** The range estimateRealisticBasePrice detects: the entry of categoryRanges
    for the category and the product type read off the upper-cased name. *)
Definition productRange (category : Category) (nameUpper : jsstring) : PriceRange :=
  match category with
  | electronics =>
      if includesAny nameUpper ["PHONE"; "SMARTPHONE"; "MOBILE"]%string
      then {| min := 8000; max := 100000 |}                  (* phone *)
      else if includesAny nameUpper ["LAPTOP"; "NOTEBOOK"]%string
      then {| min := 25000; max := 150000 |}                 (* laptop *)
      else if includesAny nameUpper ["TABLET"; "IPAD"]%string
      then {| min := 10000; max := 80000 |}                  (* tablet *)
      else if includesAny nameUpper ["HEADPHONE"; "EARPHONE"; "EARBUDS"]%string
      then {| min := 1000; max := 50000 |}                   (* headphone *)
      else if includesAny nameUpper ["TV"; "TELEVISION"]%string
      then {| min := 15000; max := 200000 |}                 (* tv *)
      else if includesAny nameUpper ["REFRIGERATOR"; "FRIDGE"]%string
      then {| min := 15000; max := 100000 |}                 (* refrigerator *)
      else {| min := 5000; max := 50000 |}                   (* default *)
  | fashion =>
      if includesAny nameUpper ["SHOE"; "SNEAKER"; "BOOT"]%string
      then {| min := 1500; max := 15000 |}                   (* shoe *)
      else if includesAny nameUpper ["SHIRT"; "T-SHIRT"; "TOP"]%string
      then {| min := 500; max := 5000 |}                     (* shirt *)
      else if includesAny nameUpper ["JEAN"; "PANT"; "TROUSER"]%string
      then {| min := 1000; max := 8000 |}                    (* jean *)
      else if includesAny nameUpper ["DRESS"; "KURTI"]%string
      then {| min := 800; max := 10000 |}                    (* dress *)
      else {| min := 500; max := 5000 |}                     (* default *)
  | beauty =>
      if includesAny nameUpper ["PERFUME"; "FRAGRANCE"]%string
      then {| min := 800; max := 8000 |}                     (* perfume *)
      else if includesAny nameUpper ["CREAM"; "MOISTURIZER"; "LOTION"]%string
      then {| min := 200; max := 3000 |}                     (* cream *)
      else if includesAny nameUpper ["SUNSCREEN"; "SPF"]%string
      then {| min := 200; max := 1500 |}                     (* sunscreen *)
      else if includesAny nameUpper ["MAKEUP"; "FOUNDATION"; "LIPSTICK"]%string
      then {| min := 300; max := 5000 |}                     (* makeup *)
      else {| min := 200; max := 2000 |}                     (* default *)
  | general => {| min := 500; max := 10000 |}
  end%Z.

Definition generateUrlHash (url : jsstring) : Z :=
  Z.abs (fold_left hashStep url 0%Z).

Record Platform : Type := { plat_name : jsstring; priceMultiplier : number }.

Definition getRelevantPlatforms (category : Category) : list Platform :=
  let basePlatforms :=
    [ {| plat_name := js "Amazon"; priceMultiplier := 1.0 |};
      {| plat_name := js "Flipkart"; priceMultiplier := 0.98 |} ] in
  match category with
  | fashion =>
      basePlatforms ++ [ {| plat_name := js "Myntra"; priceMultiplier := 1.05 |};
                         {| plat_name := js "Ajio"; priceMultiplier := 1.02 |} ]
  | beauty =>
      basePlatforms ++ [ {| plat_name := js "Nykaa"; priceMultiplier := 1.03 |};
                         {| plat_name := js "Purplle"; priceMultiplier := 0.96 |} ]
  | electronics =>
      basePlatforms ++ [ {| plat_name := js "Croma"; priceMultiplier := 1.08 |};
                         {| plat_name := js "Reliance Digital"; priceMultiplier := 1.04 |} ]
  | general => basePlatforms
  end.

(** The property of an object literal at a key; inherited properties are
    not modelled. *)
Fixpoint lookup {A} (table : list (jsstring * A)) (key : jsstring) : option A :=
  match table with
  | [] => None
  | (k, v) :: table' => if str_eqb k key then Some v else lookup table' key
  end.

Definition baseCounts : list (jsstring * PriceRange) :=
  [ (js "Amazon", {| min := 8; max := 25 |});
    (js "Flipkart", {| min := 5; max := 18 |});
    (js "Myntra", {| min := 3; max := 12 |});
    (js "Nykaa", {| min := 2; max := 8 |});
    (js "Croma", {| min := 1; max := 3 |});
    (js "Reliance Digital", {| min := 1; max := 2 |}) ]%Z.

Record PlatformPrice : Type := {
  pp_platform : jsstring;
  pp_price : number;
  pp_sellerCount : number;
  pp_priceRange : number * number;
  pp_availability : jsstring
}.

(** The price history of the response is read by no caller and is left out,
    and so is the lastUpdated stamp; their draws from Math.random are
    kept. *)
Record MarketData : Type := { prices : list PlatformPrice }.

Record MarketDataResponse : Type := {
  success : bool;
  data : option MarketData
}.

Section MarketDataAPI.
Variable host : Host.

Definition estimateRealisticBasePrice (productInfo : ProductInfo) : M number :=
  let nameUpper := toUpperCase (pi_name productInfo) in
  let range := productRange (pi_category productInfo) nameUpper in
  let span := inject_Z (max range) - inject_Z (min range) + 1 in
  if negb (isEmpty (pi_url productInfo)) then
    let urlHash := generateUrlHash (pi_url productInfo) in
    let seededValue := Math_sin host urlHash * 10000 in
    let normalizedSeed := Qabs (seededValue - Math_floor seededValue) in
    ret (Math_floor (normalizedSeed * span) + inject_Z (min range))
  else
    r <- random host ;;
    ret (Math_floor (r * span) + inject_Z (min range)).

Definition getRealisticSellerCount (platform : jsstring) (category : Category)
    : M number :=
  let range :=
    match lookup baseCounts platform with
    | Some range => (inject_Z (min range), inject_Z (max range))
    | None => (3, 10)
    end in
  let range :=
    match category with
    | electronics => (Math_round (fst range * 1.5), Math_round (snd range * 1.3))
    | _ => range
    end in
  r <- random host ;;
  ret (Math_floor (r * (snd range - fst range + 1)) + fst range).

Definition getRealisticAvailability (platform : jsstring) (sellerCount : number)
    : M jsstring :=
  if Qlt_bool 10 sellerCount then ret (js "In Stock")
  else if Qlt_bool 5 sellerCount then
    r <- random host ;;
    ret (if Qlt_bool 0.1 r then js "In Stock" else js "Limited Stock")
  else if Qlt_bool 2 sellerCount then
    r <- random host ;;
    ret (if Qlt_bool 0.2 r then js "In Stock" else js "Few Left")
  else
    r <- random host ;;
    ret (if Qlt_bool 0.3 r then js "In Stock" else js "Only 1-2 left").

(** The record of one platform: the body of [platforms.map]. *)
Definition platformPrice (basePrice : number) (category : Category)
    (platform : Platform) : M PlatformPrice :=
  sellerCount <- getRealisticSellerCount (plat_name platform) category ;;
  r <- random host ;;
  let priceVariation := priceMultiplier platform * (0.95 + r * 0.1) in
  let finalPrice := Math_round (basePrice * priceVariation) in
  let priceSpread :=
    if Qlt_bool 10 sellerCount then 0.15
    else if Qlt_bool 5 sellerCount then 0.10 else 0.05 in
  let minPrice := Math_round (finalPrice * (1 - priceSpread)) in
  let maxPrice := Math_round (finalPrice * (1 + priceSpread)) in
  availability <- getRealisticAvailability (plat_name platform) sellerCount ;;
  _ <- random host ;;                                   (* lastUpdated *)
  ret {| pp_platform := plat_name platform;
         pp_price := finalPrice;
         pp_sellerCount := sellerCount;
         pp_priceRange := (minPrice, maxPrice);
         pp_availability := availability |}.

(** Of generateRealisticPriceHistory, the seed: a draw when there is no
    URL to hash. *)
Definition generateRealisticPriceHistory (productUrl : option jsstring) : M unit :=
  match productUrl with
  | Some url => if isEmpty url then _ <- random host ;; ret tt else ret tt
  | None => _ <- random host ;; ret tt
  end.

Definition generateRealisticMarketData (productInfo : ProductInfo)
    (productUrl : option jsstring) (originalPrice : option number)
    : M MarketDataResponse :=
  basePrice <-
    match originalPrice with
    | Some p =>
        if negb (isZero p) && Qlt_bool 0 p && Qlt_bool p 500000 then ret p
        else estimateRealisticBasePrice productInfo
    | None => estimateRealisticBasePrice productInfo
    end ;;
  let platforms := getRelevantPlatforms (pi_category productInfo) in
  prices <- mapM (platformPrice basePrice (pi_category productInfo)) platforms ;;
  _ <- generateRealisticPriceHistory productUrl ;;
  ret {| success := true; data := Some {| prices := prices |} |}.

Definition fetchRealMarketData (productName productUrl : jsstring)
    (originalPrice : option number) : M MarketDataResponse :=
  try_catch
    (let productInfo := extractProductInfo productName productUrl in
     generateRealisticMarketData productInfo (Some productUrl) originalPrice)
    (generateRealisticMarketData (extractProductInfo productName productUrl)
       (Some productUrl) originalPrice).
End MarketDataAPI.

(** ** productScrapingService *)

Record PriceComparison : Type := {
  pc_platform : jsstring;
  pc_price : number;
  pc_originalPrice : option number;
  pc_discountPercentage : option number;
  pc_discountAmount : option number;
  pc_availability : jsstring;
  pc_url : jsstring;
  pc_rating : option number;
  pc_reviewCount : option number;
  pc_deliveryTime : option jsstring;
  pc_sellerCount : option number;
  pc_priceRange : option (number * number)
}.

Definition deliveryOptions : list (jsstring * list jsstring) :=
  [ (js "Amazon", map js ["Tomorrow"; "2 days"; "3 days"; "Same day delivery"]%string);
    (js "Flipkart", map js ["2-3 days"; "3-5 days"; "Next day delivery"]%string);
    (js "Myntra", map js ["3-5 days"; "5-7 days"; "2-4 days"]%string);
    (js "Nykaa", map js ["3-4 days"; "4-6 days"; "5-7 days"]%string);
    (js "Croma", map js ["1-2 days"; "2-3 days"; "Same day delivery"]%string);
    (js "Reliance Digital", map js ["2-4 days"; "3-5 days"; "1-3 days"]%string);
    (js "default", map js ["3-5 days"; "5-7 days"; "4-6 days"]%string) ].

Definition platformRatings : list (jsstring * (number * number)) :=
  [ (js "Amazon", (3.8, 4.6)); (js "Flipkart", (3.7, 4.5)); (js "Myntra", (3.9, 4.4));
    (js "Nykaa", (4.0, 4.5)); (js "Croma", (4.1, 4.6));
    (js "Reliance Digital", (3.8, 4.4)) ].

(** [buildPlatformUrl]: the name is encoded before the table is read, and
    the exception is encodeURIComponent's URIError. *)
Definition buildPlatformUrl (platform productName : jsstring) : option jsstring :=
  match encodeURIComponent productName with
  | None => None
  | Some encodedName =>
      let platformUrls :=
        [ (js "Amazon", js "https://www.amazon.in/s?k=" ++ encodedName);
          (js "Flipkart", js "https://www.flipkart.com/search?q=" ++ encodedName);
          (js "Myntra", js "https://www.myntra.com/search?q=" ++ encodedName);
          (js "Nykaa", js "https://www.nykaa.com/search/result/?q=" ++ encodedName);
          (js "Croma", js "https://www.croma.com/search?q=" ++ encodedName);
          (js "Reliance Digital", js "https://www.reliancedigital.in/search?q=" ++ encodedName);
          (js "Ajio", js "https://www.ajio.com/search/?text=" ++ encodedName);
          (js "Purplle", js "https://www.purplle.com/search?q=" ++ encodedName) ] in
      Some (match lookup platformUrls platform with
            | Some u => u
            | None => js "https://www.google.com/search?q=" ++ encodedName
            end)
  end.

Section Service.
Variable host : Host.

Definition generateDeliveryTime (platform : jsstring) : M (option jsstring) :=
  let options :=
    match lookup deliveryOptions platform with
    | Some options => options
    | None => match lookup deliveryOptions (js "default") with
              | Some options => options
              | None => []
              end
    end in
  r <- random host ;;
  ret (atIndex options (Math_floor (r * inject_Z (Z.of_nat (List.length options))))).

Definition generateRealisticRating (platform : jsstring) : M number :=
  let range :=
    match lookup platformRatings platform with
    | Some range => range
    | None => (3.5, 4.5)
    end in
  r <- random host ;;
  ret (Math_round ((fst range + r * (snd range - fst range)) * 10) / 10).

Definition generateRealisticReviewCount (sellerCount : number) : M number :=
  r1 <- random host ;;
  let baseReviews := sellerCount * (50 + r1 * 200) in
  r2 <- random host ;;
  let variation := 0.8 + r2 * 0.4 in
  ret (Math_floor (baseReviews * variation)).

Definition analyzeProductFromUrl (url : jsstring) : M (option ProductData) :=
  try_catch
    (result <- extractProductData host url ;;
     match result with
     | Some result => ret (Some result)
     | None => ret None
     end)
    (ret None).

(** The record pushed for one entry of the market data. *)
Definition comparisonOfMarketPrice (originalProduct : ProductData)
    (priceData : PlatformPrice) : M PriceComparison :=
  url <- orThrow (buildPlatformUrl (pp_platform priceData) (pd_name originalProduct)) ;;
  rating <- generateRealisticRating (pp_platform priceData) ;;
  reviewCount <- generateRealisticReviewCount (pp_sellerCount priceData) ;;
  deliveryTime <- generateDeliveryTime (pp_platform priceData) ;;
  ret {| pc_platform := pp_platform priceData;
         pc_price := pp_price priceData;
         pc_originalPrice := None;
         pc_discountPercentage := None;
         pc_discountAmount := None;
         pc_availability := pp_availability priceData;
         pc_url := url;
         pc_rating := Some rating;
         pc_reviewCount := Some reviewCount;
         pc_deliveryTime := deliveryTime;
         pc_sellerCount := Some (pp_sellerCount priceData);
         pc_priceRange := Some (pp_priceRange priceData) |}.

(** The record pushed for the original product and for a similar one. *)
Definition comparisonOfProduct (product : ProductData) : M PriceComparison :=
  deliveryTime <- generateDeliveryTime (pd_platform product) ;;
  ret {| pc_platform := pd_platform product;
         pc_price := pd_price product;
         pc_originalPrice := pd_originalPrice product;
         pc_discountPercentage := pd_discountPercentage product;
         pc_discountAmount := pd_discountAmount product;
         pc_availability := pd_availability product;
         pc_url := pd_url product;
         pc_rating := pd_rating product;
         pc_reviewCount := pd_reviewCount product;
         pc_deliveryTime := deliveryTime;
         pc_sellerCount := None;
         pc_priceRange := None |}.

(** The comparisons built from the market data: its prices when there are
    any, else the original product followed by the similar products. *)
Definition buildComparisons (originalProduct : ProductData)
    (marketData : MarketDataResponse) : M (list PriceComparison) :=
  match success marketData, data marketData with
  | true, Some data => mapM (comparisonOfMarketPrice originalProduct) (prices data)
  | _, _ =>
      original <- comparisonOfProduct originalProduct ;;
      similarProducts <- findSimilarProducts host originalProduct ;;
      similar <- mapM comparisonOfProduct similarProducts ;;
      ret (original :: similar)
  end.

Definition getRealPriceComparisons (originalProduct : option ProductData)
    (productUrl : jsstring) : M (list PriceComparison) :=
  try_catch
    (originalProduct <-
       match originalProduct with
       | Some p => ret (Some p)
       | None => analyzeProductFromUrl productUrl
       end ;;
     match originalProduct with
     | None => ret []
     | Some originalProduct =>
         marketData <- fetchRealMarketData host (pd_name originalProduct) productUrl
                         (Some (pd_price originalProduct)) ;;
         buildComparisons originalProduct marketData
     end)
    (ret []).
End Service.

(** ** realMarketDataAPI: the price history

    generateRealisticPriceHistory in full, with the calendar of the last 31
    days as an argument; generateRealisticMarketData above keeps of it the
    draw from Math.random only. *)

(** [x % m] on numbers, for a modulus above 0: the remainder of the
    truncated division, with the sign of [x]. *)
Definition jsRem (x m : number) : number :=
  if Qlt_bool x 0 then - (- x - m * Math_floor (- x / m))
  else x - m * Math_floor (x / m).

(** What the loop reads of a Date: getDay, getDate, getMonth and the date
    part of toISOString. *)
Record CalendarDay : Type := {
  getDay : Z;
  getDate : Z;
  getMonth : Z;
  isoDate : jsstring
}.

Record PricePoint : Type := {
  ph_date : jsstring;
  ph_price : number;
  ph_platform : jsstring
}.

(** The values of [i] in the loop: 30 down to 0. *)
Definition daysBack : list Z := map Z.of_nat (rev (seq 0 31)).

Module PriceHistory.
Section PriceHistory.
Variable host : Host.
(** The day [i] days before now. *)
Variable clock : Z -> CalendarDay.

(** The assignment to randomSeed in getRandom; the value returned is the new
    seed divided by 233280. *)
Definition nextSeed (randomSeed : number) : number :=
  jsRem (randomSeed * 9301 + 49297) 233280.

(** The body of the loop over the days, with randomSeed and currentPrice as
    arguments; reading the name of a platform that is not there throws. *)
Fixpoint historyLoop (basePrice : number) (platforms : list Platform)
    (weeklyTrend : number) (days : list Z) (randomSeed currentPrice : number)
    : M (list PricePoint) :=
  match days with
  | [] => ret []
  | i :: days' =>
      let date := clock i in
      let dayOfWeek := getDay date in
      let isWeekend := ((dayOfWeek =? 0) || (dayOfWeek =? 6))%Z in
      let isMonthEnd := (25 <? getDate date)%Z in
      let dailyChange := 0 in
      let dailyChange := if isWeekend then dailyChange - 0.02 else dailyChange in
      let dailyChange := if isMonthEnd then dailyChange - 0.015 else dailyChange in
      let dailyChange := dailyChange + weeklyTrend in
      let randomSeed := nextSeed randomSeed in
      let dailyChange := dailyChange + (randomSeed / 233280 - 0.5) * 0.008 in
      let month := getMonth date in
      let dailyChange :=
        if ((month =? 9) || (month =? 10))%Z then dailyChange - 0.025
        else if ((month =? 6) || (month =? 7))%Z then dailyChange - 0.015
        else dailyChange in
      let currentPrice := currentPrice * (1 + dailyChange) in
      let currentPrice :=
        Math_max (basePrice * 0.8) (Math_min (basePrice * 1.15) currentPrice) in
      let randomSeed := nextSeed randomSeed in
      platform <- orThrow (atIndex platforms
                             (Math_floor (randomSeed / 233280
                                          * inject_Z (Z.of_nat (List.length platforms))))) ;;
      history <- historyLoop basePrice platforms weeklyTrend days' randomSeed currentPrice ;;
      ret ({| ph_date := isoDate date;
              ph_price := Math_round currentPrice;
              ph_platform := plat_name platform |} :: history)
  end.

Definition generateRealisticPriceHistory (basePrice : number)
    (platforms : list Platform) (productUrl : option jsstring)
    : M (list PricePoint) :=
  urlSeed <-
    match productUrl with
    | Some url =>
        if isEmpty url then r <- random host ;; ret (r * 1000000)
        else ret (inject_Z (generateUrlHash url))
    | None => r <- random host ;; ret (r * 1000000)
    end ;;
  let randomSeed := nextSeed urlSeed in
  let weeklyTrend := (randomSeed / 233280 - 0.5) * 0.02 in
  historyLoop basePrice platforms weeklyTrend daysBack randomSeed basePrice.
End PriceHistory.
End PriceHistory.

(** ** flashAIIntegration *)

(** [rating || 0]. *)
Definition ratingOrZero (rating : option number) : number :=
  match rating with
  | Some rating => rating
  | None => 0
  end.

(** [priceComparisons.reduce((sum, p) => sum + (p.rating || 0), 0)]. *)
Definition sumOfRatings (priceComparisons : list PriceComparison) : number :=
  fold_left (fun sum p => sum + ratingOrZero (pc_rating p)) priceComparisons 0.

(** [Math.min(...prices)] and [Math.max(...prices)] of a list with a first
    element. *)
Definition minOf (first : number) (rest : list number) : number :=
  fold_left Math_min rest first.
Definition maxOf (first : number) (rest : list number) : number :=
  fold_left Math_max rest first.

(** Of the market intelligence, the fields computed from the prices and the
    ratings; the formatted texts, the market share and the alternative
    products are left out. *)
Record MarketIntelligence : Type := {
  mi_lowestPrice : option PriceComparison;
  mi_highestPrice : option PriceComparison;
  mi_averagePrice : number;
  mi_priceVolatility : jsstring;
  mi_competitiveness : jsstring
}.

Definition getEmptyMarketIntelligence (originalProduct : option ProductData)
    : MarketIntelligence :=
  {| mi_lowestPrice := None;
     mi_highestPrice := None;
     mi_averagePrice := match originalProduct with
                        | Some product => pd_price product
                        | None => 0
                        end;
     mi_priceVolatility := js "low";
     mi_competitiveness := js "poor" |}.

Definition generateFlashStyleMarketIntelligence (priceComparisons : list PriceComparison)
    (originalProduct : option ProductData) : MarketIntelligence :=
  if (List.length priceComparisons =? 0)%nat
  then getEmptyMarketIntelligence originalProduct
  else
    let validPrices := filter (fun p => Qlt_bool 0 (pc_price p)) priceComparisons in
    match map pc_price validPrices with
    | [] => getEmptyMarketIntelligence originalProduct
    | first :: rest =>
        let prices := first :: rest in
        let minPrice := minOf first rest in
        let maxPrice := maxOf first rest in
        let averagePrice :=
          fold_left Qplus prices 0 / inject_Z (Z.of_nat (List.length prices)) in
        let lowestPrice := find (fun p => Qeq_bool (pc_price p) minPrice) validPrices in
        let highestPrice := find (fun p => Qeq_bool (pc_price p) maxPrice) validPrices in
        let priceVariation := (maxPrice - minPrice) / minPrice * 100 in
        let priceVolatility :=
          if Qlt_bool priceVariation 10 then js "low"
          else if Qlt_bool priceVariation 25 then js "medium"
          else js "high" in
        let count := List.length priceComparisons in
        let avgRating := sumOfRatings priceComparisons / inject_Z (Z.of_nat count) in
        let competitiveness :=
          if (4 <=? count)%nat && Qlt_bool 4 avgRating && Qlt_bool 15 priceVariation
          then js "excellent"
          else if (3 <=? count)%nat && Qlt_bool 3.5 avgRating then js "good"
          else if (2 <=? count)%nat then js "average"
          else js "poor" in
        {| mi_lowestPrice := lowestPrice;
           mi_highestPrice := highestPrice;
           mi_averagePrice := Math_round averagePrice;
           mi_priceVolatility := priceVolatility;
           mi_competitiveness := competitiveness |}
    end.

(** The score of the rating alone: the first part of
    calculateFlashStyleScore. *)
Definition ratingScore (avgRating : number) : number :=
  if Qlt_bool 0 avgRating then
    if Qle_bool 4.5 avgRating then 85 + Math_round ((avgRating - 4.5) * 20)
    else if Qle_bool 4.0 avgRating then 70 + Math_round ((avgRating - 4.0) * 30)
    else if Qle_bool 3.5 avgRating then 55 + Math_round ((avgRating - 3.5) * 30)
    else Math_round (avgRating / 3.5 * 55)
  else 50.

Definition calculateFlashStyleScore (originalProduct : option ProductData)
    (priceComparisons : list PriceComparison) (marketIntelligence : MarketIntelligence)
    : number :=
  let avgRating :=
    match originalProduct with
    | Some product => ratingOrZero (pd_rating product)
    | None => 0
    end in
  let avgRating :=
    if isZero avgRating && (0 <? List.length priceComparisons)%nat
    then sumOfRatings priceComparisons
         / inject_Z (Z.of_nat (List.length priceComparisons))
    else avgRating in
  let score := ratingScore avgRating in
  let platformCount := List.length priceComparisons in
  let platformBonus :=
    if (3 <=? platformCount)%nat then 10
    else if (2 <=? platformCount)%nat then 7
    else if (1 <=? platformCount)%nat then 4
    else 0 in
  let score := score + platformBonus in
  let priceBonus :=
    if (1 <? List.length priceComparisons)%nat then
      if str_eqb (mi_priceVolatility marketIntelligence) (js "high") then 5
      else if str_eqb (mi_priceVolatility marketIntelligence) (js "medium") then 3
      else 2
    else 0 in
  let score := score + priceBonus in
  let inStockCount :=
    List.length (filter (fun p => includes (toLowerCase (pc_availability p)) (js "stock"))
                        priceComparisons) in
  let stockBonus := Math_min (inject_Z (Z.of_nat inStockCount)) 3 in
  let score := score + stockBonus in
  Math_max (Math_min score 98) 25.

(** ** Specification vocabulary *)

(** [returns m P]: from every state [m] returns, without an exception, a
    value that satisfies [P]. *)
Definition returns {A} (m : M A) (P : A -> Prop) : Prop :=
  forall n, exists a n', m n = (Return a, n') /\ P a.

(** The platforms of a response, in order. *)
Definition responsePlatforms (marketData : MarketDataResponse) : list jsstring :=
  match data marketData with
  | Some data => map pp_platform (prices data)
  | None => []
  end.

(** The keyword generateReasonablePrice selects for a lowered name: the
    first of its table, other than default, that the name includes. *)
Definition selectedKeyword (name : jsstring) : option jsstring :=
  option_map fst
    (find (fun entry => negb (str_eqb (fst entry) (js "default"))
                        && includes name (fst entry)) priceRanges).

(** The keywords of the estimator's table that the validator's table
    lacks. *)
Definition estimatorOnlyKeywords : list jsstring :=
  map js ["tv"; "camera"; "dress"; "sneaker"; "sunscreen"; "shampoo"; "microwave";
          "refrigerator"; "washing"; "book"]%string.

(** The text extractPrice tries its patterns on: the price text with every
    unit outside the cleaning class replaced by a blank, trimmed. *)
Definition cleanedPriceText (priceText : jsstring) : jsstring :=
  trim (map (fun c => if keptByCleaning c then c else 32%Z) priceText).

(** None of the price patterns matches the cleaned text. *)
Definition unmatched (priceText : jsstring) : Prop :=
  Forall (fun format => search format (cleanedPriceText priceText) = None) formats.

(** The values of Math.random lie in [0, 1). *)
Definition fairRandom (host : Host) : Prop :=
  forall n, 0 <= Math_random host n /\ Math_random host n < 1.

(** The polynomial in 31 of the code units of a string, most significant
    first, without wrap-around. *)
Definition polynomial31 (str : jsstring) : Z :=
  fold_left (fun acc char => 31 * acc + char)%Z str 0%Z.

(** A digit or the comma that groups digits. *)
Definition isGroupedUnit (c : Z) : bool := isDigit c || (c =? 44)%Z.

(** A lower-case letter, a digit or the underscore. *)
Definition isLowerWordUnit (c : Z) : bool :=
  (isDigit c || (97 <=? c) && (c <=? 122) || (c =? 95))%Z.

(** What holds of a record, however it was extracted. *)
Definition soundRecord (platform url : jsstring) (productData : ProductData) : Prop :=
  pd_name productData <> []
  /\ (10 <= pd_price productData /\ pd_price productData <= 500000)
  /\ (forall o, pd_originalPrice productData = Some o -> 10 <= o /\ o <= 500000)
  /\ pd_platform productData = platform
  /\ pd_url productData = url
  /\ (List.length (pd_features productData) <= 10)%nat
  /\ pd_discountPercentage productData
     = disc_percentage (calculateDiscount (pd_price productData)
                          (pd_originalPrice productData))
  /\ pd_discountAmount productData
     = disc_amount (calculateDiscount (pd_price productData)
                      (pd_originalPrice productData)).

(** What holds of a search result on a platform: [site] is the address the
    platform's extractor writes before the link, and [link] the href
    attribute read from the first result. *)
Definition searchResult (platform site : jsstring) (link : option jsstring)
    (result : ProductData) : Prop :=
  pd_platform result = platform
  /\ pd_name result <> []
  /\ (List.length (pd_name result) <= 150)%nat
  /\ 0 < pd_price result
  /\ exists linkHref,
       link = Some linkHref /\ linkHref <> [] /\ pd_url result = site ++ linkHref.

(** The href attributes the two result extractors read. *)
Definition amazonResultLink (doc : Cheerio) : option jsstring :=
  selAttr (js "href")
    (selFind (js "h2 a")
       (selFirst (doc (attrSelector "data-component-type" "s-search-result" "")))).

Definition flipkartResultLink (doc : Cheerio) : option jsstring :=
  selAttr (js "href") (selFind (js "._1fQZEK") (selFirst (doc (js "._1AtVbE")))).

(** The major platforms other than the given one, in the order they are
    searched. *)
Definition otherMajorPlatforms (platform : jsstring) : list jsstring :=
  filter (fun other => negb (str_eqb platform other)) [js "Amazon"; js "Flipkart"].

(** What holds of the market record of a platform for a base price: the
    price is the base price scaled by 0.912 to 1.134 and rounded, the price
    range brackets the price, and there is at least one seller. *)
Definition soundMarketPrice (basePrice : number) (platform : jsstring)
    (priceData : PlatformPrice) : Prop :=
  pp_platform priceData = platform
  /\ (0.912 * basePrice - 0.5 <= pp_price priceData
      /\ pp_price priceData <= 1.134 * basePrice + 0.5)
  /\ (fst (pp_priceRange priceData) <= pp_price priceData
      /\ pp_price priceData <= snd (pp_priceRange priceData))
  /\ 1 <= pp_sellerCount priceData.

(** What holds of the comparison made of the market record of a platform:
    the price of the record, a rating between 3.5 and 4.6, at least 40
    reviews, at least one seller, a delivery time and a search URL, and no
    list price. *)
Definition soundComparison (basePrice : number) (platform : jsstring)
    (comparison : PriceComparison) : Prop :=
  pc_platform comparison = platform
  /\ (0.912 * basePrice - 0.5 <= pc_price comparison
      /\ pc_price comparison <= 1.134 * basePrice + 0.5)
  /\ (exists sellerCount,
        pc_sellerCount comparison = Some sellerCount /\ 1 <= sellerCount)
  /\ (exists rating,
        pc_rating comparison = Some rating /\ 3.5 <= rating /\ rating <= 4.6)
  /\ (exists reviewCount,
        pc_reviewCount comparison = Some reviewCount /\ 40 <= reviewCount)
  /\ (exists deliveryTime,
        pc_deliveryTime comparison = Some deliveryTime /\ deliveryTime <> [])
  /\ pc_url comparison <> []
  /\ pc_originalPrice comparison = None
  /\ pc_discountPercentage comparison = None.

(** ** Example pages and hosts *)

(** A page on which no selector matches. *)
Definition blankPage : Cheerio := fun _ => [].

(** A page given by the text of one element per selector. *)
Definition pageWith (entries : list (jsstring * jsstring)) : Cheerio :=
  fun selector =>
    match lookup entries selector with
    | Some text => [mkNode text (fun _ => None) (fun _ => [])]
    | None => []
    end.

(** A host without network: every fetch fails and no URL parses.  Its sine
    agrees with the engine's at 0; no example depends on its value
    elsewhere. *)
Definition offlineHost : Host :=
  {| Math_sin := fun _ => 0;
     Math_random := fun _ => 0;
     new_URL := fun _ => None;
     fetchPage := fun _ _ => None |}.

(** A host on which every fetch answers with the given page. *)
Definition servingHost (page : Cheerio) : Host :=
  {| Math_sin := fun _ => 0;
     Math_random := fun _ => 0;
     new_URL := fun _ => None;
     fetchPage := fun _ _ => Some page |}.

(** An Amazon product page whose title is 149 letters followed by an emoji,
    a surrogate pair, with a price of 999. *)
Definition longTitlePage : Cheerio :=
  pageWith [ (js "#productTitle", repeat 65%Z 149 ++ [55357; 56832]%Z);
             (js ".a-price .a-offscreen", [rupee] ++ js "999") ].

(** A Myntra product page: a wallet at 599. *)
Definition walletPage : Cheerio :=
  pageWith [ (js "h1", js "Leather Wallet");
             (js ".price", [rupee] ++ js "599") ].

Definition amazonUrl : jsstring := js "https://www.amazon.in/dp/B0EXAMPLE".
Definition myntraUrl : jsstring := js "https://www.myntra.com/wallets/12345/buy".

(** A Flipkart result page: one result card with name, price and link. *)
Definition flipkartResultsPage : Cheerio :=
  fun selector =>
    if str_eqb selector (js "._1AtVbE") then
      [mkNode (js "Leather Wallet 499")
         (fun _ => None)
         (fun q =>
            if str_eqb q (js "._4rR01T")
            then [mkNode (js "Leather Wallet") (fun _ => None) (fun _ => [])]
            else if str_eqb q (js "._30jeq3")
            then [mkNode ([rupee] ++ js "499") (fun _ => None) (fun _ => [])]
            else if str_eqb q (js "._1fQZEK")
            then [mkNode [] (fun a => if str_eqb a (js "href")
                                      then Some (js "/leather-wallet/p/itm1")
                                      else None)
                         (fun _ => [])]
            else [])]
    else [].

(** A page with the title "tv cream" and no price. *)
Definition tvCreamPage : Cheerio := pageWith [ (js "h1", js "tv cream") ].

(** A wallet at 599 on Myntra with the given rating. *)
Definition ratedWallet (rating : number) : ProductData :=
  {| pd_name := js "Leather Wallet";
     pd_price := 599;
     pd_originalPrice := None;
     pd_discountPercentage := None;
     pd_discountAmount := None;
     pd_rating := Some rating;
     pd_reviewCount := None;
     pd_availability := js "In Stock";
     pd_features := [];
     pd_platform := js "Myntra";
     pd_url := myntraUrl |}.

(** * Properties *)

(** ** Numbers *)

Lemma Qlt_bool_iff (a b : Q) : Qlt_bool a b = true <-> a < b.
Proof.
  unfold Qlt_bool. rewrite negb_true_iff. split; intro H.
  - apply Qnot_le_lt. intro Hle. apply Qle_bool_iff in Hle. congruence.
  - destruct (Qle_bool b a) eqn:E; [|reflexivity].
    apply Qle_bool_iff in E. exfalso. apply (Qlt_not_le _ _ H E).
Qed.

Lemma Qlt_bool_false (a b : Q) : Qlt_bool a b = false <-> b <= a.
Proof.
  unfold Qlt_bool. rewrite negb_false_iff. apply Qle_bool_iff.
Qed.

Lemma Qle_bool_false (a b : Q) : Qle_bool a b = false <-> b < a.
Proof.
  split; intro H.
  - apply Qnot_le_lt. intro Hle. apply Qle_bool_iff in Hle. congruence.
  - destruct (Qle_bool a b) eqn:E; [|reflexivity].
    apply Qle_bool_iff in E. exfalso. apply (Qlt_not_le _ _ H E).
Qed.

Lemma isZero_true (x : Q) : isZero x = true <-> x == 0.
Proof. apply Qeq_bool_iff. Qed.

Lemma isZero_false (x : Q) : isZero x = false <-> ~ x == 0.
Proof.
  unfold isZero. split; intro H.
  - intro E. apply Qeq_bool_iff in E. congruence.
  - destruct (Qeq_bool x 0) eqn:E; [|reflexivity].
    apply Qeq_bool_iff in E. contradiction.
Qed.

(** The tactic turns the boolean tests of a hypothesis or of the goal into
    the order facts they decide. *)
Ltac order_facts :=
  repeat match goal with
         | H : Qlt_bool _ _ = true |- _ => apply Qlt_bool_iff in H
         | H : Qlt_bool _ _ = false |- _ => apply Qlt_bool_false in H
         | H : Qle_bool _ _ = true |- _ => apply Qle_bool_iff in H
         | H : Qle_bool _ _ = false |- _ => apply Qle_bool_false in H
         | H : isZero _ = true |- _ => apply isZero_true in H
         | H : isZero _ = false |- _ => apply isZero_false in H
         | H : _ || _ = false |- _ => apply orb_false_iff in H; destruct H
         | H : _ && _ = true |- _ => apply andb_true_iff in H; destruct H
         end.

Lemma Math_floor_le (x : Q) : Math_floor x <= x.
Proof. apply Qfloor_le. Qed.

Lemma Math_floor_gt (x : Q) : x < Math_floor x + 1.
Proof.
  unfold Math_floor. generalize (Qlt_floor x). rewrite inject_Z_plus. auto.
Qed.

Lemma Math_floor_nonneg (x : Q) : 0 <= x -> 0 <= Math_floor x.
Proof.
  intro H. unfold Math_floor. change 0 with (inject_Z 0).
  rewrite <- Zle_Qle. change 0%Z with (Qfloor 0). now apply Qfloor_resp_le.
Qed.

Lemma Math_round_nonneg (x : Q) : 0 <= x -> 0 <= Math_round x.
Proof.
  intro H. apply (Math_floor_nonneg (x := x + 0.5)). lra.
Qed.

(** An integer below a bound stays below it when the bound is an integer. *)
Lemma Math_floor_lt_Z (x : Q) (n : Z) : x < inject_Z n -> Math_floor x <= inject_Z n - 1.
Proof.
  intro H. unfold Math_floor.
  assert (Hlt : (Qfloor x < n)%Z).
  { rewrite Zlt_Qlt. eapply Qle_lt_trans; [apply Qfloor_le | exact H]. }
  assert (Hle : (Qfloor x <= n - 1)%Z) by lia.
  rewrite Zle_Qle in Hle. unfold Z.sub in Hle.
  rewrite inject_Z_plus in Hle. exact Hle.
Qed.

(** *** Powers of two *)

Lemma pow2_pos (e : Z) : 0 < 2 ^ e.
Proof. apply Qpower_0_lt. reflexivity. Qed.

Lemma pow2_plus (a b : Z) : 2 ^ (a + b) == 2 ^ a * 2 ^ b.
Proof. apply Qpower_plus. discriminate. Qed.

Lemma pow2_le (a b : Z) : (a <= b)%Z -> 2 ^ a <= 2 ^ b.
Proof. intro H. apply Qpower_le_compat_l; [exact H | discriminate]. Qed.

Lemma pow2_lt_inv (a b : Z) : 2 ^ a < 2 ^ b -> (a < b)%Z.
Proof. intro H. apply (Qpower_lt_compat_l_inv 2); [exact H | reflexivity]. Qed.


Lemma pow2_Z (n : Z) : (0 <= n)%Z -> inject_Z (2 ^ n) == 2 ^ n.
Proof. intro H. apply (Zpower_Qpower 2 n H). Qed.

(** *** The binary logarithm *)

Lemma ilog2_spec (x : Q) : 0 < x -> 2 ^ ilog2 x <= x /\ x < 2 ^ (ilog2 x + 1).
Proof.
  intro Hx. destruct x as [n d]. unfold ilog2. cbn [Qnum Qden].
  assert (Hn : (0 < n)%Z) by (unfold Qlt in Hx; simpl in Hx; lia).
  set (ln := Z.log2 n). set (ld := Z.log2 (Z.pos d)).
  destruct (Z.log2_spec n Hn) as [Hn1 Hn2]. fold ln in Hn1, Hn2.
  destruct (Z.log2_spec (Z.pos d) (Pos2Z.is_pos d)) as [Hd1 Hd2]. fold ld in Hd1, Hd2.
  assert (Hln : (0 <= ln)%Z) by apply Z.log2_nonneg.
  assert (Hld : (0 <= ld)%Z) by apply Z.log2_nonneg.
  assert (Ex : n # d == inject_Z n / inject_Z (Z.pos d)) by apply Qmake_Qdiv.
  assert (HdQ : 0 < inject_Z (Z.pos d)) by (rewrite <- (Zlt_Qlt 0); lia).
  (* the bounds of numerator and denominator, as rationals *)
  assert (Qn1 : 2 ^ ln <= inject_Z n) by (rewrite <- pow2_Z, <- Zle_Qle; assumption).
  assert (Qn2 : inject_Z n < 2 ^ (ln + 1))
    by (rewrite <- pow2_Z, <- Zlt_Qlt by lia; replace (ln + 1)%Z with (Z.succ ln) by lia;
        assumption).
  assert (Qd1 : 2 ^ ld <= inject_Z (Z.pos d)) by (rewrite <- pow2_Z, <- Zle_Qle; assumption).
  assert (Qd2 : inject_Z (Z.pos d) < 2 ^ (ld + 1))
    by (rewrite <- pow2_Z, <- Zlt_Qlt by lia; replace (ld + 1)%Z with (Z.succ ld) by lia;
        assumption).
  assert (Elo : 2 ^ (ln - ld - 1) * 2 ^ (ld + 1) == 2 ^ ln)
    by (rewrite <- pow2_plus; replace (ln - ld - 1 + (ld + 1))%Z with ln by lia; reflexivity).
  assert (Ehi : 2 ^ (ln - ld + 1) * 2 ^ ld == 2 ^ (ln + 1))
    by (rewrite <- pow2_plus; replace (ln - ld + 1 + ld)%Z with (ln + 1)%Z by lia;
        reflexivity).
  pose proof (pow2_pos (ln - ld - 1)) as P1. pose proof (pow2_pos (ln - ld + 1)) as P2.
  pose proof (pow2_pos ld) as P3. pose proof (pow2_pos (ld + 1)) as P4.
  assert (Hlow : 2 ^ (ln - ld - 1) <= n # d).
  { rewrite Ex. apply Qle_shift_div_l; [exact HdQ|].
    apply Qle_trans with (2 ^ (ln - ld - 1) * 2 ^ (ld + 1)).
    - apply Qmult_le_l; [exact P1 | lra].
    - rewrite Elo. exact Qn1. }
  assert (Hhigh : n # d < 2 ^ (ln - ld + 1)).
  { rewrite Ex. apply Qlt_shift_div_r; [exact HdQ|].
    apply Qlt_le_trans with (2 ^ (ln + 1)); [exact Qn2|].
    rewrite <- Ehi. apply Qmult_le_l; [exact P2 | exact Qd1]. }
  destruct (Qle_bool (2 ^ (ln - ld)) (n # d)) eqn:E.
  - apply Qle_bool_iff in E. split; [exact E | exact Hhigh].
  - apply Qle_bool_false in E. split; [exact Hlow|].
    replace (ln - ld - 1 + 1)%Z with (ln - ld)%Z by lia. exact E.
Qed.

Lemma ilog2_lt (x : Q) (k : Z) : 0 < x -> x < 2 ^ (k + 1) -> (ilog2 x <= k)%Z.
Proof.
  intros Hx Hk. destruct (@ilog2_spec x Hx) as [H1 _].
  assert (H : 2 ^ ilog2 x < 2 ^ (k + 1)) by lra.
  apply pow2_lt_inv in H. lia.
Qed.

Lemma ilog2_le (x y : Q) : 0 < x -> x <= y -> (ilog2 x <= ilog2 y)%Z.
Proof.
  intros Hx Hxy. assert (Hy : 0 < y) by lra.
  destruct (@ilog2_spec y Hy) as [_ H2].
  apply ilog2_lt; [exact Hx | lra].
Qed.

(** *** Rounding to the nearest integer *)

Lemma roundEven_cases (x : Q) :
  (roundEven x = Qfloor x /\ x - inject_Z (Qfloor x) <= 0.5)
  \/ (roundEven x = (Qfloor x + 1)%Z /\ 0.5 <= x - inject_Z (Qfloor x)).
Proof.
  unfold roundEven.
  destruct (Qlt_bool (x - inject_Z (Qfloor x)) 0.5) eqn:E1.
  - apply Qlt_bool_iff in E1. left. split; [reflexivity | lra].
  - apply Qlt_bool_false in E1.
    destruct (Qlt_bool 0.5 (x - inject_Z (Qfloor x))) eqn:E2.
    + right. split; [reflexivity | exact E1].
    + apply Qlt_bool_false in E2. destruct (Z.even (Qfloor x)).
      * left. split; [reflexivity | exact E2].
      * right. split; [reflexivity | exact E1].
Qed.


Lemma roundEven_integer (x : Q) (n : Z) : x == inject_Z n -> roundEven x = n.
Proof.
  intro E.
  assert (Ef : Qfloor x = n) by (rewrite E; apply Qfloor_Z).
  unfold roundEven. rewrite Ef.
  assert (Hd : Qlt_bool (x - inject_Z n) 0.5 = true) by (apply Qlt_bool_iff; lra).
  rewrite Hd. reflexivity.
Qed.

Lemma roundEven_monotone (x y : Q) : x <= y -> (roundEven x <= roundEven y)%Z.
Proof.
  intro Hxy. pose proof (Qfloor_resp_le x y Hxy) as Hf.
  pose proof (Qfloor_le x) as Hx1. pose proof (Qlt_floor x) as Hx2.
  pose proof (Qfloor_le y) as Hy1. pose proof (Qlt_floor y) as Hy2.
  rewrite inject_Z_plus in Hx2, Hy2. change (inject_Z 1) with 1 in Hx2, Hy2.
  destruct (Z.eq_dec (Qfloor x) (Qfloor y)) as [Ef|Nf].
  - unfold roundEven. rewrite <- Ef in *.
    set (f := Qfloor x) in *.
    destruct (Qlt_bool (x - inject_Z f) 0.5) eqn:X1;
      destruct (Qlt_bool (y - inject_Z f) 0.5) eqn:Y1;
      try (apply Qlt_bool_iff in X1); try (apply Qlt_bool_false in X1);
      try (apply Qlt_bool_iff in Y1); try (apply Qlt_bool_false in Y1);
      try lia; try (exfalso; lra).
    + destruct (Qlt_bool 0.5 (y - inject_Z f)); [lia|]. destruct (Z.even f); lia.
    + destruct (Qlt_bool 0.5 (x - inject_Z f)) eqn:X2;
        destruct (Qlt_bool 0.5 (y - inject_Z f)) eqn:Y2;
        try (apply Qlt_bool_iff in X2); try (apply Qlt_bool_false in X2);
        try (apply Qlt_bool_iff in Y2); try (apply Qlt_bool_false in Y2);
        try lia; try (exfalso; lra);
        destruct (Z.even f); lia.
  - assert (Hlt : (Qfloor x + 1 <= Qfloor y)%Z) by lia.
    destruct (roundEven_cases x) as [[Ex _]|[Ex _]];
      destruct (roundEven_cases y) as [[Ey _]|[Ey _]]; rewrite Ex, Ey; lia.
Qed.

(** *** Rounding to binary64 *)

Lemma quantum_pos (x : Q) : 0 < quantum x.
Proof. apply pow2_pos. Qed.

Lemma exponent_positive (x : Q) : 0 < x -> exponent x = Z.max (ilog2 x) (-1022).
Proof.
  intro H. unfold exponent.
  assert (E : Qabs x = x).
  { destruct x as [n d]. unfold Qabs. unfold Qlt in H. simpl in H.
    rewrite Z.abs_eq by lia. reflexivity. }
  rewrite E. reflexivity.
Qed.

Lemma exponent_le (x y : Q) : 0 < x -> x <= y -> (exponent x <= exponent y)%Z.
Proof.
  intros Hx Hxy. rewrite !exponent_positive by lra.
  pose proof (@ilog2_le x y Hx Hxy). lia.
Qed.

Lemma below_binade_end (x : Q) : 0 < x -> x < 2 ^ (exponent x + 1).
Proof.
  intro Hx. destruct (@ilog2_spec x Hx) as [_ H].
  apply Qlt_le_trans with (1 := H). apply pow2_le.
  rewrite exponent_positive by exact Hx. lia.
Qed.

Lemma scaled_binade (e : Z) (k : Z) : 2 ^ (e + k) == 2 ^ (52 + k) * 2 ^ (e - 52).
Proof.
  rewrite <- pow2_plus. replace (52 + k + (e - 52))%Z with (e + k)%Z by lia. reflexivity.
Qed.

Lemma round64_zero : round64 0 == 0.
Proof. vm_compute. reflexivity. Qed.

Lemma round64_nonneg (x : Q) : 0 <= x -> 0 <= round64 x.
Proof.
  intro H. unfold round64. pose proof (quantum_pos x) as Hq.
  apply Qmult_le_0_compat; [|lra].
  change 0 with (inject_Z 0). rewrite <- Zle_Qle.
  rewrite <- (@roundEven_integer 0 0) by reflexivity.
  apply roundEven_monotone. apply Qle_shift_div_l; [exact Hq | lra].
Qed.

Lemma round64_upper (x : Q) : 0 < x -> round64 x <= 2 ^ (exponent x + 1).
Proof.
  intro Hx. unfold round64. pose proof (quantum_pos x) as Hq.
  pose proof (@below_binade_end x Hx) as Hend.
  rewrite (scaled_binade (exponent x) 1). fold (quantum x).
  apply Qmult_le_compat_r; [|lra].
  change (52 + 1)%Z with 53%Z. rewrite <- (@pow2_Z 53) by lia. rewrite <- Zle_Qle.
  rewrite <- (@roundEven_integer (inject_Z (2 ^ 53)) (2 ^ 53)) by reflexivity.
  apply roundEven_monotone. apply Qle_shift_div_r; [exact Hq|].
  rewrite (@pow2_Z 53) by lia. change 53%Z with (52 + 1)%Z.
  unfold quantum. rewrite <- scaled_binade. lra.
Qed.

Lemma round64_lower (x : Q) :
  0 < x -> (-1022 <= ilog2 x)%Z -> 2 ^ exponent x <= round64 x.
Proof.
  intros Hx Hnormal. unfold round64. pose proof (quantum_pos x) as Hq.
  destruct (@ilog2_spec x Hx) as [Hlow _].
  assert (Ee : exponent x = ilog2 x) by (rewrite exponent_positive by exact Hx; lia).
  rewrite <- Ee in Hlow.
  replace (exponent x) with (exponent x + 0)%Z at 1 by lia.
  rewrite (scaled_binade (exponent x) 0). fold (quantum x).
  apply Qmult_le_compat_r; [|lra].
  change (52 + 0)%Z with 52%Z. rewrite <- (@pow2_Z 52) by lia. rewrite <- Zle_Qle.
  rewrite <- (@roundEven_integer (inject_Z (2 ^ 52)) (2 ^ 52)) at 1 by reflexivity.
  apply roundEven_monotone. apply Qle_shift_div_l; [exact Hq|].
  rewrite (@pow2_Z 52) by lia. change 52%Z with (52 + 0)%Z at 1.
  unfold quantum. rewrite <- scaled_binade.
  replace (exponent x + 0)%Z with (exponent x) by lia. exact Hlow.
Qed.

Lemma round64_of_zero (x : Q) : x == 0 -> round64 x == 0.
Proof.
  intro Ez. unfold round64.
  assert (E : x / quantum x == inject_Z 0).
  { generalize (quantum x). intro q. unfold Qdiv. rewrite Ez. ring. }
  rewrite (@roundEven_integer _ 0 E). ring.
Qed.

Lemma positive_or_zero (x : Q) : 0 <= x -> x == 0 \/ 0 < x.
Proof.
  intro H. destruct (Qeq_dec x 0) as [Ez|Nz]; [left; exact Ez|].
  right. destruct (Qlt_le_dec 0 x) as [Hlt|Hle]; [exact Hlt|].
  exfalso. apply Nz. lra.
Qed.

(** Rounding keeps the order of numbers that are not negative. *)
Lemma round64_monotone (x y : Q) : 0 <= x -> x <= y -> round64 x <= round64 y.
Proof.
  intros Hx Hxy.
  destruct (@positive_or_zero x Hx) as [Ez|Hpos].
  - rewrite (@round64_of_zero x Ez). apply round64_nonneg. lra.
  - assert (Hy : 0 < y) by lra.
    pose proof (@exponent_le x y Hpos Hxy) as He.
    destruct (Z.eq_dec (exponent x) (exponent y)) as [Ee|Ne].
    + unfold round64, quantum. rewrite Ee. pose proof (pow2_pos (exponent y - 52)) as Hq.
      apply Qmult_le_compat_r; [|lra].
      rewrite <- Zle_Qle. apply roundEven_monotone.
      apply Qmult_le_compat_r; [exact Hxy|]. apply Qinv_le_0_compat. lra.
    + apply Qle_trans with (2 ^ (exponent x + 1)); [apply round64_upper, Hpos|].
      apply Qle_trans with (2 ^ exponent y); [apply pow2_le; lia|].
      apply round64_lower; [exact Hy|].
      rewrite (@exponent_positive x Hpos) in He, Ne.
      rewrite (@exponent_positive y Hy) in He, Ne. lia.
Qed.


(** Whole numbers up to 2^53 are binary64 numbers. *)
Lemma round64_integer (z : Z) :
  (0 <= z <= 2 ^ 53)%Z -> round64 (inject_Z z) == inject_Z z.
Proof.
  intros [H0 H53].
  destruct (Z.eq_dec z 0) as [->|Nz]; [apply round64_zero|].
  assert (Hpos : 0 < inject_Z z) by (rewrite <- (Zlt_Qlt 0); lia).
  destruct (Z.eq_dec z (2 ^ 53)) as [->|N53]; [vm_compute; reflexivity|].
  assert (Hlt : inject_Z z < 2 ^ (52 + 1))
    by (change (52 + 1)%Z with 53%Z; rewrite <- (@pow2_Z 53), <- Zlt_Qlt by lia; lia).
  pose proof (@ilog2_lt _ 52 Hpos Hlt) as Hlog.
  assert (Hlog0 : (0 <= ilog2 (inject_Z z))%Z).
  { assert (H1 : 2 ^ 0 <= inject_Z z)
      by (change (2 ^ 0) with (inject_Z 1); rewrite <- Zle_Qle; lia).
    destruct (@ilog2_spec _ Hpos) as [_ Hs].
    assert (Hp : 2 ^ 0 < 2 ^ (ilog2 (inject_Z z) + 1)) by lra.
    apply pow2_lt_inv in Hp. lia. }
  assert (Ee : exponent (inject_Z z) = ilog2 (inject_Z z))
    by (rewrite exponent_positive by exact Hpos; lia).
  unfold round64, quantum. rewrite Ee.
  set (e := ilog2 (inject_Z z)) in *.
  assert (Eq : 2 ^ (e - 52) * inject_Z (2 ^ (52 - e)) == 1).
  { rewrite pow2_Z by lia. rewrite <- pow2_plus.
    replace (e - 52 + (52 - e))%Z with 0%Z by lia. reflexivity. }
  pose proof (pow2_pos (e - 52)) as Hq.
  assert (Escaled : inject_Z z / 2 ^ (e - 52) == inject_Z (z * 2 ^ (52 - e))).
  { rewrite inject_Z_mult.
    set (m := inject_Z (2 ^ (52 - e))) in *. set (q := 2 ^ (e - 52)) in *.
    assert (Em : m == / q) by (apply (Qmult_inj_l _ _ q); [lra|]; rewrite Eq; field; lra).
    rewrite Em. reflexivity. }
  rewrite (@roundEven_integer _ _ Escaled). rewrite inject_Z_mult.
  set (m := inject_Z (2 ^ (52 - e))) in *. set (q := 2 ^ (e - 52)) in *.
  rewrite <- Qmult_assoc, (Qmult_comm m q), Eq. ring.
Qed.

(** Rounding does not depend on the fraction that represents a number. *)
Lemma roundEven_comp (x y : Q) : x == y -> roundEven x = roundEven y.
Proof.
  intro E. unfold roundEven. rewrite (Qfloor_comp _ _ E).
  assert (Ed : x - inject_Z (Qfloor y) == y - inject_Z (Qfloor y)) by (rewrite E; reflexivity).
  unfold Qlt_bool. rewrite !(Qleb_comp _ _ (Qeq_refl 0.5) _ _ Ed).
  rewrite !(Qleb_comp _ _ Ed _ _ (Qeq_refl 0.5)). reflexivity.
Qed.

Lemma ilog2_unique (x : Q) (e : Z) :
  0 < x -> 2 ^ e <= x -> x < 2 ^ (e + 1) -> ilog2 x = e.
Proof.
  intros Hx H1 H2. destruct (@ilog2_spec x Hx) as [S1 S2].
  assert (A : 2 ^ e < 2 ^ (ilog2 x + 1)) by lra.
  assert (B : 2 ^ ilog2 x < 2 ^ (e + 1)) by lra.
  apply pow2_lt_inv in A, B. lia.
Qed.

Lemma round64_comp (x y : Q) : 0 <= x -> x == y -> round64 x == round64 y.
Proof.
  intros Hx E.
  destruct (@positive_or_zero x Hx) as [Ez|Hpos].
  - rewrite (@round64_of_zero x Ez). rewrite (@round64_of_zero y); [reflexivity|].
    rewrite <- E. exact Ez.
  - assert (Hy : 0 < y) by lra.
    assert (Ee : exponent x = exponent y).
    { rewrite (@exponent_positive x Hpos), (@exponent_positive y Hy). f_equal.
      destruct (@ilog2_spec y Hy) as [S1 S2].
      apply ilog2_unique; [exact Hpos | lra | lra]. }
    unfold round64, quantum. rewrite Ee.
    assert (Ed : x / 2 ^ (exponent y - 52) == y / 2 ^ (exponent y - 52))
      by (rewrite E; reflexivity).
    rewrite (roundEven_comp Ed). reflexivity.
Qed.

(** [Math.abs(x - Math.floor(x))] lies in [0, 1). *)
Lemma fraction_range (x : Q) :
  0 <= Qabs (x - Math_floor x) /\ Qabs (x - Math_floor x) < 1.
Proof.
  pose proof (Math_floor_le x) as Hle. pose proof (Math_floor_gt x) as Hgt.
  rewrite Qabs_pos by lra. split; lra.
Qed.

(** A seed in [0, 1) scaled to the integers [lo .. hi]. *)
Lemma scaled_seed_range (seed : Q) (lo hi : Z) :
  0 <= seed -> seed < 1 -> (lo <= hi)%Z ->
  inject_Z lo <= Math_floor (seed * (inject_Z hi - inject_Z lo + 1)) + inject_Z lo
  /\ Math_floor (seed * (inject_Z hi - inject_Z lo + 1)) + inject_Z lo <= inject_Z hi.
Proof.
  intros H0 H1 Hlh.
  assert (Hspan : 0 <= inject_Z hi - inject_Z lo).
  { rewrite Zle_Qle in Hlh. lra. }
  split.
  - assert (0 <= Math_floor (seed * (inject_Z hi - inject_Z lo + 1))).
    { apply Math_floor_nonneg. nra. }
    lra.
  - assert (Hb : Math_floor (seed * (inject_Z hi - inject_Z lo + 1))
                 <= inject_Z (hi - lo + 1) - 1).
    { apply Math_floor_lt_Z. unfold Z.sub.
      rewrite !inject_Z_plus, inject_Z_opp. change (inject_Z 1) with 1.
      assert (0 < (1 - seed) * (inject_Z hi - inject_Z lo + 1))
        by (apply Qmult_lt_0_compat; lra).
      lra. }
    unfold Z.sub in Hb. rewrite !inject_Z_plus, inject_Z_opp in Hb.
    change (inject_Z 1) with 1 in Hb. lra.
Qed.

Lemma clamp_range (p lo hi : Q) :
  lo <= hi -> lo <= Math_min (Math_max p lo) hi /\ Math_min (Math_max p lo) hi <= hi.
Proof.
  intro H. unfold Math_min, Math_max.
  destruct (Qle_bool p lo) eqn:E1;
    [destruct (Qle_bool lo hi) eqn:E2 | destruct (Qle_bool p hi) eqn:E2];
    order_facts; split; lra.
Qed.

(** ** The tables *)

Lemma priceRanges_sound :
  Forall (fun entry => (100 <= min (snd entry) <= max (snd entry))%Z
                       /\ (max (snd entry) <= 200000)%Z) priceRanges.
Proof. repeat constructor; simpl; lia. Qed.

Lemma selectedPriceRange_sound (name : jsstring) :
  (100 <= min (selectedPriceRange name) <= max (selectedPriceRange name))%Z
  /\ (max (selectedPriceRange name) <= 200000)%Z.
Proof.
  unfold selectedPriceRange.
  destruct (find _ priceRanges) as [[keyword range]|] eqn:E.
  - apply find_some in E. destruct E as [Hin _].
    exact (proj1 (Forall_forall _ _) priceRanges_sound _ Hin).
  - simpl. lia.
Qed.

Lemma validationRanges_sound :
  Forall (fun entry =>
            (50 <= vmin (snd entry) <= typicalMin (snd entry))%Z
            /\ (typicalMin (snd entry) <= typicalMax (snd entry))%Z
            /\ (typicalMax (snd entry) <= vmax (snd entry) <= 300000)%Z)
         validationRanges.
Proof. repeat constructor; simpl; lia. Qed.

Lemma matchingRange_sound (name detected : jsstring) (range : ValidationRange) :
  matchingRange name = Some (detected, range) ->
  (50 <= vmin range <= typicalMin range)%Z
  /\ (typicalMin range <= typicalMax range)%Z
  /\ (typicalMax range <= vmax range <= 300000)%Z.
Proof.
  unfold matchingRange. intro E. apply find_some in E. destruct E as [Hin _].
  exact (proj1 (Forall_forall _ _) validationRanges_sound _ Hin).
Qed.

(** ** The estimator *)

(** The estimate lies in the range the estimator selects. *)
Lemma generateReasonablePrice_in_selected (host : Host) (s : jsstring) :
  inject_Z (min (selectedPriceRange (toLowerCase s))) <= generateReasonablePrice host s
  /\ generateReasonablePrice host s <= inject_Z (max (selectedPriceRange (toLowerCase s))).
Proof.
  unfold generateReasonablePrice.
  destruct (selectedPriceRange_sound (toLowerCase s)) as [[_ Hle] _].
  destruct (fraction_range (Math_sin host (generateSimpleHash s) * 10000)) as [H0 H1].
  apply scaled_seed_range; assumption.
Qed.

Lemma generateReasonablePrice_absolute (host : Host) (s : jsstring) :
  100 <= generateReasonablePrice host s /\ generateReasonablePrice host s <= 200000.
Proof.
  destruct (generateReasonablePrice_in_selected host s) as [Hlo Hhi].
  destruct (selectedPriceRange_sound (toLowerCase s)) as [[Hmin _] Hmax].
  rewrite Zle_Qle in Hmin, Hmax.
  change (inject_Z 100) with 100 in Hmin. change (inject_Z 200000) with 200000 in Hmax.
  split; [eapply Qle_trans; [exact Hmin | exact Hlo]
         | eapply Qle_trans; [exact Hhi | exact Hmax]].
Qed.

(** C3.  Determinism of the estimator: the estimate of a string depends on
    nothing but the string and the engine's sine.  Two calls, wherever they
    are made (whatever Math.random returns, whatever the network and the URL
    parser answer), return the same value; the hash it is seeded from is a
    function of the string alone. *)
Theorem generateReasonablePrice_deterministic (host1 host2 : Host) (s : jsstring) :
  (forall z, Math_sin host1 z = Math_sin host2 z) ->
  generateReasonablePrice host1 s = generateReasonablePrice host2 s.
Proof.
  intro Hsin. unfold generateReasonablePrice. rewrite Hsin. reflexivity.
Qed.

Lemma generateReasonablePrice_deterministic_witness :
  generateReasonablePrice offlineHost (js "Samsung Galaxy Phone")
  = generateReasonablePrice (servingHost walletPage) (js "Samsung Galaxy Phone").
Proof.
  apply generateReasonablePrice_deterministic. intro z. reflexivity.
Defined.

(** A keyword of both tables has its estimator range inside its validator
    range. *)
Lemma shared_keyword_ranges :
  Forall (fun ventry =>
            Forall (fun pentry =>
                      fst pentry = fst ventry ->
                      (vmin (snd ventry) <= min (snd pentry))%Z
                      /\ (max (snd pentry) <= vmax (snd ventry))%Z) priceRanges)
         validationRanges.
Proof.
  apply Forall_forall. intros ventry Hv. apply Forall_forall. intros pentry Hp E.
  simpl in Hv.
  repeat (destruct Hv as [<-|Hv];
          [simpl in Hp;
           repeat (destruct Hp as [<-|Hp]; [try discriminate E; simpl; lia|]);
           contradiction|]).
  contradiction.
Qed.

(** The estimate under the keyword both the estimator and the validator
    pick. *)
Lemma estimate_in_shared_category (host : Host) (s detected : jsstring)
    (range : ValidationRange) :
  matchingRange (toLowerCase s) = Some (detected, range) ->
  selectedKeyword (toLowerCase s) = Some detected ->
  inject_Z (vmin range) <= generateReasonablePrice host s
  /\ generateReasonablePrice host s <= inject_Z (vmax range).
Proof.
  intros Hv He.
  destruct (generateReasonablePrice_in_selected host s) as [Hlo Hhi].
  unfold matchingRange in Hv. apply find_some in Hv. destruct Hv as [Hvin _].
  unfold selectedKeyword in He. unfold selectedPriceRange in Hlo, Hhi.
  destruct (find _ priceRanges) as [[keyword selected]|] eqn:Ef; [|discriminate].
  apply find_some in Ef. destruct Ef as [Hpin _].
  cbn [option_map fst] in He. injection He as ->.
  pose proof (proj1 (Forall_forall _ _)
                (proj1 (Forall_forall _ _) shared_keyword_ranges _ Hvin) _ Hpin eq_refl)
    as [Hmin Hmax].
  cbn [snd] in Hmin, Hmax. rewrite Zle_Qle in Hmin, Hmax. split; lra.
Qed.

(** An estimate the validator has no category for, or the estimator's own,
    passes validation as it is. *)
Lemma estimate_passes_validation (host : Host) (s platform : jsstring) :
  matchingRange (toLowerCase s) = None
  \/ (exists detected range,
        matchingRange (toLowerCase s) = Some (detected, range)
        /\ selectedKeyword (toLowerCase s) = Some detected) ->
  validateAndNormalizePrice host (generateReasonablePrice host s) s platform
  = generateReasonablePrice host s.
Proof.
  intro Hcategory.
  destruct (generateReasonablePrice_absolute host s) as [Hlo Hhi].
  assert (Hrange : forall detected range,
            matchingRange (toLowerCase s) = Some (detected, range) ->
            inject_Z (vmin range) <= generateReasonablePrice host s
            /\ generateReasonablePrice host s <= inject_Z (vmax range)).
  { intros detected range Hv.
    destruct Hcategory as [Hnone|(detected' & range' & Hv' & He)]; [congruence|].
    rewrite Hv in Hv'. injection Hv' as <- <-.
    exact (estimate_in_shared_category host s Hv He). }
  clear Hcategory.
  generalize dependent (generateReasonablePrice host s). intros e Hlo Hhi Hrange.
  unfold validateAndNormalizePrice, validatePriceByCategory.
  unfold maxReasonablePrice, minReasonablePrice.
  destruct (isZero e) eqn:E1; [order_facts; lra|].
  destruct (Qle_bool e 0) eqn:E2; [order_facts; lra|]. cbn [orb].
  destruct (Qlt_bool 500000 e) eqn:E3; [order_facts; lra|].
  destruct (Qlt_bool e 10) eqn:E4; [order_facts; lra|].
  destruct (matchingRange (toLowerCase s)) as [[detected range]|]; [|reflexivity].
  destruct (Hrange detected range eq_refl) as [Hmin Hmax].
  destruct (Qlt_bool e (inject_Z (vmin range))) eqn:E5; [order_facts; lra|].
  destruct (Qlt_bool (inject_Z (vmax range)) e) eqn:E6; [order_facts; lra|].
  reflexivity.
Qed.

(** The two tables list their common keywords in the same order: whatever
    the test on keywords, if it fails on the keywords of the estimator
    alone, both searches stop at the same keyword. *)
Lemma same_first_keyword (inc : jsstring -> bool) :
  Forall (fun keyword => inc keyword = false) estimatorOnlyKeywords ->
  option_map fst (find (fun entry => inc (fst entry)) validationRanges)
  = option_map fst
      (find (fun entry => negb (str_eqb (fst entry) (js "default")) && inc (fst entry))
            priceRanges).
Proof.
  intro Honly. unfold estimatorOnlyKeywords in Honly. cbn [map] in Honly.
  repeat match goal with
         | H : Forall _ (_ :: _) |- _ =>
             let Hk := fresh "Hk" in
             let Hrest := fresh "Hrest" in
             inversion H as [|? ? Hk Hrest]; subst; clear H
         end.
  unfold validationRanges, priceRanges. cbn [find fst].
  repeat match goal with
         | H : inc ?k = false |- _ => rewrite H; clear H
         end.
  repeat match goal with
         | |- context [str_eqb ?a ?b] =>
             let v := eval vm_compute in (str_eqb a b) in
             change (str_eqb a b) with v
         end.
  cbn [negb andb].
  repeat match goal with
         | |- context [inc ?k] => destruct (inc k); cbn [negb andb option_map fst];
                                  [reflexivity|]
         end.
  reflexivity.
Qed.

Lemma keyword_of_category (s detected : jsstring) (range : ValidationRange) :
  Forall (fun keyword => includes (toLowerCase s) keyword = false) estimatorOnlyKeywords ->
  matchingRange (toLowerCase s) = Some (detected, range) ->
  selectedKeyword (toLowerCase s) = Some detected.
Proof.
  intros Honly Hv. unfold selectedKeyword.
  rewrite <- (same_first_keyword (includes (toLowerCase s)) Honly).
  unfold matchingRange in Hv. rewrite Hv. reflexivity.
Qed.

(** C4, as amended.  The estimate lies within the range the estimator
    itself selects for the name (the first keyword of its table that the
    lowered name includes, else the default range), and within the absolute
    bounds.  When the validator infers the category of that same keyword,
    the estimate lies within the category's range; and when the validator
    infers that category or none, validation returns the estimate as it
    is.  That is so for every name that includes none of the keywords the
    estimator has and the validator lacks. *)
Theorem generateReasonablePrice_within_selected_range (host : Host) (s : jsstring) :
  (inject_Z (min (selectedPriceRange (toLowerCase s))) <= generateReasonablePrice host s
   /\ generateReasonablePrice host s <= inject_Z (max (selectedPriceRange (toLowerCase s))))
  /\ (10 <= generateReasonablePrice host s /\ generateReasonablePrice host s <= 500000)
  /\ (forall detected range,
        matchingRange (toLowerCase s) = Some (detected, range) ->
        selectedKeyword (toLowerCase s) = Some detected ->
        inject_Z (vmin range) <= generateReasonablePrice host s
        /\ generateReasonablePrice host s <= inject_Z (vmax range))
  /\ (forall platform,
        matchingRange (toLowerCase s) = None
        \/ (exists detected range,
              matchingRange (toLowerCase s) = Some (detected, range)
              /\ selectedKeyword (toLowerCase s) = Some detected) ->
        validateAndNormalizePrice host (generateReasonablePrice host s) s platform
        = generateReasonablePrice host s)
  /\ (forall platform,
        Forall (fun keyword => includes (toLowerCase s) keyword = false)
               estimatorOnlyKeywords ->
        validateAndNormalizePrice host (generateReasonablePrice host s) s platform
        = generateReasonablePrice host s).
Proof.
  split; [apply generateReasonablePrice_in_selected|].
  split; [destruct (generateReasonablePrice_absolute host s); split; lra|].
  split; [|split].
  - intros detected range. apply estimate_in_shared_category.
  - intro platform. apply estimate_passes_validation.
  - intros platform Honly. apply estimate_passes_validation.
    destruct (matchingRange (toLowerCase s)) as [[detected range]|] eqn:Hv;
      [|left; reflexivity].
    right. exists detected, range. split; [reflexivity|].
    exact (keyword_of_category s Honly Hv).
Qed.

(** The name "Samsung Galaxy Phone": estimator and validator both pick
    "phone", and the estimate passes validation as it is. *)
Lemma generateReasonablePrice_within_selected_range_witness :
  (inject_Z 3000 <= generateReasonablePrice offlineHost (js "Samsung Galaxy Phone")
   /\ generateReasonablePrice offlineHost (js "Samsung Galaxy Phone") <= inject_Z 200000)
  /\ validateAndNormalizePrice offlineHost
       (generateReasonablePrice offlineHost (js "Samsung Galaxy Phone"))
       (js "Samsung Galaxy Phone") (js "Amazon")
     = generateReasonablePrice offlineHost (js "Samsung Galaxy Phone").
Proof.
  split.
  - apply (proj1 (proj2 (proj2 (generateReasonablePrice_within_selected_range
                                  offlineHost (js "Samsung Galaxy Phone"))))
             (js "phone")
             {| vmin := 3000; vmax := 200000; typicalMin := 8000; typicalMax := 80000 |});
      reflexivity.
  - apply (proj2 (proj2 (proj2 (proj2 (generateReasonablePrice_within_selected_range
                                         offlineHost (js "Samsung Galaxy Phone")))))
             (js "Amazon")).
    repeat constructor.
Defined.

(** The name "tv cream": the estimator selects the range of "tv", the
    validator infers "cream". *)
Lemma tv_cream_estimate (host : Host) :
  15000 <= generateReasonablePrice host (js "tv cream").
Proof.
  destruct (generateReasonablePrice_in_selected host (js "tv cream")) as [Hlo _].
  exact Hlo.
Qed.

(** The estimate of "tv cream" does not pass validation: it is replaced by
    the upper end of the typical range of "cream". *)
Lemma tv_cream_validated (host : Host) (platform : jsstring) :
  validateAndNormalizePrice host (generateReasonablePrice host (js "tv cream"))
    (js "tv cream") platform = 2500.
Proof.
  pose proof (tv_cream_estimate host) as Hlo.
  destruct (generateReasonablePrice_absolute host (js "tv cream")) as [_ Hhi].
  generalize dependent (generateReasonablePrice host (js "tv cream")). intros e Hlo Hhi.
  unfold validateAndNormalizePrice, validatePriceByCategory.
  assert (E : matchingRange (toLowerCase (js "tv cream"))
              = Some (js "cream", {| vmin := 50; vmax := 10000;
                                     typicalMin := 200; typicalMax := 2500 |}))
    by reflexivity.
  rewrite E. clear E.
  unfold maxReasonablePrice, minReasonablePrice.
  change (inject_Z (vmin _)) with 50. change (inject_Z (vmax _)) with 10000.
  change (inject_Z (typicalMin _)) with 200. change (inject_Z (typicalMax _)) with 2500.
  destruct (isZero e) eqn:E1; [order_facts; lra|].
  destruct (Qle_bool e 0) eqn:E2; [order_facts; lra|]. simpl.
  destruct (Qlt_bool 500000 e) eqn:E3; [order_facts; lra|].
  destruct (Qlt_bool e 10) eqn:E4; [order_facts; lra|].
  destruct (Qlt_bool e 50) eqn:E5; [order_facts; lra|].
  destruct (Qlt_bool 10000 e) eqn:E6; [|order_facts; lra].
  simpl. unfold Math_min, Math_max.
  destruct (Qle_bool e 200) eqn:E7; [order_facts; lra|].
  destruct (Qle_bool e 2500) eqn:E8; [order_facts; lra|].
  reflexivity.
Qed.

(** C4, counterexample.  The estimate of "tv cream" is at least 15000, above
    the range [50, 10000] of the category the validator infers for that
    name: the estimate is not within the range of the inferred category, and
    validation does not leave it as it is. *)
Lemma generateReasonablePrice_outside_inferred_category :
  ~ (forall (host : Host) (s detected : jsstring) (range : ValidationRange),
       matchingRange (toLowerCase s) = Some (detected, range) ->
       inject_Z (vmin range) <= generateReasonablePrice host s
       /\ generateReasonablePrice host s <= inject_Z (vmax range))
  /\ ~ (forall (host : Host) (s platform : jsstring),
          validateAndNormalizePrice host (generateReasonablePrice host s) s platform
          == generateReasonablePrice host s).
Proof.
  pose proof (tv_cream_estimate offlineHost) as Hlo. split; intro H.
  - destruct (H offlineHost (js "tv cream") (js "cream")
                {| vmin := 50; vmax := 10000; typicalMin := 200; typicalMax := 2500 |}
                eq_refl) as [_ Hhi].
    change (inject_Z (vmax _)) with 10000 in Hhi. lra.
  - specialize (H offlineHost (js "tv cream") (js "Unknown")).
    rewrite tv_cream_validated in H. lra.
Qed.

(** ** The validator *)

(** A rejected price comes with the clamped suggestion. *)
Lemma rejected_price_suggestion (p : number) (name platform : jsstring) :
  isValid (validatePriceByCategory p name platform) = false ->
  exists detected range,
    matchingRange (toLowerCase name) = Some (detected, range)
    /\ suggestedPrice (validatePriceByCategory p name platform)
       = Some (Math_min (Math_max p (inject_Z (typicalMin range)))
                        (inject_Z (typicalMax range)))
    /\ (forall suggestion,
          suggestedPrice (validatePriceByCategory p name platform) = Some suggestion ->
          (inject_Z (vmin range) <= suggestion /\ suggestion <= inject_Z (vmax range))
          /\ (minReasonablePrice <= suggestion /\ suggestion <= maxReasonablePrice)).
Proof.
  unfold validatePriceByCategory.
  destruct (matchingRange (toLowerCase name)) as [[detected range]|] eqn:E;
    [|simpl; discriminate].
  destruct (Qlt_bool p (inject_Z (vmin range)) || Qlt_bool (inject_Z (vmax range)) p);
    simpl; [intros _ | discriminate].
  exists detected, range. split; [reflexivity|]. split; [reflexivity|].
  intros suggestion Hs. injection Hs as <-.
  destruct (matchingRange_sound _ E) as [[Hfloor Hlo] [Hmid [Hhi Hceil]]].
  rewrite Zle_Qle in Hfloor, Hlo, Hmid, Hhi, Hceil.
  change (inject_Z 50) with 50 in Hfloor. change (inject_Z 300000) with 300000 in Hceil.
  destruct (clamp_range p Hmid) as [Hc1 Hc2].
  unfold minReasonablePrice, maxReasonablePrice. repeat split; lra.
Qed.

(** C6.  Whenever the validator rejects a price, a category was inferred
    for the name, the suggestion is the price clamped into the typical range
    of that category, and the suggestion lies within the category's range and
    within the absolute bounds. *)
Theorem validatePriceByCategory_suggestion (p : number) (name platform : jsstring) :
  isValid (validatePriceByCategory p name platform) = false ->
  exists detected range,
    matchingRange (toLowerCase name) = Some (detected, range)
    /\ suggestedPrice (validatePriceByCategory p name platform)
       = Some (Math_min (Math_max p (inject_Z (typicalMin range)))
                        (inject_Z (typicalMax range)))
    /\ (forall suggestion,
          suggestedPrice (validatePriceByCategory p name platform) = Some suggestion ->
          (inject_Z (vmin range) <= suggestion /\ suggestion <= inject_Z (vmax range))
          /\ (minReasonablePrice <= suggestion /\ suggestion <= maxReasonablePrice)).
Proof. apply rejected_price_suggestion. Qed.

(** A rejection: 100 for a phone. *)
Lemma validatePriceByCategory_suggestion_witness :
  exists detected range,
    matchingRange (toLowerCase (js "Budget Phone")) = Some (detected, range)
    /\ suggestedPrice (validatePriceByCategory 100 (js "Budget Phone") (js "Amazon"))
       = Some (Math_min (Math_max 100 (inject_Z (typicalMin range)))
                        (inject_Z (typicalMax range)))
    /\ (forall suggestion,
          suggestedPrice (validatePriceByCategory 100 (js "Budget Phone") (js "Amazon"))
          = Some suggestion ->
          (inject_Z (vmin range) <= suggestion /\ suggestion <= inject_Z (vmax range))
          /\ (minReasonablePrice <= suggestion /\ suggestion <= maxReasonablePrice)).
Proof.
  apply (@validatePriceByCategory_suggestion 100 (js "Budget Phone") (js "Amazon")).
  reflexivity.
Defined.

(** The validated price is 0 or within the absolute bounds. *)
Lemma normalized_price_range (host : Host) (price : number)
    (productName platform : jsstring) :
  (price <= 0 -> validateAndNormalizePrice host price productName platform = 0)
  /\ (0 < price ->
      minReasonablePrice <= validateAndNormalizePrice host price productName platform
      /\ validateAndNormalizePrice host price productName platform <= maxReasonablePrice).
Proof.
  unfold validateAndNormalizePrice, minReasonablePrice, maxReasonablePrice.
  pose proof (generateReasonablePrice_absolute host productName) as [Hg1 Hg2].
  split.
  - intro Hle. apply Qle_bool_iff in Hle. rewrite Hle, orb_true_r. reflexivity.
  - intro Hpos.
    destruct (isZero price) eqn:Ez; [order_facts; lra|].
    destruct (Qle_bool price 0) eqn:El; [order_facts; lra|]. simpl.
    destruct (Qlt_bool 500000 price) eqn:Ehi; [split; lra|].
    destruct (Qlt_bool price 10) eqn:Elo; [split; lra|].
    order_facts.
    destruct (isValid (validatePriceByCategory price productName platform)) eqn:Ev;
      simpl; [split; lra|].
    destruct (rejected_price_suggestion _ _ _ Ev)
      as (detected & range & _ & Hs & Hb).
    rewrite Hs. destruct (Hb _ Hs) as [_ Hbounds].
    unfold minReasonablePrice, maxReasonablePrice in Hbounds.
    destruct (isZero _); [split; lra | exact Hbounds].
Qed.

(** C10.  validateAndNormalizePrice returns 0 for a price that is not
    positive, and otherwise a value within the absolute bounds: the price
    itself, the clamped suggestion or an estimate. *)
Theorem validateAndNormalizePrice_bounds (host : Host) (price : number)
    (productName platform : jsstring) :
  (price <= 0 -> validateAndNormalizePrice host price productName platform = 0)
  /\ (0 < price ->
      minReasonablePrice <= validateAndNormalizePrice host price productName platform
      /\ validateAndNormalizePrice host price productName platform <= maxReasonablePrice).
Proof. apply normalized_price_range. Qed.

Lemma validateAndNormalizePrice_bounds_witness :
  validateAndNormalizePrice
    offlineHost (-5) (js "Budget Phone") (js "Amazon") = 0
  /\ (minReasonablePrice
      <= validateAndNormalizePrice
           offlineHost 100 (js "Budget Phone") (js "Amazon")
      /\ validateAndNormalizePrice
           offlineHost 100 (js "Budget Phone") (js "Amazon") <= maxReasonablePrice).
Proof.
  split.
  - apply validateAndNormalizePrice_bounds. vm_compute. discriminate.
  - apply validateAndNormalizePrice_bounds. reflexivity.
Defined.

(** ** The discount *)


Lemma rounded_percentage_range (amount listPrice : Q) :
  0 < amount -> amount <= listPrice ->
  0 <= round64 (round64 (amount / listPrice) * 100)
  /\ round64 (round64 (amount / listPrice) * 100) <= 100.
Proof.
  intros Ha Hle.
  assert (Hq : 0 <= amount / listPrice /\ amount / listPrice <= 1).
  { split; [apply Qle_shift_div_l | apply Qle_shift_div_r]; lra. }
  destruct Hq as [Hq0 Hq1].
  pose proof (@round64_nonneg _ Hq0) as Hf0.
  pose proof (@round64_monotone _ 1 Hq0 Hq1) as Hf1.
  rewrite (@round64_integer 1 ltac:(lia)) in Hf1. change (inject_Z 1) with 1 in Hf1.
  set (f := round64 (amount / listPrice)) in *.
  assert (Ht0 : 0 <= f * 100) by lra. assert (Ht1 : f * 100 <= 100) by lra.
  split; [apply round64_nonneg, Ht0|].
  pose proof (@round64_monotone _ 100 Ht0 Ht1) as Hp.
  rewrite (@round64_integer 100 ltac:(lia)) in Hp. exact Hp.
Qed.




(** ** The normalizer *)

(** C2, counterexample.  The normalizer rounds to whole rupees: the text
    "₹1,234.50" gives 1235, not 1234.50. *)
Lemma extractPrice_rounds_half_rupee :
  extractPrice ([rupee] ++ js "1,234.50") = 1235
  /\ ~ extractPrice ([rupee] ++ js "1,234.50") == 1234.50.
Proof.
  split; [vm_compute; reflexivity|].
  vm_compute. discriminate.
Qed.

(** C2, as amended.  The values of the three example texts: "₹1,234.50"
    gives 1235 (rounded to the whole rupee), "₹2.5 L" gives 250000 and
    "Rs. 999" gives 999. *)
Theorem extractPrice_examples :
  extractPrice ([rupee] ++ js "1,234.50") = 1235
  /\ extractPrice ([rupee] ++ js "2.5 L") = 250000
  /\ extractPrice (js "Rs. 999") = 999.
Proof. repeat split; vm_compute; reflexivity. Qed.

Lemma takeDigits_digits (s : jsstring) :
  Forall (fun d => isDigit d = true) (fst (takeDigits s)).
Proof.
  induction s as [|c s IH]; simpl; [constructor|].
  destruct (isDigit c) eqn:E; [|constructor].
  destruct (takeDigits s) as [ds rest]. simpl in *. constructor; assumption.
Qed.

Lemma digits_fold_nonneg (ds : list Z) (acc : Z) :
  (0 <= acc)%Z -> Forall (fun d => isDigit d = true) ds ->
  (0 <= fold_left (fun acc d => acc * 10 + (d - 48)) ds acc)%Z.
Proof.
  revert acc. induction ds as [|d ds IH]; intros acc Hacc Hds; simpl; [exact Hacc|].
  inversion Hds as [|? ? Hd Hrest]; subst. apply IH; [|exact Hrest].
  unfold isDigit in Hd. lia.
Qed.

Lemma digitsValue_nonneg (ds : list Z) :
  Forall (fun d => isDigit d = true) ds -> (0 <= digitsValue ds)%Z.
Proof. apply digits_fold_nonneg. lia. Qed.

Lemma parseFloat_nonneg (s : jsstring) (q : Q) : parseFloat s = Some q -> 0 <= q.
Proof.
  unfold parseFloat.
  pose proof (takeDigits_digits s) as Hip.
  destruct (takeDigits s) as [ip rest]. simpl in Hip.
  set (fp := match rest with
             | 46%Z :: rest' => fst (takeDigits rest')
             | _ => []
             end).
  assert (Hfp : Forall (fun d => isDigit d = true) fp).
  { subst fp. destruct rest as [|c rest']; [constructor|].
    destruct c as [|c|c]; try constructor.
    do 6 (destruct c as [c|c|]; try constructor). apply takeDigits_digits. }
  assert (Hval : 0 <= inject_Z (digitsValue ip)
                      + inject_Z (digitsValue fp) / inject_Z (10 ^ Z.of_nat (List.length fp))).
  { apply digitsValue_nonneg in Hip. apply digitsValue_nonneg in Hfp.
    rewrite Zle_Qle in Hip, Hfp.
    assert (Hpow : 0 < inject_Z (10 ^ Z.of_nat (List.length fp))).
    { change 0 with (inject_Z 0). rewrite <- Zlt_Qlt. apply Z.pow_pos_nonneg; lia. }
    assert (0 <= inject_Z (digitsValue fp) / inject_Z (10 ^ Z.of_nat (List.length fp))).
    { apply Qle_shift_div_l; [exact Hpow|]. rewrite Qmult_0_l. exact Hfp. }
    change (inject_Z 0) with 0 in Hip. lra. }
  destruct ip, fp; intro E; try discriminate; injection E as <-;
    apply round64_nonneg; exact Hval.
Qed.

Lemma applySuffix_nonneg (priceText : jsstring) (price : number) :
  0 <= price -> 0 <= applySuffix priceText price.
Proof.
  intro H. unfold applySuffix.
  repeat match goal with |- context [if ?b then _ else _] => destruct b end;
    try (apply round64_nonneg); lra.
Qed.

Lemma extractWith_nonneg (fs : list regex) (priceText cleanedText : jsstring) :
  0 <= extractWith fs priceText cleanedText.
Proof.
  induction fs as [|format fs IH]; simpl; [lra|].
  destruct (search format cleanedText) as [capture|]; [|exact IH].
  destruct (parseFloat _) as [price|] eqn:E; [|exact IH].
  apply Math_round_nonneg, applySuffix_nonneg. exact (parseFloat_nonneg _ E).
Qed.

Lemma extractPrice_nonneg (priceText : jsstring) : 0 <= extractPrice priceText.
Proof.
  unfold extractPrice. destruct (isEmpty priceText); [lra | apply extractWith_nonneg].
Qed.

(** The loop over the selectors yields 0 or a positive price. *)
Lemma findSellingPrice_zero_or_positive (doc : Cheerio) (selectors : list jsstring) :
  findSellingPrice doc selectors = 0 \/ 0 < findSellingPrice doc selectors.
Proof.
  induction selectors as [|selector rest IH]; simpl; [left; reflexivity|].
  destruct (negb (isEmpty (firstTextOf doc selector))
            && Qlt_bool 0 (extractPrice (firstTextOf doc selector))) eqn:E; [|exact IH].
  right. order_facts. assumption.
Qed.

(** C7, counterexample.  A text without a price is normalized to the number
    0, and so is the price text "₹0": absence is the value zero, and a
    normalized price need not be positive. *)
Lemma extractPrice_zero_for_no_price :
  extractPrice (js "Currently unavailable") = 0
  /\ extractPrice ([rupee] ++ js "0") = 0.
Proof. split; vm_compute; reflexivity. Qed.

(** A text that no pattern matches has no price. *)
Lemma extractWith_unmatched (fs : list regex) (priceText cleanedText : jsstring) :
  Forall (fun format => search format cleanedText = None) fs ->
  extractWith fs priceText cleanedText = 0.
Proof.
  induction 1 as [|format fs Hnone _ IH]; simpl; [reflexivity|].
  rewrite Hnone. exact IH.
Qed.

Lemma extractPrice_unmatched (priceText : jsstring) :
  unmatched priceText -> extractPrice priceText = 0.
Proof.
  intro H. unfold extractPrice. destruct (isEmpty priceText); [reflexivity|].
  apply extractWith_unmatched. exact H.
Qed.

(** ** The page extractors *)

Lemma orElse_nonempty (a b : jsstring) : b <> [] -> orElse a b <> [].
Proof. intro Hb. unfold orElse. destruct a; simpl; [exact Hb | discriminate]. Qed.

(** The price the generic extractor validates is positive: the price found
    on the page, or else the estimate. *)
Lemma generic_price_positive (host : Host) (doc : Cheerio) (name : jsstring) :
  0 < (if isZero (findSellingPrice doc genericPriceSelectors)
       then generateReasonablePrice host name
       else findSellingPrice doc genericPriceSelectors).
Proof.
  destruct (isZero _) eqn:E.
  - destruct (generateReasonablePrice_absolute host name). lra.
  - destruct (findSellingPrice_zero_or_positive doc genericPriceSelectors) as [H|H];
      [|exact H].
    rewrite H in E. discriminate.
Qed.

(** C8, counterexample.  On a page where no selector matches, the generic
    extractor extracts neither a name nor a price, and still returns a
    record: the name "Product" with the estimated price 500. *)
Lemma extractGenericData_blank_page :
  genericName blankPage = []
  /\ findSellingPrice blankPage genericPriceSelectors = 0
  /\ exists productData,
       extractByPlatform offlineHost (js "Unknown") blankPage
         (js "https://shop.example/item") = Some productData
       /\ pd_name productData = js "Product"
       /\ pd_price productData = 500.
Proof.
  split; [reflexivity|]. split; [reflexivity|].
  eexists. split; [vm_compute; reflexivity|]. split; reflexivity.
Qed.

(** A page titled "tv cream" without a price: the generic extractor
    estimates at least 15000 for the name, and the record carries what
    validation makes of the estimate, 2500. *)
Lemma extractGenericData_validated_estimate :
  findSellingPrice tvCreamPage genericPriceSelectors = 0
  /\ 15000 <= generateReasonablePrice offlineHost (genericName tvCreamPage)
  /\ exists productData,
       extractByPlatform offlineHost (js "Myntra") tvCreamPage myntraUrl
       = Some productData
       /\ pd_price productData = 2500.
Proof.
  split; [reflexivity|]. split; [vm_compute; discriminate|].
  eexists. split; [vm_compute; reflexivity | reflexivity].
Qed.

Lemma orElse_nil (a : jsstring) : orElse a [] = a.
Proof. destruct a; reflexivity. Qed.

(** C8, as amended.  The Amazon and the Flipkart extractor return absent
    when the page gives no name or no positive price.  The generic extractor,
    used for every other platform, always returns a record: its name is the
    one found or else "Product", and its price is what validation makes of
    the price found or else of the estimate for the name found; it is within
    the absolute bounds. *)
Theorem extractors_absent_or_filled (host : Host) (doc : Cheerio) (url : jsstring) :
  (amazonName doc = [] \/ rawPrice (extractAmazonPrices doc) == 0 ->
   extractByPlatform host (js "Amazon") doc url = None)
  /\ (flipkartName doc = [] \/ rawPrice (extractFlipkartPrices doc) == 0 ->
      extractByPlatform host (js "Flipkart") doc url = None)
  /\ (forall platform,
        str_eqb platform (js "Amazon") = false ->
        str_eqb platform (js "Flipkart") = false ->
        exists productData,
          extractByPlatform host platform doc url = Some productData
          /\ pd_name productData = orElse (genericName doc) (js "Product")
          /\ pd_name productData <> []
          /\ pd_price productData
             = validateAndNormalizePrice host
                 (if isZero (findSellingPrice doc genericPriceSelectors)
                  then generateReasonablePrice host (genericName doc)
                  else findSellingPrice doc genericPriceSelectors)
                 (orElse (genericName doc) (js "Product")) platform
          /\ minReasonablePrice <= pd_price productData
          /\ pd_price productData <= maxReasonablePrice).
Proof.
  split; [|split].
  - change (extractByPlatform host (js "Amazon") doc url)
      with (extractAmazonData host doc url).
    unfold extractAmazonData. intros [Hname|Hprice].
    + rewrite Hname. reflexivity.
    + destruct (isEmpty (amazonName doc)); [reflexivity|].
      apply isZero_true in Hprice. rewrite Hprice. reflexivity.
  - change (extractByPlatform host (js "Flipkart") doc url)
      with (extractFlipkartData host doc url).
    unfold extractFlipkartData. intros [Hname|Hprice].
    + rewrite Hname. reflexivity.
    + destruct (isEmpty (flipkartName doc)); [reflexivity|].
      apply isZero_true in Hprice. rewrite Hprice. reflexivity.
  - intros platform Ha Hf. unfold extractByPlatform. rewrite Ha, Hf.
    unfold extractGenericData. eexists. split; [reflexivity|].
    cbn [pd_name pd_price]. rewrite orElse_nil.
    split; [reflexivity|]. split; [apply orElse_nonempty; discriminate|].
    split; [reflexivity|].
    apply normalized_price_range. apply generic_price_positive.
Qed.

Lemma extractors_absent_or_filled_witness :
  extractByPlatform offlineHost (js "Amazon") blankPage (js "https://www.amazon.in/dp/B0")
  = None
  /\ exists productData,
       extractByPlatform offlineHost (js "Myntra") blankPage
         (js "https://www.myntra.com/item") = Some productData
       /\ pd_name productData = orElse (genericName blankPage) (js "Product")
       /\ pd_name productData <> []
       /\ pd_price productData
          = validateAndNormalizePrice offlineHost
              (if isZero (findSellingPrice blankPage genericPriceSelectors)
               then generateReasonablePrice offlineHost (genericName blankPage)
               else findSellingPrice blankPage genericPriceSelectors)
              (orElse (genericName blankPage) (js "Product")) (js "Myntra")
       /\ minReasonablePrice <= pd_price productData
       /\ pd_price productData <= maxReasonablePrice.
Proof.
  split.
  - apply (proj1 (extractors_absent_or_filled offlineHost blankPage
                    (js "https://www.amazon.in/dp/B0"))).
    left. reflexivity.
  - apply (proj2 (proj2 (extractors_absent_or_filled offlineHost blankPage
                           (js "https://www.myntra.com/item")))); reflexivity.
Defined.

(** ** Computations that return *)

Lemma returns_ret {A} (a : A) (P : A -> Prop) : P a -> returns (ret a) P.
Proof. intros H n. exists a, n. split; [reflexivity | exact H]. Qed.

Lemma returns_bind {A B} (m : M A) (f : A -> M B) (P : A -> Prop) (Q : B -> Prop) :
  returns m P -> (forall a, P a -> returns (f a) Q) -> returns (bind m f) Q.
Proof.
  intros Hm Hf n. destruct (Hm n) as (a & n1 & E & Ha).
  destruct (Hf a Ha n1) as (b & n2 & E2 & Hb).
  exists b, n2. unfold bind. rewrite E. split; assumption.
Qed.

Lemma returns_try_catch {A} (m h : M A) (P : A -> Prop) :
  returns m P -> returns (try_catch m h) P.
Proof.
  intros Hm n. destruct (Hm n) as (a & n1 & E & Ha).
  exists a, n1. unfold try_catch. rewrite E. split; [reflexivity | exact Ha].
Qed.

Lemma returns_random (host : Host) : returns (random host) (fun _ => True).
Proof. intro n. exists (Math_random host n), (S n). split; [reflexivity | exact I]. Qed.

Lemma returns_mapM {A B} (f : A -> M B) (R : A -> B -> Prop) (l : list A) :
  (forall a, returns (f a) (R a)) -> returns (mapM f l) (Forall2 R l).
Proof.
  intro Hf. induction l as [|a l IH]; simpl.
  - apply returns_ret. constructor.
  - eapply returns_bind; [apply Hf|]. intros b Hb.
    eapply returns_bind; [apply IH|]. intros bs Hbs.
    apply returns_ret. constructor; assumption.
Qed.

Lemma bind_throws {A B} (m : M A) (f : A -> M B) (n n1 : nat) :
  m n = (Throw, n1) -> bind m f n = (Throw, n1).
Proof. intro E. unfold bind. rewrite E. reflexivity. Qed.

(** Steps through a computation made of binds, draws and returns. *)
Ltac returns_steps :=
  repeat first
    [ apply returns_ret
    | eapply returns_bind; [solve [apply returns_random] | intros ? _]
    | match goal with
      | |- returns (if ?b then _ else _) _ => destruct b
      | |- returns (match ?o with Some _ => _ | None => _ end) _ => destruct o
      end ].

(** ** The market data *)

Lemma estimateRealisticBasePrice_returns (host : Host) (productInfo : ProductInfo) :
  returns (estimateRealisticBasePrice host productInfo) (fun _ => True).
Proof. unfold estimateRealisticBasePrice. returns_steps; exact I. Qed.

Lemma getRealisticSellerCount_returns (host : Host) (platform : jsstring)
    (category : Category) :
  returns (getRealisticSellerCount host platform category) (fun _ => True).
Proof. unfold getRealisticSellerCount. returns_steps; exact I. Qed.

Lemma getRealisticAvailability_returns (host : Host) (platform : jsstring)
    (sellerCount : number) :
  returns (getRealisticAvailability host platform sellerCount) (fun _ => True).
Proof. unfold getRealisticAvailability. returns_steps; exact I. Qed.

Lemma platformPrice_returns (host : Host) (basePrice : number) (category : Category)
    (platform : Platform) :
  returns (platformPrice host basePrice category platform)
          (fun priceData => pp_platform priceData = plat_name platform).
Proof.
  unfold platformPrice.
  eapply returns_bind; [apply getRealisticSellerCount_returns | intros sellerCount _].
  eapply returns_bind; [apply returns_random | intros r _].
  eapply returns_bind; [apply getRealisticAvailability_returns | intros availability _].
  eapply returns_bind; [apply returns_random | intros r' _].
  apply returns_ret. reflexivity.
Qed.

Lemma Forall2_map_eq {A B C} (f : A -> C) (g : B -> C) (l : list A) (l' : list B) :
  Forall2 (fun a b => g b = f a) l l' -> map g l' = map f l.
Proof. induction 1; simpl; congruence. Qed.

Lemma generateRealisticMarketData_returns (host : Host) (productInfo : ProductInfo)
    (productUrl : option jsstring) (originalPrice : option number) :
  returns (generateRealisticMarketData host productInfo productUrl originalPrice)
          (fun marketData =>
             success marketData = true
             /\ data marketData <> None
             /\ responsePlatforms marketData
                = map plat_name (getRelevantPlatforms (pi_category productInfo))).
Proof.
  unfold generateRealisticMarketData.
  eapply returns_bind with (P := fun _ => True).
  { destruct originalPrice as [p|]; [destruct (_ && _)|];
      solve [apply returns_ret; exact I | apply estimateRealisticBasePrice_returns]. }
  intros basePrice _.
  eapply returns_bind; [apply returns_mapM; intro; apply platformPrice_returns|].
  intros ps Hps.
  eapply returns_bind with (P := fun _ => True).
  { unfold generateRealisticPriceHistory. returns_steps; exact I. }
  intros _ _. apply returns_ret. split; [reflexivity|]. split; [discriminate|].
  unfold responsePlatforms. simpl.
  apply (@Forall2_map_eq _ _ _ plat_name pp_platform _ _ Hps).
Qed.

Lemma fetchRealMarketData_returns (host : Host) (productName productUrl : jsstring)
    (originalPrice : option number) :
  returns (fetchRealMarketData host productName productUrl originalPrice)
          (fun marketData =>
             success marketData = true
             /\ data marketData <> None
             /\ responsePlatforms marketData
                = map plat_name (getRelevantPlatforms
                                   (pi_category (extractProductInfo productName productUrl)))).
Proof.
  unfold fetchRealMarketData. apply returns_try_catch.
  apply generateRealisticMarketData_returns.
Qed.

(** ** The scraper never comes back empty-handed *)

Lemma extractProductData_returns (host : Host) (url : jsstring) :
  returns (extractProductData host url) (fun result => result <> None).
Proof.
  unfold extractProductData. apply returns_try_catch.
  eapply returns_bind with (P := fun _ => True).
  { unfold fetchPageContent. returns_steps; exact I. }
  intros html _. destruct html as [doc|]; [|apply returns_ret; discriminate].
  destruct (extractByPlatform host (detectPlatform url) doc url);
    apply returns_ret; discriminate.
Qed.

Lemma analyzeProductFromUrl_returns (host : Host) (url : jsstring) :
  returns (analyzeProductFromUrl host url) (fun result => result <> None).
Proof.
  unfold analyzeProductFromUrl. apply returns_try_catch.
  eapply returns_bind; [apply extractProductData_returns|].
  intros result Hresult. destruct result; [apply returns_ret; discriminate|].
  contradiction.
Qed.

(** ** The comparisons *)

Lemma buildPlatformUrl_defined (platform productName : jsstring) :
  codePoints productName <> None -> buildPlatformUrl platform productName <> None.
Proof.
  intro H. unfold buildPlatformUrl, encodeURIComponent.
  destruct (codePoints productName); [simpl; discriminate | contradiction].
Qed.

Lemma buildPlatformUrl_throws (platform productName : jsstring) :
  codePoints productName = None -> buildPlatformUrl platform productName = None.
Proof.
  intro H. unfold buildPlatformUrl, encodeURIComponent. rewrite H. reflexivity.
Qed.

Lemma generateDeliveryTime_returns (host : Host) (platform : jsstring) :
  returns (generateDeliveryTime host platform) (fun _ => True).
Proof. unfold generateDeliveryTime. returns_steps; exact I. Qed.

Lemma comparisonOfMarketPrice_returns (host : Host) (originalProduct : ProductData)
    (priceData : PlatformPrice) :
  codePoints (pd_name originalProduct) <> None ->
  returns (comparisonOfMarketPrice host originalProduct priceData)
          (fun comparison => pc_platform comparison = pp_platform priceData).
Proof.
  intro Hname. unfold comparisonOfMarketPrice.
  pose proof (@buildPlatformUrl_defined (pp_platform priceData) _ Hname) as Hurl.
  destruct (buildPlatformUrl _ _) as [url|]; [|contradiction]. simpl.
  eapply returns_bind; [apply returns_ret; exact I | intros ? _].
  eapply returns_bind with (P := fun _ => True);
    [unfold generateRealisticRating; returns_steps; exact I | intros ? _].
  eapply returns_bind with (P := fun _ => True);
    [unfold generateRealisticReviewCount; returns_steps; exact I | intros ? _].
  eapply returns_bind; [apply generateDeliveryTime_returns | intros ? _].
  apply returns_ret. reflexivity.
Qed.

Lemma comparisonOfMarketPrice_throws (host : Host) (originalProduct : ProductData)
    (priceData : PlatformPrice) (n : nat) :
  codePoints (pd_name originalProduct) = None ->
  comparisonOfMarketPrice host originalProduct priceData n = (Throw, n).
Proof.
  intro Hname. unfold comparisonOfMarketPrice.
  rewrite (@buildPlatformUrl_throws (pp_platform priceData) _ Hname). reflexivity.
Qed.

(** What buildComparisons makes of a successful response: with a name that
    encodes, one comparison per platform of the response, in its order; with
    a name that does not, an exception or nothing. *)
Lemma buildComparisons_market (host : Host) (originalProduct : ProductData)
    (marketData : MarketDataResponse) (n : nat) :
  success marketData = true -> data marketData <> None ->
  (codePoints (pd_name originalProduct) <> None ->
   exists comparisons n',
     buildComparisons host originalProduct marketData n = (Return comparisons, n')
     /\ map pc_platform comparisons = responsePlatforms marketData)
  /\ (codePoints (pd_name originalProduct) = None ->
      (exists n', buildComparisons host originalProduct marketData n = (Throw, n'))
      \/ buildComparisons host originalProduct marketData n = (Return [], n)).
Proof.
  intros Hs Hd. unfold buildComparisons, responsePlatforms. rewrite Hs.
  destruct (data marketData) as [d|]; [|contradiction]. split; intro Hname.
  - destruct (returns_mapM (comparisonOfMarketPrice host originalProduct)
                (fun priceData comparison => pc_platform comparison = pp_platform priceData)
                (prices d)
                (fun priceData => @comparisonOfMarketPrice_returns host _ priceData Hname) n)
      as (comparisons & n' & E & HF).
    exists comparisons, n'. split; [exact E|].
    apply (@Forall2_map_eq _ _ _ pp_platform pc_platform _ _ HF).
  - destruct (prices d) as [|priceData rest]; [right; reflexivity|].
    left. exists n. simpl. apply bind_throws.
    apply comparisonOfMarketPrice_throws, Hname.
Qed.

(** The product that is compared: the one given, or else the one analysed
    from the URL. *)
Lemma compared_product_returns (host : Host) (originalProduct : option ProductData)
    (productUrl : jsstring) :
  returns (match originalProduct with
           | Some p => ret (Some p)
           | None => analyzeProductFromUrl host productUrl
           end)
          (fun result => result <> None).
Proof.
  destruct originalProduct; [apply returns_ret; discriminate|].
  apply analyzeProductFromUrl_returns.
Qed.

(** The comparisons of every query: the product compared, and the list
    returned for it. *)
Lemma getRealPriceComparisons_market (host : Host) (originalProduct : option ProductData)
    (productUrl : jsstring) (n : nat) :
  exists product n0 comparisons n',
    (match originalProduct with
     | Some p => ret (Some p)
     | None => analyzeProductFromUrl host productUrl
     end) n = (Return (Some product), n0)
    /\ getRealPriceComparisons host originalProduct productUrl n = (Return comparisons, n')
    /\ (codePoints (pd_name product) <> None ->
        map pc_platform comparisons
        = map plat_name
            (getRelevantPlatforms
               (pi_category (extractProductInfo (pd_name product) productUrl))))
    /\ (codePoints (pd_name product) = None -> comparisons = []).
Proof.
  destruct (compared_product_returns host originalProduct productUrl n)
    as (result & n0 & E0 & Hresult).
  destruct result as [product|]; [|contradiction].
  destruct (fetchRealMarketData_returns host (pd_name product) productUrl
              (Some (pd_price product)) n0)
    as (marketData & n1 & E1 & Hs & Hd & Hplatforms).
  destruct (@buildComparisons_market host product marketData n1 Hs Hd) as [Hgood Hbad].
  assert (Ebody : getRealPriceComparisons host originalProduct productUrl n
                  = try_catch (buildComparisons host product marketData) (ret []) n1).
  { unfold getRealPriceComparisons, try_catch, bind.
    rewrite E0, E1. reflexivity. }
  exists product, n0.
  destruct (codePoints (pd_name product)) as [cps|] eqn:Ecp.
  - destruct Hgood as (comparisons & n' & E2 & Hmap); [discriminate|].
    exists comparisons, n'. split; [exact E0|]. split.
    + rewrite Ebody. unfold try_catch. rewrite E2. reflexivity.
    + split; [intros _; congruence | discriminate].
  - destruct (Hbad eq_refl) as [[n' E2]|E2].
    + exists [], n'. split; [exact E0|]. split.
      * rewrite Ebody. unfold try_catch. rewrite E2. reflexivity.
      * split; [intro H; contradiction | reflexivity].
    + exists [], n1. split; [exact E0|]. split.
      * rewrite Ebody. unfold try_catch. rewrite E2. reflexivity.
      * split; [intro H; contradiction | reflexivity].
Qed.

Lemma getRelevantPlatforms_heads (category : Category) :
  exists rest,
    map plat_name (getRelevantPlatforms category) = js "Amazon" :: js "Flipkart" :: rest.
Proof. destruct category; eexists; reflexivity. Qed.

(** Without market data the original product comes first. *)
Lemma buildComparisons_fallback (host : Host) (originalProduct : ProductData)
    (marketData : MarketDataResponse) (comparisons : list PriceComparison)
    (n n' : nat) :
  success marketData = false \/ data marketData = None ->
  buildComparisons host originalProduct marketData n = (Return comparisons, n') ->
  exists first rest,
    comparisons = first :: rest /\ pc_platform first = pd_platform originalProduct.
Proof.
  intros Hno E.
  assert (Efall : buildComparisons host originalProduct marketData n
                  = (original <- comparisonOfProduct host originalProduct ;;
                     similarProducts <- findSimilarProducts host originalProduct ;;
                     similar <- mapM (comparisonOfProduct host) similarProducts ;;
                     ret (original :: similar)) n).
  { unfold buildComparisons. destruct Hno as [H|H]; rewrite H; [reflexivity|].
    destruct (success marketData); reflexivity. }
  rewrite Efall in E. clear Efall. unfold bind at 1 in E.
  destruct (generateDeliveryTime_returns host (pd_platform originalProduct) n)
    as (deliveryTime & n1 & Ed & _).
  unfold comparisonOfProduct at 1 in E. unfold bind at 1 in E.
  rewrite Ed in E. unfold ret at 1 in E. unfold bind at 1 in E.
  destruct (findSimilarProducts host originalProduct n1) as [[similarProducts|] n2];
    [|discriminate].
  unfold bind at 1 in E.
  destruct (mapM (comparisonOfProduct host) similarProducts n2) as [[similar|] n3];
    [|discriminate].
  unfold ret in E. injection E as <- _.
  eexists. eexists. split; reflexivity.
Qed.

(** C1, counterexample.  The Amazon page with the long title is fetched and
    extracted: a product of price 999 whose name, cut at 150 units, ends in
    half a surrogate pair.  Encoding that name for the platform URLs fails,
    and the comparison comes back empty. *)
Lemma getRealPriceComparisons_empty_for_cut_title :
  exists product n0 n',
    analyzeProductFromUrl (servingHost longTitlePage) amazonUrl 0%nat
    = (Return (Some product), n0)
    /\ pd_price product = 999
    /\ List.length (pd_name product) = 150%nat
    /\ getRealPriceComparisons (servingHost longTitlePage) None amazonUrl 0%nat
       = (Return [], n').
Proof.
  eexists. eexists. eexists.
  split; [vm_compute; reflexivity|].
  split; [reflexivity|]. split; [reflexivity|]. vm_compute. reflexivity.
Qed.

(** C1, as amended.  The comparison never throws.  It is made for the
    product given or else analysed from the URL, which always exists; when
    the name of that product is well-formed UTF-16 (it has code points), the
    list has at least two records, and otherwise it is empty. *)
Theorem getRealPriceComparisons_nonempty (host : Host)
    (originalProduct : option ProductData) (productUrl : jsstring) (n : nat) :
  exists product n0 comparisons n',
    (match originalProduct with
     | Some p => ret (Some p)
     | None => analyzeProductFromUrl host productUrl
     end) n = (Return (Some product), n0)
    /\ getRealPriceComparisons host originalProduct productUrl n = (Return comparisons, n')
    /\ (codePoints (pd_name product) <> None -> (2 <= List.length comparisons)%nat)
    /\ (codePoints (pd_name product) = None -> comparisons = []).
Proof.
  destruct (getRealPriceComparisons_market host originalProduct productUrl n)
    as (product & n0 & comparisons & n' & E0 & E & Hgood & Hbad).
  exists product, n0, comparisons, n'. repeat split; try assumption.
  intro Hname. specialize (Hgood Hname).
  destruct (getRelevantPlatforms_heads
              (pi_category (extractProductInfo (pd_name product) productUrl)))
    as [rest Hrest].
  rewrite Hrest in Hgood. apply (f_equal (@List.length _)) in Hgood.
  rewrite length_map in Hgood. rewrite Hgood. simpl. lia.
Qed.

(** The wallet page: its product is compared on two platforms. *)
Lemma getRealPriceComparisons_nonempty_witness :
  exists comparisons n',
    getRealPriceComparisons (servingHost walletPage) None myntraUrl 0%nat
    = (Return comparisons, n')
    /\ (2 <= List.length comparisons)%nat.
Proof.
  destruct (getRealPriceComparisons_nonempty (servingHost walletPage) None myntraUrl 0)
    as (product & n0 & comparisons & n' & E0 & E & Hgood & _).
  exists comparisons, n'. split; [exact E|]. apply Hgood.
  vm_compute in E0. injection E0 as <- _. vm_compute. discriminate.
Defined.

(** C9, counterexample.  The Myntra page of the wallet is fetched and
    extracted, and the product is on the platform Myntra; the comparison
    lists Amazon and Flipkart, and no record of Myntra. *)
Lemma getRealPriceComparisons_without_source_platform :
  exists product n0 comparisons n',
    analyzeProductFromUrl (servingHost walletPage) myntraUrl 0%nat
    = (Return (Some product), n0)
    /\ pd_platform product = js "Myntra"
    /\ getRealPriceComparisons (servingHost walletPage) None myntraUrl 0%nat
       = (Return comparisons, n')
    /\ map pc_platform comparisons = [js "Amazon"; js "Flipkart"].
Proof.
  eexists. eexists. eexists. eexists.
  split; [vm_compute; reflexivity|].
  split; [reflexivity|]. split; [vm_compute; reflexivity|]. reflexivity.
Qed.

(** C9, as amended.  For a product whose name is well-formed the comparison
    lists the platforms relevant to the category of the name, in their fixed
    order: the record of Amazon first, that of Flipkart second, whatever the
    source platform.  The record of the original product comes first only
    on the path taken without market data. *)
Theorem getRealPriceComparisons_platform_order (host : Host)
    (originalProduct : option ProductData) (productUrl : jsstring) (n : nat) :
  (exists product n0 comparisons n',
     (match originalProduct with
      | Some p => ret (Some p)
      | None => analyzeProductFromUrl host productUrl
      end) n = (Return (Some product), n0)
     /\ getRealPriceComparisons host originalProduct productUrl n
        = (Return comparisons, n')
     /\ (codePoints (pd_name product) <> None ->
         map pc_platform comparisons
         = map plat_name
             (getRelevantPlatforms
                (pi_category (extractProductInfo (pd_name product) productUrl)))
         /\ exists first second rest,
              comparisons = first :: second :: rest
              /\ pc_platform first = js "Amazon"
              /\ pc_platform second = js "Flipkart"))
  /\ (forall product marketData comparisons n1 n2,
        success marketData = false \/ data marketData = None ->
        buildComparisons host product marketData n1 = (Return comparisons, n2) ->
        exists first rest,
          comparisons = first :: rest /\ pc_platform first = pd_platform product).
Proof.
  split; [|intros; eapply buildComparisons_fallback; eassumption].
  destruct (getRealPriceComparisons_market host originalProduct productUrl n)
    as (product & n0 & comparisons & n' & E0 & E & Hgood & _).
  exists product, n0, comparisons, n'. split; [exact E0|]. split; [exact E|].
  intro Hname. specialize (Hgood Hname). split; [exact Hgood|].
  destruct (getRelevantPlatforms_heads
              (pi_category (extractProductInfo (pd_name product) productUrl)))
    as [rest Hrest].
  rewrite Hrest in Hgood.
  destruct comparisons as [|first [|second others]]; try discriminate.
  injection Hgood as H1 H2 _. exists first, second, others.
  split; [reflexivity|]. split; assumption.
Qed.

(** The wallet page: Amazon comes first and Flipkart second. *)
Lemma getRealPriceComparisons_platform_order_witness :
  exists comparisons n' first second rest,
    getRealPriceComparisons (servingHost walletPage) None myntraUrl 0%nat
    = (Return comparisons, n')
    /\ comparisons = first :: second :: rest
    /\ pc_platform first = js "Amazon"
    /\ pc_platform second = js "Flipkart".
Proof.
  destruct (proj1 (getRealPriceComparisons_platform_order
                     (servingHost walletPage) None myntraUrl 0))
    as (product & n0 & comparisons & n' & E0 & E & Hgood).
  assert (Hname : codePoints (pd_name product) <> None).
  { vm_compute in E0. injection E0 as <- _. vm_compute. discriminate. }
  destruct (Hgood Hname) as (_ & first & second & rest & Hl & H1 & H2).
  exists comparisons, n', first, second, rest. repeat split; assumption.
Defined.

(** * Further properties *)

(** ** The string hash *)

Lemma toInt32_range (z : Z) : (- 2 ^ 31 <= toInt32 z < 2 ^ 31)%Z.
Proof.
  unfold toInt32. pose proof (Z.mod_pos_bound z (2 ^ 32) eq_refl) as H.
  destruct (z mod 2 ^ 32 >=? 2 ^ 31)%Z eqn:E; lia.
Qed.

Lemma toInt32_mod (z : Z) : (toInt32 z mod 2 ^ 32 = z mod 2 ^ 32)%Z.
Proof.
  unfold toInt32. destruct (z mod 2 ^ 32 >=? 2 ^ 31)%Z.
  - rewrite Zminus_mod, Z_mod_same_full, Z.sub_0_r, !Z.mod_mod by lia. reflexivity.
  - apply Z.mod_mod. lia.
Qed.

(** ToInt32 only depends on the residue modulo 2^32. *)
Lemma toInt32_congr (a b : Z) :
  (a mod 2 ^ 32 = b mod 2 ^ 32)%Z -> toInt32 a = toInt32 b.
Proof. intro H. unfold toInt32. rewrite H. reflexivity. Qed.

Lemma toInt32_fixed (z : Z) : (- 2 ^ 31 <= z < 2 ^ 31)%Z -> toInt32 z = z.
Proof.
  intro H. unfold toInt32.
  destruct (Z_lt_le_dec z 0) as [Hneg|Hpos].
  - assert (E : (z mod 2 ^ 32 = z + 2 ^ 32)%Z).
    { symmetry. apply Z.mod_unique with (q := (-1)%Z); lia. }
    rewrite E. destruct (z + 2 ^ 32 >=? 2 ^ 31)%Z eqn:T; lia.
  - rewrite Z.mod_small by lia. destruct (z >=? 2 ^ 31)%Z eqn:T; lia.
Qed.

(** One turn of the loop multiplies by 31 and adds the unit, modulo 2^32. *)
Lemma hashStep_31 (hash char : Z) : hashStep hash char = toInt32 (31 * hash + char).
Proof.
  unfold hashStep, and32, shl32.
  rewrite Z.land_diag. rewrite (toInt32_fixed (toInt32_range _)).
  apply toInt32_congr.
  rewrite Z.shiftl_mul_pow2 by lia.
  rewrite <- Zplus_mod_idemp_l, <- Zminus_mod_idemp_l, toInt32_mod.
  rewrite <- (Zmult_mod_idemp_l (toInt32 hash)), toInt32_mod, Zmult_mod_idemp_l.
  rewrite Zminus_mod_idemp_l, Zplus_mod_idemp_l.
  f_equal. change (2 ^ 5)%Z with 32%Z. lia.
Qed.

Lemma hash_fold_31 (str : jsstring) (acc acc' : Z) :
  (acc mod 2 ^ 32 = acc' mod 2 ^ 32)%Z ->
  (fold_left hashStep str acc mod 2 ^ 32
   = fold_left (fun a c => 31 * a + c) str acc' mod 2 ^ 32)%Z.
Proof.
  revert acc acc'. induction str as [|c str IH]; intros acc acc' H; simpl; [exact H|].
  apply IH. rewrite hashStep_31, toInt32_mod.
  rewrite <- Zplus_mod_idemp_l, <- Zmult_mod_idemp_r, H.
  rewrite Zmult_mod_idemp_r, Zplus_mod_idemp_l. reflexivity.
Qed.

Lemma hash_fold_range (str : jsstring) (acc : Z) :
  (- 2 ^ 31 <= acc < 2 ^ 31)%Z -> (- 2 ^ 31 <= fold_left hashStep str acc < 2 ^ 31)%Z.
Proof.
  revert acc. induction str as [|c str IH]; intros acc H; simpl; [exact H|].
  apply IH. rewrite hashStep_31. apply toInt32_range.
Qed.

(** X1.  The string hash is the magnitude of a signed 32-bit integer: it lies
    between 0 and 2^31 for every string, whatever its length, and the hash of
    the market data module is the same function. *)
Theorem generateSimpleHash_range (str : jsstring) :
  (0 <= generateSimpleHash str <= 2 ^ 31)%Z
  /\ generateUrlHash str = generateSimpleHash str.
Proof.
  split; [|reflexivity]. unfold generateSimpleHash.
  pose proof (hash_fold_range str (acc := 0) ltac:(lia)). lia.
Qed.

(** X2.  The shift-and-subtract loop of the hash computes the polynomial in
    31 of the code units: the hash is the magnitude of that polynomial
    wrapped to a signed 32-bit integer. *)
Theorem generateSimpleHash_polynomial (str : jsstring) :
  generateSimpleHash str = Z.abs (toInt32 (polynomial31 str)).
Proof.
  unfold generateSimpleHash, polynomial31. f_equal.
  rewrite <- (toInt32_fixed (hash_fold_range str (acc := 0) ltac:(lia))).
  apply toInt32_congr. apply hash_fold_31. reflexivity.
Qed.

(** ** The normalizer on a rupee amount *)

(** A greedy quantifier over a class takes a whole input of that class, when
    the continuation accepts the end of the input. *)
Lemma quant_class_all {A} (p : Z -> bool) (s cap : jsstring) (k : cont A) (res : A) :
  Forall (fun c => p c = true) s -> k [] cap = Some res ->
  forall fuel lo,
    (List.length s < fuel)%nat -> (lo <= List.length s)%nat ->
    quant fuel (run (A := A) (Cls p)) lo None s cap k = Some res.
Proof.
  intros Hs Hk. induction Hs as [|c s Hc Hs IH]; intros fuel lo Hfuel Hlo.
  - destruct fuel as [|fuel]; [inversion Hfuel|]. simpl in Hlo.
    assert (lo = 0%nat) by lia. subst lo. simpl. exact Hk.
  - destruct fuel as [|fuel]; [inversion Hfuel|]. simpl in Hfuel, Hlo.
    simpl. rewrite Hc.
    assert (Hlt : (List.length s <? S (List.length s))%nat = true)
      by (apply Nat.ltb_lt; lia).
    rewrite Hlt. rewrite IH by lia. reflexivity.
Qed.

(** A quantifier over a class takes nothing where the class does not
    match. *)
Lemma quant_class_none {A} (p : Z -> bool) (c : Z) (s cap : jsstring) (k : cont A)
    (fuel : nat) (hi : option nat) :
  p c = false ->
  quant (S fuel) (run (A := A) (Cls p)) 0 hi (c :: s) cap k = k (c :: s) cap.
Proof. intro Hc. simpl. rewrite Hc. destruct hi as [[|n]|]; reflexivity. Qed.

Lemma grouped_not_blank (c : Z) : isGroupedUnit c = true -> isWhiteSpace c = false.
Proof.
  unfold isGroupedUnit, isDigit, isWhiteSpace. intro H.
  apply orb_true_iff in H. destruct H as [H|H].
  - apply andb_true_iff in H. destruct H as [H1 H2].
    apply Z.leb_le in H1, H2.
    repeat rewrite orb_false_iff. repeat split;
      try (apply Z.eqb_neq; lia); apply andb_false_iff; 
      first [left; apply Z.leb_gt; lia | right; apply Z.leb_gt; lia].
  - apply Z.eqb_eq in H. subst c. reflexivity.
Qed.

Lemma grouped_cases (c : Z) :
  isGroupedUnit c = true ->
  In c [44; 48; 49; 50; 51; 52; 53; 54; 55; 56; 57]%Z.
Proof.
  unfold isGroupedUnit, isDigit. intro H. apply orb_true_iff in H.
  destruct H as [H|H].
  - apply andb_true_iff in H. destruct H as [H1 H2]. apply Z.leb_le in H1, H2.
    assert (Hc : (c = 48 \/ c = 49 \/ c = 50 \/ c = 51 \/ c = 52 \/ c = 53 \/ c = 54
                  \/ c = 55 \/ c = 56 \/ c = 57)%Z) by lia.
    simpl. intuition.
  - apply Z.eqb_eq in H. left. symmetry. exact H.
Qed.

(** Decides a fact about every grouped unit by running through them. *)
Ltac by_grouped_cases H :=
  apply grouped_cases in H; simpl in H;
  repeat (destruct H as [H|H]; [subst; try reflexivity; try discriminate|]);
  try contradiction.

Lemma grouped_kept (c : Z) : isGroupedUnit c = true -> keptByCleaning c = true.
Proof. intro H. by_grouped_cases H. Qed.

Lemma grouped_upper (c : Z) : isGroupedUnit c = true -> upperUnit c = [c].
Proof. intro H. by_grouped_cases H. Qed.

Lemma grouped_not_suffix_letter (c : Z) :
  isGroupedUnit c = true -> c <> 67%Z /\ c <> 75%Z /\ c <> 76%Z.
Proof. intro H. by_grouped_cases H; repeat split; discriminate. Qed.

Lemma trimStart_head (c : Z) (s : jsstring) :
  isWhiteSpace c = false -> trimStart (c :: s) = c :: s.
Proof. intro H. simpl. rewrite H. reflexivity. Qed.

Lemma trim_without_blanks (s : jsstring) :
  Forall (fun c => isWhiteSpace c = false) s -> trim s = s.
Proof.
  intro H. unfold trim.
  assert (E : forall t, Forall (fun c => isWhiteSpace c = false) t -> trimStart t = t).
  { intros t Ht. destruct Ht as [|c t Hc _]; [reflexivity | now apply trimStart_head]. }
  rewrite (E s H). rewrite E by (apply Forall_rev; exact H). apply rev_involutive.
Qed.

Lemma includes_needs_head (s needle : jsstring) (c : Z) :
  ~ In c s -> includes s (c :: needle) = false.
Proof.
  induction s as [|d s IH]; intro Hc; simpl; [reflexivity|].
  destruct (Z.eqb_spec c d) as [E|E].
  - exfalso. apply Hc. left. symmetry. exact E.
  - simpl. apply IH. intro Hin. apply Hc. right. exact Hin.
Qed.

Lemma search_at_start (r : regex) (s capture : jsstring) :
  run r s [] (fun _ cap => Some cap) = Some capture -> search r s = Some capture.
Proof. intro H. destruct s; cbn [search]; rewrite H; reflexivity. Qed.

(** The first format on a rupee sign followed by grouped digits captures
    them all. *)
Lemma rupee_format_captures (body : jsstring) :
  Forall (fun c => isGroupedUnit c = true) body -> body <> [] ->
  search (seqOf [chr rupee; Star ws; groupedDecimal]) (rupee :: body) = Some body.
Proof.
  intros Hbody Hne. apply search_at_start.
  destruct body as [|c body']; [contradiction|].
  assert (Hc : isGroupedUnit c = true) by (inversion Hbody; assumption).
  cbn [seqOf run chr]. rewrite Z.eqb_refl.
  unfold Star at 1. cbn [run].
  unfold ws. rewrite quant_class_none by (apply grouped_not_blank; exact Hc).
  unfold groupedDecimal. cbn [run]. unfold Plus.  cbn [run].
  apply quant_class_all with (p := fun c => isDigit c || (c =? 44)%Z).
  - exact Hbody.
  - simpl. rewrite firstn_all. reflexivity.
  - lia.
  - simpl. lia.
Qed.

Lemma takeDigits_all (ds : list Z) :
  Forall (fun d => isDigit d = true) ds -> takeDigits ds = (ds, []).
Proof.
  induction 1 as [|d ds Hd _ IH]; simpl; [reflexivity|]. rewrite Hd, IH. reflexivity.
Qed.

(** A run of digits that reads a whole number up to 2^53 parses to that
    number. *)
Lemma parseFloat_digits (ds : list Z) :
  Forall (fun d => isDigit d = true) ds -> ds <> [] ->
  (digitsValue ds <= 2 ^ 53)%Z ->
  exists q, parseFloat ds = Some q /\ q == inject_Z (digitsValue ds).
Proof.
  intros Hds Hne Hbound. unfold parseFloat. rewrite (takeDigits_all Hds).
  pose proof (digitsValue_nonneg Hds) as Hnonneg.
  destruct ds as [|d ds]; [contradiction|].
  eexists. split; [reflexivity|].
  change (digitsValue []) with 0%Z. simpl (List.length []).
  change (inject_Z (10 ^ Z.of_nat 0)) with 1. change (inject_Z 0) with 0.
  set (v := digitsValue (d :: ds)) in *.
  assert (Ev : inject_Z v + 0 / 1 == inject_Z v) by field.
  assert (Hv : 0 <= inject_Z v + 0 / 1)
    by (rewrite Ev; change 0 with (inject_Z 0); rewrite <- Zle_Qle; exact Hnonneg).
  rewrite (round64_comp Hv Ev). apply round64_integer. lia.
Qed.

Lemma Math_round_integer (q : Q) (v : Z) : q == inject_Z v -> Math_round q = inject_Z v.
Proof.
  intro E. unfold Math_round. f_equal.
  assert (Heq : q + 0.5 == inject_Z v + 0.5) by (rewrite E; reflexivity).
  rewrite (Qfloor_comp _ _ Heq).
  pose proof (Qfloor_le (inject_Z v + 0.5)) as Hle.
  pose proof (Qlt_floor (inject_Z v + 0.5)) as Hlt.
  set (f := Qfloor (inject_Z v + 0.5)) in *.
  rewrite inject_Z_plus in Hlt. change (inject_Z 1) with 1 in Hlt.
  assert (H1 : inject_Z f < inject_Z (v + 1)).
  { rewrite inject_Z_plus. change (inject_Z 1) with 1. lra. }
  assert (H2 : inject_Z v < inject_Z (f + 1)).
  { rewrite inject_Z_plus. change (inject_Z 1) with 1. lra. }
  rewrite <- Zlt_Qlt in H1, H2. lia.
Qed.

Lemma filter_grouped_digits (body : jsstring) :
  Forall (fun c => isGroupedUnit c = true) body ->
  filter (fun c => negb (c =? 44)%Z) body = filter isDigit body.
Proof.
  induction 1 as [|c body Hc _ IH]; simpl; [reflexivity|]. rewrite IH.
  replace (negb (c =? 44)%Z) with (isDigit c); [reflexivity|].
  by_grouped_cases Hc.
Qed.

(** The price of a rupee sign followed by digits in comma-separated
    groups. *)
Lemma rupee_amount_price (body : jsstring) :
  Forall (fun c => isGroupedUnit c = true) body ->
  (exists d, In d body /\ isDigit d = true) ->
  (digitsValue (filter isDigit body) <= 2 ^ 53)%Z ->
  extractPrice (rupee :: body) = inject_Z (digitsValue (filter isDigit body)).
Proof.
  intros Hbody [d [Hin Hd]] Hbound.
  assert (Hne : body <> []) by (intro E; subst; contradiction).
  assert (Hall : Forall (fun c => isGroupedUnit c = true \/ c = rupee) (rupee :: body)).
  { constructor; [right; reflexivity|].
    eapply Forall_impl; [|exact Hbody]. intros c Hc. left. exact Hc. }
  unfold extractPrice. cbn [isEmpty].
  assert (Eclean : map (fun c => if keptByCleaning c then c else 32%Z) (rupee :: body)
                   = rupee :: body).
  { cbn [map]. change (keptByCleaning rupee) with true. cbv iota. f_equal.
    clear -Hbody. induction Hbody as [|c body Hc _ IH]; simpl; [reflexivity|].
    rewrite (grouped_kept _ Hc), IH. reflexivity. }
  rewrite Eclean.
  rewrite trim_without_blanks.
  2:{ eapply Forall_impl; [|exact Hall]. intros c [Hc|Hc];
        [apply grouped_not_blank; exact Hc | subst; reflexivity]. }
  unfold formats. cbn [extractWith].
  rewrite (rupee_format_captures Hbody Hne).
  rewrite (filter_grouped_digits Hbody).
  assert (Hds : Forall (fun c => isDigit c = true) (filter isDigit body)).
  { apply Forall_forall. intros c Hc. apply filter_In in Hc. tauto. }
  assert (Hdne : filter isDigit body <> []).
  { intro E. assert (Hf : In d (filter isDigit body)) by (apply filter_In; tauto).
    rewrite E in Hf. contradiction. }
  destruct (parseFloat_digits Hds Hdne Hbound) as (q & Eq & Hq). rewrite Eq.
  assert (Eup : toUpperCase (rupee :: body) = rupee :: body).
  { unfold toUpperCase. cbn [flat_map]. change (upperUnit rupee) with [rupee].
    cbn [app]. f_equal.
    clear -Hbody. induction Hbody as [|c body Hc _ IH]; simpl; [reflexivity|].
    rewrite (grouped_upper _ Hc), IH. reflexivity. }
  assert (Hnot : forall c, c = 67%Z \/ c = 75%Z \/ c = 76%Z -> ~ In c (rupee :: body)).
  { intros c Hc [E|Hin'].
    - unfold rupee in E. lia.
    - assert (Hg : isGroupedUnit c = true)
        by (exact (proj1 (Forall_forall _ _) Hbody _ Hin')).
      destruct (grouped_not_suffix_letter _ Hg) as (? & ? & ?). lia. }
  unfold applySuffix. rewrite Eup.
  change (js "CR") with (67 :: js "R")%Z. change (js "CRORE") with (67 :: js "RORE")%Z.
  change (js "L") with (76 :: [])%Z. change (js "LAKH") with (76 :: js "AKH")%Z.
  change (js "LAC") with (76 :: js "AC")%Z. change (js "K") with (75 :: [])%Z.
  rewrite !includes_needs_head by (apply Hnot; lia).
  cbn [orb]. cbv iota. apply Math_round_integer, Hq.
Qed.

(** C7, as amended.  The normalizer and the validator return a number that
    is never negative, and 0 is their value for "no price": the normalizer
    returns 0 for the empty text, for a text that none of its patterns
    matches, and for an amount that reads 0; the validator returns 0
    exactly for a price that is not positive.  The selector loop that
    consumes the normalizer yields 0 or a positive price. *)
Theorem price_zero_stands_for_absence (host : Host) :
  (forall priceText, 0 <= extractPrice priceText)
  /\ extractPrice [] = 0
  /\ (forall priceText, unmatched priceText -> extractPrice priceText = 0)
  /\ (forall body,
        Forall (fun c => isGroupedUnit c = true) body ->
        (exists d, In d body /\ isDigit d = true) ->
        digitsValue (filter isDigit body) = 0%Z ->
        extractPrice (rupee :: body) = 0)
  /\ (forall doc selectors,
        findSellingPrice doc selectors = 0 \/ 0 < findSellingPrice doc selectors)
  /\ (forall price productName platform,
        0 <= validateAndNormalizePrice host price productName platform
        /\ (validateAndNormalizePrice host price productName platform == 0
            <-> price <= 0)).
Proof.
  split; [exact extractPrice_nonneg|]. split; [reflexivity|].
  split; [exact extractPrice_unmatched|].
  split.
  { intros body Hbody Hdigit Hzero.
    rewrite (rupee_amount_price Hbody Hdigit) by (rewrite Hzero; discriminate).
    rewrite Hzero. reflexivity. }
  split; [exact findSellingPrice_zero_or_positive|].
  intros price productName platform.
  destruct (normalized_price_range host price productName platform)
    as [Hzero Hpos].
  unfold minReasonablePrice, maxReasonablePrice in Hpos.
  destruct (Qlt_le_dec 0 price) as [Hp|Hp].
  - destruct (Hpos Hp) as [Hlo Hhi]. split; [lra|]. split; intro; lra.
  - rewrite (Hzero Hp). split; [lra|]. split; intro; [exact Hp | reflexivity].
Qed.

(** The text "Currently unavailable" is matched by no pattern, and the amount
    "0,00" reads 0. *)
Lemma price_zero_stands_for_absence_witness :
  extractPrice (js "Currently unavailable") = 0
  /\ extractPrice (rupee :: js "0,00") = 0.
Proof.
  split.
  - apply (proj1 (proj2 (proj2 (price_zero_stands_for_absence offlineHost)))).
    repeat constructor.
  - apply (proj1 (proj2 (proj2 (proj2 (price_zero_stands_for_absence offlineHost))))).
    + repeat constructor.
    + exists 48%Z. split; [left; reflexivity | reflexivity].
    + reflexivity.
Defined.

(** Beyond 2^53 not every whole number is a double: the amount
    9007199254740993 is read as 9007199254740992. *)
Lemma extractPrice_beyond_53_bits :
  extractPrice (rupee :: js "9007199254740993") = 9007199254740992.
Proof. vm_compute. reflexivity. Qed.

(** X3.  A rupee amount round-trips through the normalizer: for the rupee
    sign followed by digits in comma-separated groups (at least one digit)
    that read a number up to 2^53, extractPrice returns exactly the number
    the digits read. *)
Theorem extractPrice_rupee_amount (body : jsstring) :
  Forall (fun c => isGroupedUnit c = true) body ->
  (exists d, In d body /\ isDigit d = true) ->
  (digitsValue (filter isDigit body) <= 2 ^ 53)%Z ->
  extractPrice (rupee :: body) = inject_Z (digitsValue (filter isDigit body)).
Proof. apply rupee_amount_price. Qed.

Lemma extractPrice_rupee_amount_witness :
  extractPrice (rupee :: js "1,23,456") = inject_Z (digitsValue (filter isDigit (js "1,23,456"))).
Proof.
  apply extractPrice_rupee_amount.
  - repeat constructor.
  - exists 49%Z. split; [left; reflexivity | reflexivity].
  - vm_compute. discriminate.
Defined.

(** ** Prices on a page *)

Lemma findMrp_above (doc : Cheerio) (selectors : list jsstring) (sellingPrice mrp : number) :
  findMrp doc selectors sellingPrice = Some mrp -> sellingPrice < mrp.
Proof.
  induction selectors as [|selector rest IH]; simpl; [discriminate|].
  destruct (negb (isEmpty (firstTextOf doc selector))
            && Qlt_bool sellingPrice (extractPrice (firstTextOf doc selector))) eqn:E;
    [|exact IH].
  intro H. injection H as <-. order_facts. assumption.
Qed.

Lemma findSellingPrice_nonneg (doc : Cheerio) (selectors : list jsstring) :
  0 <= findSellingPrice doc selectors.
Proof.
  destruct (findSellingPrice_zero_or_positive doc selectors) as [H|H];
    [rewrite H|]; lra.
Qed.

(** X4.  The prices read off an Amazon or a Flipkart page: the selling price
    is 0 (none found) or positive, and a list price, when one is reported,
    is strictly above the selling price. *)
Theorem page_prices_ordered (doc : Cheerio) :
  (rawPrice (extractAmazonPrices doc) = 0 \/ 0 < rawPrice (extractAmazonPrices doc))
  /\ (forall mrp, rawOriginalPrice (extractAmazonPrices doc) = Some mrp ->
        rawPrice (extractAmazonPrices doc) < mrp)
  /\ (rawPrice (extractFlipkartPrices doc) = 0 \/ 0 < rawPrice (extractFlipkartPrices doc))
  /\ (forall mrp, rawOriginalPrice (extractFlipkartPrices doc) = Some mrp ->
        rawPrice (extractFlipkartPrices doc) < mrp).
Proof.
  unfold extractAmazonPrices, extractFlipkartPrices. cbn [rawPrice rawOriginalPrice].
  split; [apply findSellingPrice_zero_or_positive|].
  split; [intros mrp H; exact (findMrp_above _ _ _ H)|].
  split; [apply findSellingPrice_zero_or_positive|].
  intros mrp H; exact (findMrp_above _ _ _ H).
Qed.

(** The discount of a selling price that is not negative. *)
Lemma discount_range (sellingPrice : number) (mrp : option number) (percentage : number) :
  0 <= sellingPrice ->
  disc_percentage (calculateDiscount sellingPrice mrp) = Some percentage ->
  (0 <= percentage /\ percentage <= 100)
  /\ exists listPrice,
       mrp = Some listPrice /\ sellingPrice < listPrice
       /\ disc_amount (calculateDiscount sellingPrice mrp) = Some (listPrice - sellingPrice).
Proof.
  intros Hs. unfold calculateDiscount.
  destruct mrp as [m|]; [|simpl; discriminate].
  destruct (isZero m || Qle_bool m sellingPrice) eqn:E; [simpl; discriminate|].
  apply orb_false_iff in E. destruct E as [Ez El].
  apply isZero_false in Ez. apply Qle_bool_false in El.
  simpl. intro Hp. injection Hp as <-.
  destruct (@rounded_percentage_range (m - sellingPrice) m) as [Hp0 Hp100];
    [lra | lra |].
  set (p := round64 (round64 ((m - sellingPrice) / m) * 100)) in *.
  split.
  - split.
    + apply Math_round_nonneg. exact Hp0.
    + unfold Math_round.
      pose proof (@Math_floor_lt_Z (p + 0.5) 101) as Hf.
      change (inject_Z 101) with 101 in Hf. unfold Math_floor in Hf.
      assert (Hb : p + 0.5 < 101) by lra.
      specialize (Hf Hb). lra.
  - exists m. split; [reflexivity|]. split; [exact El | reflexivity].
Qed.

(** X5.  For a selling price that is not negative, a discount, when
    calculateDiscount reports one, is a percentage between 0 and 100 and an
    amount equal to the positive difference of the list price and the
    selling price. *)
Theorem calculateDiscount_percentage_range (sellingPrice : number) (mrp : option number)
    (percentage : number) :
  0 <= sellingPrice ->
  disc_percentage (calculateDiscount sellingPrice mrp) = Some percentage ->
  (0 <= percentage /\ percentage <= 100)
  /\ exists listPrice,
       mrp = Some listPrice /\ sellingPrice < listPrice
       /\ disc_amount (calculateDiscount sellingPrice mrp) = Some (listPrice - sellingPrice).
Proof. apply discount_range. Qed.

Lemma calculateDiscount_percentage_range_witness :
  (0 <= Math_round ((1200 - 800) / 1200 * 100)
   /\ Math_round ((1200 - 800) / 1200 * 100) <= 100)
  /\ exists listPrice,
       Some 1200 = Some listPrice /\ 800 < listPrice
       /\ disc_amount (calculateDiscount 800 (Some 1200)) = Some (listPrice - 800).
Proof.
  apply (@calculateDiscount_percentage_range 800 (Some 1200)
           (Math_round ((1200 - 800) / 1200 * 100))).
  - vm_compute. discriminate.
  - reflexivity.
Defined.

(** ** Validation reaches a fixed point *)

Lemma accepted_price_unchanged (host : Host) (q : number) (name platform : jsstring) :
  10 <= q -> q <= 500000 ->
  isValid (validatePriceByCategory q name platform) = true ->
  validateAndNormalizePrice host q name platform = q.
Proof.
  intros Hlo Hhi Hv. unfold validateAndNormalizePrice, maxReasonablePrice, minReasonablePrice.
  destruct (isZero q) eqn:E1; [order_facts; lra|].
  destruct (Qle_bool q 0) eqn:E2; [order_facts; lra|]. simpl.
  destruct (Qlt_bool 500000 q) eqn:E3; [order_facts; lra|].
  destruct (Qlt_bool q 10) eqn:E4; [order_facts; lra|].
  rewrite Hv. reflexivity.
Qed.

Lemma price_in_category_valid (q : number) (name platform detected : jsstring)
    (range : ValidationRange) :
  matchingRange (toLowerCase name) = Some (detected, range) ->
  inject_Z (vmin range) <= q -> q <= inject_Z (vmax range) ->
  isValid (validatePriceByCategory q name platform) = true.
Proof.
  intros E Hlo Hhi. unfold validatePriceByCategory. rewrite E.
  destruct (Qlt_bool q (inject_Z (vmin range))) eqn:E1; [order_facts; lra|].
  destruct (Qlt_bool (inject_Z (vmax range)) q) eqn:E2; [order_facts; lra|].
  reflexivity.
Qed.

Lemma validated_price_fixed (host : Host) (p : number) (name platform : jsstring) :
  10 <= p -> p <= 500000 ->
  isValid (validatePriceByCategory (validateAndNormalizePrice host p name platform)
             name platform) = true
  /\ validateAndNormalizePrice host (validateAndNormalizePrice host p name platform)
       name platform
     = validateAndNormalizePrice host p name platform.
Proof.
  intros Hlo Hhi.
  assert (Hq : validateAndNormalizePrice host p name platform
               = match suggestedPrice (validatePriceByCategory p name platform) with
                 | Some suggested =>
                     if isValid (validatePriceByCategory p name platform) then p
                     else if isZero suggested then p else suggested
                 | None => p
                 end).
  { unfold validateAndNormalizePrice, maxReasonablePrice, minReasonablePrice.
    destruct (isZero p) eqn:E1; [order_facts; lra|].
    destruct (Qle_bool p 0) eqn:E2; [order_facts; lra|]. simpl.
    destruct (Qlt_bool 500000 p) eqn:E3; [order_facts; lra|].
    destruct (Qlt_bool p 10) eqn:E4; [order_facts; lra|].
    destruct (isValid _), (suggestedPrice _); reflexivity. }
  destruct (isValid (validatePriceByCategory p name platform)) eqn:Ev.
  - assert (Hp : validateAndNormalizePrice host p name platform = p)
      by (apply accepted_price_unchanged; assumption).
    rewrite !Hp. split; [exact Ev | reflexivity].
  - destruct (rejected_price_suggestion _ _ _ Ev) as (detected & range & Em & Es & Hb).
    destruct (Hb _ Es) as [[Hc1 Hc2] [Hc3 Hc4]].
    unfold minReasonablePrice, maxReasonablePrice in Hc3, Hc4.
    rewrite Es in Hq.
    set (c := Math_min (Math_max p (inject_Z (typicalMin range)))
                       (inject_Z (typicalMax range))) in *.
    destruct (isZero c) eqn:Ez; [order_facts; lra|].
    rewrite Hq.
    assert (Hvalid : isValid (validatePriceByCategory c name platform) = true)
      by (eapply price_in_category_valid; eassumption).
    split; [exact Hvalid | apply accepted_price_unchanged; assumption].
Qed.

(** X6.  Validation reaches a fixed point in one step: for a price within
    the absolute bounds, the validated price is accepted by the category
    validator and validating it again returns it unchanged. *)
Theorem validateAndNormalizePrice_idempotent (host : Host) (p : number)
    (name platform : jsstring) :
  10 <= p -> p <= 500000 ->
  isValid (validatePriceByCategory (validateAndNormalizePrice host p name platform)
             name platform) = true
  /\ validateAndNormalizePrice host (validateAndNormalizePrice host p name platform)
       name platform
     = validateAndNormalizePrice host p name platform.
Proof. apply validated_price_fixed. Qed.

Lemma validateAndNormalizePrice_idempotent_witness :
  isValid (validatePriceByCategory
             (validateAndNormalizePrice offlineHost 100 (js "Budget Phone") (js "Amazon"))
             (js "Budget Phone") (js "Amazon")) = true
  /\ validateAndNormalizePrice offlineHost
       (validateAndNormalizePrice offlineHost 100 (js "Budget Phone") (js "Amazon"))
       (js "Budget Phone") (js "Amazon")
     = validateAndNormalizePrice offlineHost 100 (js "Budget Phone") (js "Amazon").
Proof.
  apply validateAndNormalizePrice_idempotent; vm_compute; discriminate.
Defined.

(** ** Extracted records *)

Lemma str_eqb_eq (a b : jsstring) : str_eqb a b = true -> a = b.
Proof.
  revert b. induction a as [|x a IH]; intros [|y b] H; simpl in H;
    try discriminate; [reflexivity|].
  apply andb_true_iff in H. destruct H as [Hxy Hab].
  apply Z.eqb_eq in Hxy. subst y. f_equal. apply IH, Hab.
Qed.

Lemma some_injective {A} (a b : A) : Some a = Some b -> a = b.
Proof. intro H. injection H as E. exact E. Qed.

Lemma substring0_nonempty (n : nat) (s : jsstring) :
  s <> [] -> substring0 (S n) s <> [].
Proof. destruct s; [contradiction | discriminate]. Qed.

Lemma featureTexts_length (doc : Cheerio) (selector : jsstring) (n : nat) :
  (List.length (featureTexts doc selector n) <= 10)%nat.
Proof. unfold featureTexts. apply firstn_le_length. Qed.

Lemma validated_positive (host : Host) (price : number) (name platform : jsstring) :
  0 < price ->
  10 <= validateAndNormalizePrice host price name platform
  /\ validateAndNormalizePrice host price name platform <= 500000.
Proof. intro H. apply (normalized_price_range host price name platform), H. Qed.

Lemma validated_list_price (host : Host) (doc : Cheerio) (selectors : list jsstring)
    (selling : number) (name platform : jsstring) (o : number) :
  0 <= selling ->
  whenTruthy (findMrp doc selectors selling)
    (fun raw => validateAndNormalizePrice host raw name platform) = Some o ->
  10 <= o /\ o <= 500000.
Proof.
  intros Hs. unfold whenTruthy.
  destruct (findMrp doc selectors selling) as [v|] eqn:E; [|discriminate].
  apply findMrp_above in E. destruct (isZero v); [discriminate|].
  intro H. injection H as <-. apply validated_positive. lra.
Qed.

Lemma extractAmazonData_sound (host : Host) (doc : Cheerio) (url : jsstring)
    (productData : ProductData) :
  extractAmazonData host doc url = Some productData ->
  soundRecord (js "Amazon") url productData
  /\ (List.length (pd_name productData) <= 150)%nat.
Proof.
  unfold extractAmazonData.
  set (cut := substring0 150 (amazonName doc)).
  assert (Hcut : (List.length cut <= 150)%nat /\ (amazonName doc <> [] -> cut <> [])).
  { split; [apply firstn_le_length | apply substring0_nonempty]. }
  clearbody cut. destruct Hcut as [Hlen Hcut].
  destruct (isEmpty (amazonName doc)) eqn:En; [discriminate|].
  destruct (isZero (rawPrice (extractAmazonPrices doc))) eqn:Ez; [discriminate|].
  destruct (isZero (validateAndNormalizePrice _ _ _ _)) eqn:Ev; [discriminate|].
  intro H. apply some_injective in H. subst productData. unfold soundRecord.
  cbn [pd_name pd_price pd_originalPrice pd_platform pd_url pd_features
       pd_discountPercentage pd_discountAmount].
  assert (Hpos : 0 < findSellingPrice doc amazonSellingPriceSelectors).
  { destruct (findSellingPrice_zero_or_positive doc amazonSellingPriceSelectors)
      as [E|E]; [|exact E].
    unfold extractAmazonPrices in Ez. cbn [rawPrice] in Ez. rewrite E in Ez. discriminate. }
  split; [|exact Hlen].
  split; [apply Hcut; destruct (amazonName doc); discriminate|].
  split; [apply validated_positive; exact Hpos|].
  split; [intros o Ho; eapply validated_list_price; [|exact Ho]; lra|].
  split; [reflexivity|]. split; [reflexivity|].
  split; [apply featureTexts_length|]. split; reflexivity.
Qed.

Lemma extractFlipkartData_sound (host : Host) (doc : Cheerio) (url : jsstring)
    (productData : ProductData) :
  extractFlipkartData host doc url = Some productData ->
  soundRecord (js "Flipkart") url productData
  /\ (List.length (pd_name productData) <= 150)%nat.
Proof.
  unfold extractFlipkartData.
  set (cut := substring0 150 (flipkartName doc)).
  assert (Hcut : (List.length cut <= 150)%nat /\ (flipkartName doc <> [] -> cut <> [])).
  { split; [apply firstn_le_length | apply substring0_nonempty]. }
  clearbody cut. destruct Hcut as [Hlen Hcut].
  destruct (isEmpty (flipkartName doc)) eqn:En; [discriminate|].
  destruct (isZero (rawPrice (extractFlipkartPrices doc))) eqn:Ez; [discriminate|].
  destruct (isZero (validateAndNormalizePrice _ _ _ _)) eqn:Ev; [discriminate|].
  intro H. apply some_injective in H. subst productData. unfold soundRecord.
  cbn [pd_name pd_price pd_originalPrice pd_platform pd_url pd_features
       pd_discountPercentage pd_discountAmount].
  assert (Hpos : 0 < findSellingPrice doc flipkartSellingPriceSelectors).
  { destruct (findSellingPrice_zero_or_positive doc flipkartSellingPriceSelectors)
      as [E|E]; [|exact E].
    unfold extractFlipkartPrices in Ez. cbn [rawPrice] in Ez. rewrite E in Ez.
    discriminate. }
  split; [|exact Hlen].
  split; [apply Hcut; destruct (flipkartName doc); discriminate|].
  split; [apply validated_positive; exact Hpos|].
  split; [intros o Ho; eapply validated_list_price; [|exact Ho]; lra|].
  split; [reflexivity|]. split; [reflexivity|].
  split; [apply featureTexts_length|]. split; reflexivity.
Qed.

Lemma extractGenericData_sound (host : Host) (doc : Cheerio) (url platform : jsstring)
    (productData : ProductData) :
  extractGenericData host doc url platform = Some productData ->
  soundRecord platform url productData.
Proof.
  unfold extractGenericData. intro H. apply some_injective in H. subst productData.
  unfold soundRecord.
  cbn [pd_name pd_price pd_originalPrice pd_platform pd_url pd_features
       pd_discountPercentage pd_discountAmount].
  split; [apply orElse_nonempty; discriminate|].
  split; [apply validated_positive, generic_price_positive|].
  split; [intros o Ho; eapply validated_list_price; [|exact Ho];
          apply findSellingPrice_nonneg|].
  split; [reflexivity|]. split; [reflexivity|]. split; [simpl; lia|]. split; reflexivity.
Qed.

Lemma extractByPlatform_sound (host : Host) (platform : jsstring) (doc : Cheerio)
    (url : jsstring) (productData : ProductData) :
  extractByPlatform host platform doc url = Some productData ->
  soundRecord platform url productData.
Proof.
  unfold extractByPlatform.
  destruct (str_eqb platform (js "Amazon")) eqn:Ea.
  - apply str_eqb_eq in Ea. subst platform. intro H.
    apply (extractAmazonData_sound _ _ _ H).
  - destruct (str_eqb platform (js "Flipkart")) eqn:Ef.
    + apply str_eqb_eq in Ef. subst platform. intro H.
      apply (extractFlipkartData_sound _ _ _ H).
    + apply extractGenericData_sound.
Qed.

(** X7.  Every record a page extractor returns is filled in: the name is
    not empty, the price and the list price (when there is one) lie within
    the absolute bounds, the platform and the URL are those asked for, and
    there are at most ten features. *)
Theorem extractByPlatform_record_filled (host : Host) (platform : jsstring)
    (doc : Cheerio) (url : jsstring) (productData : ProductData) :
  extractByPlatform host platform doc url = Some productData ->
  pd_name productData <> []
  /\ (minReasonablePrice <= pd_price productData
      /\ pd_price productData <= maxReasonablePrice)
  /\ (forall listPrice, pd_originalPrice productData = Some listPrice ->
        minReasonablePrice <= listPrice /\ listPrice <= maxReasonablePrice)
  /\ pd_platform productData = platform
  /\ pd_url productData = url
  /\ (List.length (pd_features productData) <= 10)%nat.
Proof.
  intro H. destruct (extractByPlatform_sound _ _ _ _ H)
    as (Hn & Hp & Ho & Hpl & Hu & Hf & _).
  repeat split; try assumption; try apply Hp; apply (Ho _ H0).
Qed.

Lemma extractByPlatform_record_filled_witness :
  exists productData,
    extractByPlatform (servingHost walletPage) (js "Myntra") walletPage myntraUrl
    = Some productData
    /\ pd_name productData <> []
    /\ (minReasonablePrice <= pd_price productData
        /\ pd_price productData <= maxReasonablePrice)
    /\ pd_platform productData = js "Myntra".
Proof.
  eexists. split; [vm_compute; reflexivity|].
  destruct (@extractByPlatform_record_filled (servingHost walletPage) (js "Myntra")
              walletPage myntraUrl _ eq_refl) as (Hn & Hp & _ & Hpl & _).
  split; [exact Hn|]. split; [exact Hp | exact Hpl].
Defined.

(** X8.  In every extracted record the discount is shown exactly when the
    list price is present and above the price: then the amount is their
    difference and the percentage lies between 0 and 100; otherwise both
    discount fields are absent, also when a list price at or below the price
    is kept in the record. *)
Theorem extractByPlatform_discount_consistent (host : Host) (platform : jsstring)
    (doc : Cheerio) (url : jsstring) (productData : ProductData) :
  extractByPlatform host platform doc url = Some productData ->
  (forall listPrice,
     pd_originalPrice productData = Some listPrice ->
     pd_price productData < listPrice ->
     pd_discountAmount productData = Some (listPrice - pd_price productData)
     /\ exists percentage,
          pd_discountPercentage productData = Some percentage
          /\ 0 <= percentage /\ percentage <= 100)
  /\ ((pd_originalPrice productData = None
       \/ exists listPrice, pd_originalPrice productData = Some listPrice
                            /\ listPrice <= pd_price productData) ->
      pd_discountAmount productData = None
      /\ pd_discountPercentage productData = None).
Proof.
  intro H. destruct (extractByPlatform_sound _ _ _ _ H)
    as (_ & [Hp _] & _ & _ & _ & _ & Epct & Eamt).
  rewrite Epct, Eamt. clear Epct Eamt H. split.
  - intros listPrice Eo Hlt. rewrite Eo.
    assert (Ed : calculateDiscount (pd_price productData) (Some listPrice)
                 = {| disc_percentage :=
                        Some (Math_round
                                (round64 (round64 ((listPrice - pd_price productData)
                                                   / listPrice) * 100)));
                      disc_amount := Some (listPrice - pd_price productData) |}).
    { unfold calculateDiscount.
      destruct (isZero listPrice) eqn:Ez; [order_facts; lra|].
      destruct (Qle_bool listPrice (pd_price productData)) eqn:El; [order_facts; lra|].
      reflexivity. }
    split; [rewrite Ed; reflexivity|].
    eexists. split; [rewrite Ed; reflexivity|].
    apply (@discount_range (pd_price productData) (Some listPrice)); [lra|].
    rewrite Ed. reflexivity.
  - intros [Eo|(listPrice & Eo & Hle)]; rewrite Eo; [split; reflexivity|].
    unfold calculateDiscount. apply Qle_bool_iff in Hle.
    rewrite Hle, orb_true_r. split; reflexivity.
Qed.

(** A page with a price of 800 struck from 1200. *)
Lemma extractByPlatform_discount_consistent_witness :
  exists productData,
    extractByPlatform offlineHost (js "Myntra")
      (pageWith [ (js "h1", js "Leather Wallet"); (js ".price", [rupee] ++ js "800");
                  (js ".mrp", [rupee] ++ js "1,200") ])
      myntraUrl = Some productData
    /\ pd_discountAmount productData = Some (1200 - pd_price productData).
Proof.
  eexists. split; [vm_compute; reflexivity|].
  apply (proj1 (@extractByPlatform_discount_consistent offlineHost (js "Myntra")
                  (pageWith [ (js "h1", js "Leather Wallet");
                              (js ".price", [rupee] ++ js "800");
                              (js ".mrp", [rupee] ++ js "1,200") ])
                  myntraUrl _ eq_refl) 1200); [reflexivity | reflexivity].
Defined.

(** ** The analysed product *)

Lemma generateFallbackData_sound (host : Host) (url platform : jsstring) :
  soundRecord platform url (generateFallbackData host url platform).
Proof.
  unfold soundRecord, generateFallbackData.
  cbn [pd_name pd_price pd_originalPrice pd_platform pd_url pd_features
       pd_discountPercentage pd_discountAmount].
  split; [apply orElse_nonempty; discriminate|].
  split; [destruct (generateReasonablePrice_absolute host
                      (orElse (extractProductNameFromUrl host url) [])); split; lra|].
  split; [discriminate|]. split; [reflexivity|]. split; [reflexivity|].
  split; [simpl; lia|]. split; reflexivity.
Qed.

Lemma extractProductData_sound (host : Host) (url : jsstring) :
  returns (extractProductData host url)
          (fun result => exists productData,
             result = Some productData
             /\ soundRecord (detectPlatform url) url productData).
Proof.
  unfold extractProductData. apply returns_try_catch.
  eapply returns_bind with (P := fun _ => True).
  { unfold fetchPageContent. returns_steps; exact I. }
  intros html _. destruct html as [doc|].
  - destruct (extractByPlatform host (detectPlatform url) doc url) as [pd|] eqn:E;
      apply returns_ret; eexists; (split; [reflexivity|]).
    + apply (extractByPlatform_sound _ _ _ _ E).
    + apply generateFallbackData_sound.
  - apply returns_ret. eexists. split; [reflexivity | apply generateFallbackData_sound].
Qed.

(** X9.  Analysing a URL always yields a product, whatever the network
    answers and whatever the page holds: its name is not empty, its price
    lies within the absolute bounds, its platform is the one detected from
    the URL and its URL is the one given. *)
Theorem analyzeProductFromUrl_product (host : Host) (url : jsstring) (n : nat) :
  exists productData n',
    analyzeProductFromUrl host url n = (Return (Some productData), n')
    /\ pd_name productData <> []
    /\ (minReasonablePrice <= pd_price productData
        /\ pd_price productData <= maxReasonablePrice)
    /\ pd_platform productData = detectPlatform url
    /\ pd_url productData = url.
Proof.
  destruct (extractProductData_sound host url n)
    as (result & n' & E & pd & -> & Hn & Hp & _ & Hpl & Hu & _).
  exists pd, n'. split.
  - unfold analyzeProductFromUrl, try_catch, bind. rewrite E. reflexivity.
  - repeat split; try assumption; apply Hp.
Qed.

(** ** Search terms *)

Lemma splitBlanks_parts (P : Z -> Prop) (s : jsstring) :
  Forall P s ->
  Forall (Forall (fun c => P c /\ isWhiteSpace c = false)) (splitBlanks s).
Proof.
  induction 1 as [|c s Hc Hs IH]; [repeat constructor|].
  cbn [splitBlanks]. destruct (isWhiteSpace c) eqn:Ec.
  - destruct s as [|d s']; [repeat constructor|].
    destruct (isWhiteSpace d); [exact IH | constructor; [constructor | exact IH]].
  - destruct (splitBlanks s) as [|part parts]; [repeat constructor; assumption|].
    inversion IH as [|? ? Hpart Hparts]; subst.
    constructor; [constructor; [split; assumption | exact Hpart] | exact Hparts].
Qed.

Lemma lowerUnit_not_upper (c : Z) :
  Forall (fun x => ((65 <=? x) && (x <=? 90))%Z = false) (lowerUnit c).
Proof.
  unfold lowerUnit. destruct ((65 <=? c) && (c <=? 90))%Z eqn:E.
  - apply andb_true_iff in E. destruct E as [E1 E2]. apply Z.leb_le in E1, E2.
    repeat constructor. apply andb_false_iff. right. apply Z.leb_gt. lia.
  - destruct (c =? 8490)%Z; [repeat constructor|].
    destruct (c =? 304)%Z; repeat constructor. exact E.
Qed.

Lemma toLowerCase_not_upper (s : jsstring) :
  Forall (fun x => ((65 <=? x) && (x <=? 90))%Z = false) (toLowerCase s).
Proof.
  unfold toLowerCase. induction s as [|c s IH]; simpl; [constructor|].
  apply Forall_app. split; [apply lowerUnit_not_upper | exact IH].
Qed.

Lemma join_units (P : Z -> Prop) (sep : jsstring) (parts : list jsstring) :
  Forall P sep -> Forall (Forall P) parts -> Forall P (join sep parts).
Proof.
  intros Hsep. induction 1 as [|p parts Hp Hparts IH]; [constructor|].
  cbn [join]. destruct parts as [|q parts']; [exact Hp|].
  apply Forall_app. split; [exact Hp|]. apply Forall_app. split; [exact Hsep | exact IH].
Qed.

Lemma lower_word_unit (c : Z) :
  (isWordUnit c = true \/ isWhiteSpace c = true) ->
  isWhiteSpace c = false -> ((65 <=? c) && (c <=? 90))%Z = false ->
  isLowerWordUnit c = true.
Proof.
  intros [Hw|Hw] Hnb Hnu; [|congruence].
  unfold isWordUnit in Hw. unfold isLowerWordUnit. rewrite Hnu in Hw.
  rewrite orb_false_r in Hw. exact Hw.
Qed.

Lemma in_firstn {A} (n : nat) (l : list A) (x : A) : In x (firstn n l) -> In x l.
Proof.
  revert l. induction n as [|n IH]; intros [|a l] H; simpl in H; try contradiction.
  destruct H as [H|H]; [left; exact H | right; apply IH, H].
Qed.

(** The words createSearchTerms joins. *)
Lemma createSearchTerms_words (productName : jsstring) :
  exists words,
    createSearchTerms productName = join (js " ") words
    /\ (List.length words <= 4)%nat
    /\ Forall (fun word => (2 < List.length word)%nat
                           /\ existsb (str_eqb word) stopWords = false
                           /\ Forall (fun c => isLowerWordUnit c = true) word) words.
Proof.
  unfold createSearchTerms. eexists. split; [reflexivity|].
  split; [apply firstn_le_length|].
  apply Forall_forall. intros word Hin.
  apply in_firstn in Hin. apply filter_In in Hin. destruct Hin as [Hin Hf].
  apply andb_true_iff in Hf. destruct Hf as [Hlen Hstop].
  apply Nat.ltb_lt in Hlen. apply negb_true_iff in Hstop.
  split; [exact Hlen|]. split; [exact Hstop|].
  assert (Hclean : Forall (fun c => (isWordUnit c = true \/ isWhiteSpace c = true)
                                    /\ ((65 <=? c) && (c <=? 90))%Z = false)
                     (map (fun c => if isWordUnit c || isWhiteSpace c then c else 32%Z)
                          (toLowerCase productName))).
  { apply Forall_map. eapply Forall_impl; [|apply toLowerCase_not_upper].
    intros c Hc. destruct (isWordUnit c || isWhiteSpace c) eqn:E.
    - split; [apply orb_true_iff; exact E | exact Hc].
    - split; [right; reflexivity | reflexivity]. }
  pose proof (splitBlanks_parts Hclean) as Hparts.
  pose proof (proj1 (Forall_forall _ _) Hparts _ Hin) as Hword.
  eapply Forall_impl; [|exact Hword].
  intros c [[Hc Hu] Hb]. apply lower_word_unit; assumption.
Qed.

Lemma codePoints_without_surrogates (s : jsstring) :
  Forall (fun c => isHighSurrogate c = false /\ isLowSurrogate c = false) s ->
  codePoints s <> None.
Proof.
  unfold codePoints. induction 1 as [|c s [Hh Hl] _ IH]; simpl; [discriminate|].
  rewrite Hl, Hh. destruct (codePointsFrom None s); [discriminate | contradiction].
Qed.

Lemma lower_word_unit_plain (c : Z) :
  isLowerWordUnit c = true \/ c = 32%Z ->
  isHighSurrogate c = false /\ isLowSurrogate c = false.
Proof.
  unfold isLowerWordUnit, isDigit, isHighSurrogate, isLowSurrogate.
  intros [H|H]; [|subst; split; reflexivity].
  assert (Hc : (c <= 122)%Z).
  { repeat (apply orb_true_iff in H; destruct H as [H|H]);
      try (apply andb_true_iff in H; destruct H as [H1 H2]; apply Z.leb_le in H2; lia).
    apply Z.eqb_eq in H. lia. }
  split; apply andb_false_iff; left; apply Z.leb_gt; lia.
Qed.

Lemma createSearchTerms_encodes (productName : jsstring) :
  codePoints (createSearchTerms productName) <> None.
Proof.
  destruct (createSearchTerms_words productName) as (words & E & _ & Hwords).
  rewrite E. apply codePoints_without_surrogates.
  apply join_units.
  - repeat constructor.
  - eapply Forall_impl; [|exact Hwords]. intros word (_ & _ & Hw).
    eapply Forall_impl; [|exact Hw]. intros c Hc.
    apply lower_word_unit_plain. left. exact Hc.
Qed.

(** X10.  The search terms made from a product name are at most four words
    joined by single blanks; each word is longer than two units, is no stop
    word and consists of lower-case letters, digits and underscores only.
    Hence the terms always encode: building a search URL from them never
    throws. *)
Theorem createSearchTerms_shape (productName platform : jsstring) :
  (exists words,
     createSearchTerms productName = join (js " ") words
     /\ (List.length words <= 4)%nat
     /\ Forall (fun word => (2 < List.length word)%nat
                            /\ existsb (str_eqb word) stopWords = false
                            /\ Forall (fun c => isLowerWordUnit c = true) word) words)
  /\ buildSearchUrl platform (createSearchTerms productName) <> None.
Proof.
  split; [apply createSearchTerms_words|].
  unfold buildSearchUrl, encodeURIComponent.
  pose proof (createSearchTerms_encodes productName) as H.
  destruct (codePoints (createSearchTerms productName)); [simpl; discriminate | contradiction].
Qed.

(** ** Similar products *)

Lemma nonzero_price_positive (text : jsstring) :
  isZero (extractPrice text) = false -> 0 < extractPrice text.
Proof.
  intro H. apply isZero_false in H. pose proof (extractPrice_nonneg text) as Hn.
  destruct (Qlt_le_dec 0 (extractPrice text)) as [Hp|Hp]; [exact Hp|].
  exfalso. apply H. apply Qle_antisym; assumption.
Qed.

(** What holds of a search result. *)
Lemma extractFirstAmazonResult_sound (doc : Cheerio) (searchUrl searchTerms : jsstring)
    (result : ProductData) :
  extractFirstAmazonResult doc searchUrl searchTerms = Some result ->
  searchResult (js "Amazon") (js "https://www.amazon.in") (amazonResultLink doc) result.
Proof.
  unfold extractFirstAmazonResult, amazonResultLink.
  set (name := trim (selText (selFind (js "h2 a span") _))).
  set (cut := substring0 150 name).
  assert (Hcut : (List.length cut <= 150)%nat /\ (name <> [] -> cut <> [])).
  { split; [apply firstn_le_length | apply substring0_nonempty]. }
  clearbody cut. destruct Hcut as [Hlen Hcut].
  destruct (isEmpty_sel _); [discriminate|].
  destruct (selAttr _ _) as [linkHref|]; [|discriminate].
  destruct (isEmpty name) eqn:En; [discriminate|].
  destruct (isZero (extractPrice _)) eqn:Ez; [discriminate|].
  destruct (isEmpty linkHref) eqn:El; [discriminate|]. cbn [orb].
  intro H. apply some_injective in H. subst result. unfold searchResult.
  cbn [pd_name pd_price pd_platform pd_url].
  split; [reflexivity|].
  split; [apply Hcut; destruct name; discriminate|].
  split; [exact Hlen|].
  split; [apply nonzero_price_positive, Ez|].
  exists linkHref. split; [reflexivity|]. split; [|reflexivity].
  destruct linkHref; discriminate.
Qed.

Lemma extractFirstFlipkartResult_sound (doc : Cheerio) (searchUrl searchTerms : jsstring)
    (result : ProductData) :
  extractFirstFlipkartResult doc searchUrl searchTerms = Some result ->
  searchResult (js "Flipkart") (js "https://www.flipkart.com") (flipkartResultLink doc)
    result.
Proof.
  unfold extractFirstFlipkartResult, flipkartResultLink.
  set (name := trim (selText (selFind (js "._4rR01T") _))).
  set (cut := substring0 150 name).
  assert (Hcut : (List.length cut <= 150)%nat /\ (name <> [] -> cut <> [])).
  { split; [apply firstn_le_length | apply substring0_nonempty]. }
  clearbody cut. destruct Hcut as [Hlen Hcut].
  destruct (isEmpty_sel _); [discriminate|].
  destruct (selAttr _ _) as [linkHref|]; [|discriminate].
  destruct (isEmpty name) eqn:En; [discriminate|].
  destruct (isZero (extractPrice _)) eqn:Ez; [discriminate|].
  destruct (isEmpty linkHref) eqn:El; [discriminate|]. cbn [orb].
  intro H. apply some_injective in H. subst result. unfold searchResult.
  cbn [pd_name pd_price pd_platform pd_url].
  split; [reflexivity|].
  split; [apply Hcut; destruct name; discriminate|].
  split; [exact Hlen|].
  split; [apply nonzero_price_positive, Ez|].
  exists linkHref. split; [reflexivity|]. split; [|reflexivity].
  destruct linkHref; discriminate.
Qed.

(** The link of a result is written after the platform's address as it is
    found: a link that is no path gives a URL on another site. *)
Lemma search_result_link_unchecked :
  exists result,
    extractFirstFlipkartResult
      (fun selector =>
         if str_eqb selector (js "._1AtVbE") then
           [mkNode [] (fun _ => None)
              (fun q =>
                 if str_eqb q (js "._4rR01T")
                 then [mkNode (js "Wallet") (fun _ => None) (fun _ => [])]
                 else if str_eqb q (js "._30jeq3")
                 then [mkNode ([rupee] ++ js "499") (fun _ => None) (fun _ => [])]
                 else if str_eqb q (js "._1fQZEK")
                 then [mkNode [] (fun _ => Some (js ".shop.example/p/1")) (fun _ => [])]
                 else [])]
         else [])
      (js "https://www.flipkart.com/search?q=wallet") (js "wallet") = Some result
    /\ pd_url result = js "https://www.flipkart.com.shop.example/p/1".
Proof. eexists. split; [vm_compute; reflexivity | reflexivity]. Qed.

(** X11.  A search result, when one is extracted, is on the platform
    searched, has a name of 1 to 150 units and a positive price; its URL is
    the address of the platform followed by the href of the first result's
    link, which is present and not empty, and is taken as it is found. *)
Theorem search_result_filled (doc : Cheerio) (searchUrl searchTerms : jsstring)
    (result : ProductData) :
  (extractFirstAmazonResult doc searchUrl searchTerms = Some result ->
   searchResult (js "Amazon") (js "https://www.amazon.in") (amazonResultLink doc) result)
  /\ (extractFirstFlipkartResult doc searchUrl searchTerms = Some result ->
      searchResult (js "Flipkart") (js "https://www.flipkart.com")
        (flipkartResultLink doc) result).
Proof.
  split; [apply extractFirstAmazonResult_sound | apply extractFirstFlipkartResult_sound].
Qed.

Lemma search_result_filled_witness :
  exists result,
    extractFirstFlipkartResult flipkartResultsPage (js "https://www.flipkart.com/search?q=wallet")
      (js "wallet") = Some result
    /\ searchResult (js "Flipkart") (js "https://www.flipkart.com")
         (flipkartResultLink flipkartResultsPage) result.
Proof.
  eexists. split; [vm_compute; reflexivity|].
  apply (proj2 (@search_result_filled flipkartResultsPage
                  (js "https://www.flipkart.com/search?q=wallet") (js "wallet") _)).
  reflexivity.
Defined.

Lemma searchPlatform_returns (host : Host) (platform searchTerms : jsstring) :
  returns (searchPlatform host platform searchTerms)
          (fun found => forall result, found = Some result -> pd_platform result = platform).
Proof.
  unfold searchPlatform.
  destruct (buildSearchUrl platform searchTerms) as [searchUrl|].
  - apply returns_try_catch. cbn [orThrow].
    eapply returns_bind; [apply returns_ret; exact I | intros ? _].
    eapply returns_bind with (P := fun _ => True).
    { unfold fetchPageContent. returns_steps; exact I. }
    intros html _. destruct html as [doc|]; [|apply returns_ret; discriminate].
    destruct (str_eqb platform (js "Amazon")) eqn:Ea.
    + apply str_eqb_eq in Ea. subst platform. apply returns_ret. intros result H.
      apply (extractFirstAmazonResult_sound _ _ _ H).
    + destruct (str_eqb platform (js "Flipkart")) eqn:Ef.
      * apply str_eqb_eq in Ef. subst platform. apply returns_ret. intros result H.
        apply (extractFirstFlipkartResult_sound _ _ _ H).
      * apply returns_ret. discriminate.
  - intro n. exists None, n. split; [reflexivity | discriminate].
Qed.

Lemma generateFallbackPlatformData_returns (host : Host) (platform : jsstring)
    (originalProduct : ProductData) (searchTerms : jsstring) :
  buildSearchUrl platform searchTerms <> None ->
  returns (generateFallbackPlatformData host platform originalProduct searchTerms)
          (fun fallback => pd_platform fallback = platform
                           /\ pd_name fallback = pd_name originalProduct).
Proof.
  intro Hurl. unfold generateFallbackPlatformData.
  destruct (buildSearchUrl platform searchTerms) as [searchUrl|]; [|contradiction].
  cbn [orThrow]. returns_steps. split; reflexivity.
Qed.

Lemma similarOn_returns (host : Host) (platform : jsstring) (originalProduct : ProductData)
    (searchTerms : jsstring) (results : list ProductData) :
  buildSearchUrl platform searchTerms <> None ->
  returns (similarOn host platform originalProduct searchTerms results)
          (fun results' =>
             map pd_platform results'
             = map pd_platform results
               ++ (if str_eqb (pd_platform originalProduct) platform then []
                   else [platform])).
Proof.
  intro Hurl. unfold similarOn.
  destruct (str_eqb (pd_platform originalProduct) platform); cbn [negb].
  - apply returns_ret. rewrite app_nil_r. reflexivity.
  - eapply returns_bind; [apply searchPlatform_returns|]. intros found Hfound.
    destruct found as [result|].
    + apply returns_ret. rewrite map_app. cbn [map]. rewrite (Hfound _ eq_refl).
      reflexivity.
    + eapply returns_bind; [apply generateFallbackPlatformData_returns; exact Hurl|].
      intros fallback [Hp _]. apply returns_ret. rewrite map_app. cbn [map].
      rewrite Hp. reflexivity.
Qed.

(** The platforms findSimilarProducts reports for an original on a given
    platform. *)
Lemma findSimilarProducts_returns (host : Host) (originalProduct : ProductData) :
  returns (findSimilarProducts host originalProduct)
          (fun results =>
             map pd_platform results = otherMajorPlatforms (pd_platform originalProduct)).
Proof.
  intro n. unfold findSimilarProducts.
  assert (Hurl : forall platform,
            buildSearchUrl platform (createSearchTerms (pd_name originalProduct)) <> None).
  { intro platform. unfold buildSearchUrl, encodeURIComponent.
    pose proof (createSearchTerms_encodes (pd_name originalProduct)) as H.
    destruct (codePoints _); [simpl; discriminate | contradiction]. }
  destruct (@similarOn_returns host (js "Amazon") originalProduct _ [] (Hurl (js "Amazon")) n)
    as (results & n1 & E1 & H1).
  rewrite E1.
  destruct (@similarOn_returns host (js "Flipkart") originalProduct _ results
              (Hurl (js "Flipkart")) n1)
    as (results' & n2 & E2 & H2).
  exists results', n2. unfold try_catch. rewrite E2. split; [reflexivity|].
  rewrite H2, H1. unfold otherMajorPlatforms. cbn [map app filter negb].
  destruct (str_eqb (pd_platform originalProduct) (js "Amazon"));
    destruct (str_eqb (pd_platform originalProduct) (js "Flipkart")); reflexivity.
Qed.

(** X12.  findSimilarProducts never throws and always reports at least one
    other platform: a record for Amazon unless the original is on Amazon,
    then a record for Flipkart unless the original is on Flipkart, whether
    the searches succeed or not. *)
Theorem findSimilarProducts_platforms (host : Host) (originalProduct : ProductData)
    (n : nat) :
  exists results n',
    findSimilarProducts host originalProduct n = (Return results, n')
    /\ map pd_platform results = otherMajorPlatforms (pd_platform originalProduct)
    /\ (1 <= List.length results <= 2)%nat.
Proof.
  destruct (findSimilarProducts_returns host originalProduct n) as (results & n' & E & H).
  exists results, n'. split; [exact E|]. split; [exact H|].
  apply (f_equal (@List.length _)) in H. rewrite length_map in H. rewrite H.
  unfold otherMajorPlatforms. cbn [filter].
  destruct (str_eqb (pd_platform originalProduct) (js "Amazon")) eqn:Ea;
    destruct (str_eqb (pd_platform originalProduct) (js "Flipkart")) eqn:Ef;
    cbn [negb List.length]; try lia.
  apply str_eqb_eq in Ea, Ef. rewrite Ea in Ef. discriminate.
Qed.

Lemma comparisonOfProduct_returns (host : Host) (product : ProductData) :
  returns (comparisonOfProduct host product)
          (fun comparison => pc_platform comparison = pd_platform product
                             /\ pc_price comparison = pd_price product).
Proof.
  unfold comparisonOfProduct.
  eapply returns_bind; [apply generateDeliveryTime_returns | intros ? _].
  apply returns_ret. split; reflexivity.
Qed.

(** X13.  Without market data the comparison is built from the scraper and
    never throws: the record of the original product comes first, at its own
    price, followed by one record for each other major platform, two or
    three records in all. *)
Theorem buildComparisons_without_market_data (host : Host) (originalProduct : ProductData)
    (marketData : MarketDataResponse) (n : nat) :
  success marketData = false \/ data marketData = None ->
  exists original others n',
    buildComparisons host originalProduct marketData n = (Return (original :: others), n')
    /\ pc_platform original = pd_platform originalProduct
    /\ pc_price original = pd_price originalProduct
    /\ map pc_platform others = otherMajorPlatforms (pd_platform originalProduct).
Proof.
  intro Hno.
  assert (Efall : buildComparisons host originalProduct marketData
                  = (original <- comparisonOfProduct host originalProduct ;;
                     similarProducts <- findSimilarProducts host originalProduct ;;
                     similar <- mapM (comparisonOfProduct host) similarProducts ;;
                     ret (original :: similar))).
  { unfold buildComparisons. destruct Hno as [H|H]; rewrite H; [reflexivity|].
    destruct (success marketData); reflexivity. }
  rewrite Efall. clear Efall.
  destruct (comparisonOfProduct_returns host originalProduct n)
    as (original & n1 & E1 & Hp & Hprice).
  destruct (findSimilarProducts_returns host originalProduct n1)
    as (similarProducts & n2 & E2 & Hs).
  destruct (returns_mapM (comparisonOfProduct host)
              (fun product comparison => pc_platform comparison = pd_platform product)
              similarProducts
              (fun product n => match comparisonOfProduct_returns host product n with
                                | ex_intro _ c (ex_intro _ n' (conj E (conj H _))) =>
                                    ex_intro _ c (ex_intro _ n' (conj E H))
                                end) n2)
    as (similar & n3 & E3 & HF).
  exists original, similar, n3. unfold bind. rewrite E1, E2, E3.
  split; [reflexivity|]. split; [exact Hp|]. split; [exact Hprice|].
  rewrite <- Hs. apply (@Forall2_map_eq _ _ _ pd_platform pc_platform _ _ HF).
Qed.

Lemma buildComparisons_without_market_data_witness :
  exists original others n',
    buildComparisons offlineHost
      {| pd_name := js "Leather Wallet"; pd_price := 599; pd_originalPrice := None;
         pd_discountPercentage := None; pd_discountAmount := None; pd_rating := None;
         pd_reviewCount := None; pd_availability := js "Available"; pd_features := [];
         pd_platform := js "Myntra"; pd_url := myntraUrl |}
      {| success := false; data := None |} 0%nat
    = (Return (original :: others), n')
    /\ pc_platform original = js "Myntra"
    /\ pc_price original = 599
    /\ map pc_platform others = otherMajorPlatforms (js "Myntra").
Proof.
  apply (@buildComparisons_without_market_data offlineHost
           {| pd_name := js "Leather Wallet"; pd_price := 599; pd_originalPrice := None;
              pd_discountPercentage := None; pd_discountAmount := None; pd_rating := None;
              pd_reviewCount := None; pd_availability := js "Available"; pd_features := [];
              pd_platform := js "Myntra"; pd_url := myntraUrl |}
           {| success := false; data := None |} 0%nat).
  left. reflexivity.
Defined.

(** ** Draws within [0, 1) *)

Lemma returns_fair_random (host : Host) :
  fairRandom host -> returns (random host) (fun r => 0 <= r /\ r < 1).
Proof.
  intros Hfair n. exists (Math_random host n), (S n). split; [reflexivity | apply Hfair].
Qed.

Lemma Math_round_near (x : Q) : x - 0.5 <= Math_round x /\ Math_round x <= x + 0.5.
Proof.
  unfold Math_round.
  pose proof (Math_floor_le (x + 0.5)) as Hle. pose proof (Math_floor_gt (x + 0.5)) as Hgt.
  unfold Math_floor in Hle, Hgt. split; lra.
Qed.

Lemma Math_round_lower (x : Q) (a : Z) :
  inject_Z a - 0.5 <= x -> inject_Z a <= Math_round x.
Proof.
  intros Ha. unfold Math_round.
  rewrite <- Zle_Qle. rewrite <- (Qfloor_Z a). apply Qfloor_resp_le. lra.
Qed.

Lemma Math_round_upper (x : Q) (b : Z) :
  x < inject_Z b + 0.5 -> Math_round x <= inject_Z b.
Proof.
  intros Hb. unfold Math_round.
  pose proof (@Math_floor_lt_Z (x + 0.5) (b + 1)) as H. unfold Math_floor in H.
  rewrite inject_Z_plus in H. change (inject_Z 1) with 1 in H.
  assert (Hx : x + 0.5 < inject_Z b + 1) by lra. specialize (H Hx). lra.
Qed.

Lemma Math_floor_between (x : Q) (a b : Z) :
  inject_Z a <= x -> x < inject_Z b + 1 ->
  inject_Z a <= Math_floor x /\ Math_floor x <= inject_Z b.
Proof.
  intros Ha Hb. split.
  - unfold Math_floor. rewrite <- Zle_Qle. rewrite <- (Qfloor_Z a).
    apply Qfloor_resp_le. exact Ha.
  - pose proof (@Math_floor_lt_Z x (b + 1)) as H.
    rewrite inject_Z_plus in H. change (inject_Z 1) with 1 in H.
    specialize (H Hb). lra.
Qed.

(** ** The fallback record of a platform *)

(** The rating 4.0 + r * 0.8 of a draw r in [0, 1), as the engine computes
    it: the sum can round up to the double nearest 4.8, and no further. *)
Lemma fallback_rating_range (r : Q) :
  0 <= r -> r < 1 ->
  4 <= round64 (4.0 + round64 (r * round64 0.8))
  /\ round64 (4.0 + round64 (r * round64 0.8)) <= 4.8.
Proof.
  intros H0 H1.
  assert (Hd0 : 0 <= round64 0.8) by (apply round64_nonneg; lra).
  assert (Hfix : round64 (round64 0.8) <= round64 0.8) by (vm_compute; discriminate).
  assert (Htop : round64 (4.0 + round64 0.8) <= 4.8) by (vm_compute; discriminate).
  set (d := round64 0.8) in *.
  assert (Hp0 : 0 <= r * d) by (apply Qmult_le_0_compat; lra).
  assert (Hp1 : r * d <= d).
  { assert (0 <= (1 - r) * d) by (apply Qmult_le_0_compat; lra). lra. }
  pose proof (@round64_nonneg _ Hp0) as Ht0.
  pose proof (@round64_monotone _ _ Hp0 Hp1) as Ht1.
  set (t := round64 (r * d)) in *.
  split.
  - rewrite <- (@round64_integer 4 ltac:(lia)). change (inject_Z 4) with 4.
    apply round64_monotone; lra.
  - apply Qle_trans with (2 := Htop). apply round64_monotone; lra.
Qed.

(** The upper end is reached: the largest draw below 1 gives the double
    nearest 4.8, which the engine prints and compares as 4.8. *)
Lemma fallback_rating_upper_end :
  round64 (4.0 + round64 ((1 - 2 ^ (-53)) * round64 0.8)) == round64 4.8.
Proof. vm_compute. reflexivity. Qed.

Lemma fallback_platform_data (host : Host) (platform : jsstring)
    (originalProduct : ProductData) (searchTerms : jsstring) :
  fairRandom host -> 0 <= pd_price originalProduct ->
  buildSearchUrl platform searchTerms <> None ->
  returns (generateFallbackPlatformData host platform originalProduct searchTerms)
          (fun fallback =>
             (0.85 * pd_price originalProduct - 0.5 <= pd_price fallback
              /\ pd_price fallback <= 1.15 * pd_price originalProduct + 0.5)
             /\ (exists rating, pd_rating fallback = Some rating
                                /\ 4 <= rating /\ rating <= 4.8)
             /\ (exists reviewCount, pd_reviewCount fallback = Some reviewCount
                                     /\ 500 <= reviewCount /\ reviewCount <= 2499)).
Proof.
  intros Hfair Hbase Hurl. unfold generateFallbackPlatformData.
  destruct (buildSearchUrl platform searchTerms) as [searchUrl|]; [|contradiction].
  cbn [orThrow].
  eapply returns_bind; [apply returns_fair_random, Hfair | intros r1 [H10 H11]].
  eapply returns_bind; [apply returns_fair_random, Hfair | intros r2 [H20 H21]].
  eapply returns_bind; [apply returns_fair_random, Hfair | intros r3 [H30 H31]].
  eapply returns_bind; [apply returns_ret; exact I | intros ? _].
  apply returns_ret. cbn [pd_price pd_rating pd_reviewCount].
  split; [|split].
  - set (v := if str_eqb platform (js "Amazon") then 0.95 else 1.05).
    assert (Hv : 0.95 <= v /\ v <= 1.05)
      by (subst v; destruct (str_eqb platform (js "Amazon")); split; lra).
    destruct (Math_round_near (pd_price originalProduct * (v + (r1 * 0.2 - 0.1))))
      as [Hlo Hhi].
    split; nra.
  - eexists. split; [reflexivity|]. apply fallback_rating_range; assumption.
  - eexists. split; [reflexivity|].
    destruct (@Math_floor_between (r3 * 2000) 0 1999) as [Hlo Hhi];
      [change (inject_Z 0) with 0; lra | change (inject_Z 1999) with 1999; lra |].
    change (inject_Z 0) with 0 in Hlo. change (inject_Z 1999) with 1999 in Hhi.
    split; lra.
Qed.

(** X14.  The fallback record generated for a platform stays near the
    original: with draws in [0, 1) and an original price that is not
    negative, its price is within 15 percent of the original price (up to
    the rounding to a whole unit), its rating lies in [4.0, 4.8], the upper
    end included, and its review count in [500, 2499]. *)
Theorem generateFallbackPlatformData_ranges (host : Host) (platform : jsstring)
    (originalProduct : ProductData) (searchTerms : jsstring) (n : nat) :
  fairRandom host -> 0 <= pd_price originalProduct ->
  buildSearchUrl platform searchTerms <> None ->
  exists fallback n',
    generateFallbackPlatformData host platform originalProduct searchTerms n
    = (Return fallback, n')
    /\ (0.85 * pd_price originalProduct - 0.5 <= pd_price fallback
        /\ pd_price fallback <= 1.15 * pd_price originalProduct + 0.5)
    /\ (exists rating, pd_rating fallback = Some rating /\ 4 <= rating /\ rating <= 4.8)
    /\ (exists reviewCount, pd_reviewCount fallback = Some reviewCount
                            /\ 500 <= reviewCount /\ reviewCount <= 2499).
Proof.
  intros Hfair Hbase Hurl.
  exact (@fallback_platform_data host platform originalProduct searchTerms
           Hfair Hbase Hurl n).
Qed.

Lemma offlineHost_fair : fairRandom offlineHost.
Proof. intro n. simpl. split; lra. Qed.

Lemma generateFallbackPlatformData_ranges_witness :
  exists fallback n',
    generateFallbackPlatformData offlineHost (js "Flipkart")
      (generateFallbackData offlineHost amazonUrl (js "Amazon")) (js "wallet") 0%nat
    = (Return fallback, n')
    /\ (0.85 * pd_price (generateFallbackData offlineHost amazonUrl (js "Amazon")) - 0.5
        <= pd_price fallback
        /\ pd_price fallback
           <= 1.15 * pd_price (generateFallbackData offlineHost amazonUrl (js "Amazon")) + 0.5)
    /\ (exists rating, pd_rating fallback = Some rating /\ 4 <= rating /\ rating <= 4.8)
    /\ (exists reviewCount, pd_reviewCount fallback = Some reviewCount
                            /\ 500 <= reviewCount /\ reviewCount <= 2499).
Proof.
  apply generateFallbackPlatformData_ranges.
  - exact offlineHost_fair.
  - vm_compute. discriminate.
  - vm_compute. discriminate.
Defined.

(** ** The estimated base price *)

Lemma productRange_sound (category : Category) (nameUpper : jsstring) :
  (200 <= min (productRange category nameUpper) <= max (productRange category nameUpper))%Z
  /\ (max (productRange category nameUpper) <= 200000)%Z.
Proof.
  unfold productRange. destruct category;
    repeat match goal with |- context [if ?b then _ else _] => destruct b end;
    simpl; lia.
Qed.

Lemma base_price_in_range (host : Host) (productInfo : ProductInfo) :
  pi_url productInfo <> [] \/ fairRandom host ->
  returns (estimateRealisticBasePrice host productInfo)
          (fun price =>
             inject_Z (min (productRange (pi_category productInfo)
                              (toUpperCase (pi_name productInfo)))) <= price
             /\ price <= inject_Z (max (productRange (pi_category productInfo)
                                          (toUpperCase (pi_name productInfo))))).
Proof.
  intro H. unfold estimateRealisticBasePrice.
  destruct (productRange_sound (pi_category productInfo)
              (toUpperCase (pi_name productInfo))) as [[_ Hle] _].
  destruct (isEmpty (pi_url productInfo)) eqn:E; cbn [negb].
  - destruct H as [H|Hfair]; [destruct (pi_url productInfo); [contradiction|discriminate]|].
    eapply returns_bind; [apply returns_fair_random, Hfair | intros r [H0 H1]].
    apply returns_ret. apply scaled_seed_range; assumption.
  - apply returns_ret.
    destruct (fraction_range (Math_sin host (generateUrlHash (pi_url productInfo)) * 10000))
      as [H0 H1].
    apply scaled_seed_range; assumption.
Qed.

(** X15.  The base price the market data module estimates lies within the
    range it detects for the product, and so between 200 and 200000: always
    when there is a URL to seed it, and with draws in [0, 1) when there is
    none. *)
Theorem estimateRealisticBasePrice_in_range (host : Host) (productInfo : ProductInfo)
    (n : nat) :
  pi_url productInfo <> [] \/ fairRandom host ->
  exists price n',
    estimateRealisticBasePrice host productInfo n = (Return price, n')
    /\ (inject_Z (min (productRange (pi_category productInfo)
                         (toUpperCase (pi_name productInfo)))) <= price
        /\ price <= inject_Z (max (productRange (pi_category productInfo)
                                     (toUpperCase (pi_name productInfo)))))
    /\ (200 <= price /\ price <= 200000).
Proof.
  intro H. destruct (@base_price_in_range host productInfo H n)
    as (price & n' & E & Hlo & Hhi).
  exists price, n'. split; [exact E|]. split; [split; assumption|].
  destruct (productRange_sound (pi_category productInfo)
              (toUpperCase (pi_name productInfo))) as [[Hmin _] Hmax].
  rewrite Zle_Qle in Hmin, Hmax.
  change (inject_Z 200) with 200 in Hmin. change (inject_Z 200000) with 200000 in Hmax.
  split; lra.
Qed.

Lemma estimateRealisticBasePrice_in_range_witness :
  exists price n',
    estimateRealisticBasePrice offlineHost (extractProductInfo (js "Gaming Laptop") [])
      0%nat = (Return price, n')
    /\ (inject_Z (min (productRange electronics (toUpperCase (js "Gaming Laptop")))) <= price
        /\ price <= inject_Z (max (productRange electronics (toUpperCase (js "Gaming Laptop")))))
    /\ (200 <= price /\ price <= 200000).
Proof.
  apply (@estimateRealisticBasePrice_in_range offlineHost
           (extractProductInfo (js "Gaming Laptop") []) 0%nat).
  right. exact offlineHost_fair.
Defined.

(** ** Market prices *)

Lemma lookup_in {A} (table : list (jsstring * A)) (key : jsstring) (v : A) :
  lookup table key = Some v -> exists k, In (k, v) table.
Proof.
  induction table as [|[k w] table IH]; simpl; [discriminate|].
  destruct (str_eqb k key).
  - intro H. injection H as <-. exists k. left. reflexivity.
  - intro H. destruct (IH H) as [k' Hin]. exists k'. right. exact Hin.
Qed.

(** The seller range of a platform, as getRealisticSellerCount derives it. *)
Lemma seller_range_sound (platform : jsstring) (category : Category) :
  let range :=
    match lookup baseCounts platform with
    | Some range => (inject_Z (min range), inject_Z (max range))
    | None => (3, 10)
    end in
  let range :=
    match category with
    | electronics => (Math_round (fst range * 1.5), Math_round (snd range * 1.3))
    | _ => range
    end in
  1 <= fst range /\ fst range <= snd range.
Proof.
  assert (Htable : Forall (fun entry =>
            forall category : Category,
              let range := (inject_Z (min (snd entry)), inject_Z (max (snd entry))) in
              let range :=
                match category with
                | electronics => (Math_round (fst range * 1.5), Math_round (snd range * 1.3))
                | _ => range
                end in
              1 <= fst range /\ fst range <= snd range) baseCounts).
  { apply Forall_forall. intros entry Hin c. simpl in Hin.
    repeat (destruct Hin as [<-|Hin]; [destruct c; vm_compute; split; discriminate|]).
    contradiction. }
  destruct (lookup baseCounts platform) as [range|] eqn:E.
  - destruct (lookup_in _ _ E) as [k Hin].
    exact (proj1 (Forall_forall _ _) Htable _ Hin category).
  - destruct category; vm_compute; split; discriminate.
Qed.

Lemma seller_count_positive (host : Host) (platform : jsstring) (category : Category) :
  fairRandom host ->
  returns (getRealisticSellerCount host platform category) (fun count => 1 <= count).
Proof.
  intro Hfair. unfold getRealisticSellerCount.
  pose proof (seller_range_sound platform category) as Hr. cbv zeta in Hr.
  set (range := match category with
                | electronics => _
                | _ => _
                end) in *.
  destruct Hr as [H1 H2].
  eapply returns_bind; [apply returns_fair_random, Hfair | intros r [H0 Hr1]].
  apply returns_ret.
  assert (0 <= Math_floor (r * (snd range - fst range + 1)))
    by (apply Math_floor_nonneg; nra).
  lra.
Qed.

Lemma relevant_multipliers (category : Category) :
  Forall (fun platform => 0.96 <= priceMultiplier platform
                          /\ priceMultiplier platform <= 1.08)
         (getRelevantPlatforms category).
Proof. destruct category; repeat constructor; vm_compute; discriminate. Qed.

Lemma market_price_record (host : Host) (basePrice : number) (category : Category)
    (platform : Platform) :
  fairRandom host -> 0 <= basePrice ->
  0.96 <= priceMultiplier platform -> priceMultiplier platform <= 1.08 ->
  returns (platformPrice host basePrice category platform)
          (fun priceData => soundMarketPrice basePrice (plat_name platform) priceData).
Proof.
  intros Hfair Hbase Hm1 Hm2. unfold platformPrice.
  eapply returns_bind; [apply seller_count_positive, Hfair | intros sellerCount Hsellers].
  eapply returns_bind; [apply returns_fair_random, Hfair | intros r [H0 H1]].
  eapply returns_bind; [apply getRealisticAvailability_returns | intros availability _].
  eapply returns_bind; [apply returns_random | intros ? _].
  apply returns_ret. unfold soundMarketPrice.
  cbn [pp_platform pp_price pp_sellerCount pp_priceRange fst snd].
  set (f := priceMultiplier platform * (0.95 + r * 0.1)).
  assert (Hf : 0.912 <= f /\ f <= 1.134).
  { subst f.
    assert (0 <= (priceMultiplier platform - 0.96) * (0.95 + r * 0.1))
      by (apply Qmult_le_0_compat; lra).
    assert (0 <= (1.08 - priceMultiplier platform) * (0.95 + r * 0.1))
      by (apply Qmult_le_0_compat; lra).
    split; lra. }
  destruct Hf as [Hf1 Hf2].
  assert (Hx : 0.912 * basePrice <= basePrice * f /\ basePrice * f <= 1.134 * basePrice).
  { assert (0 <= basePrice * (f - 0.912)) by (apply Qmult_le_0_compat; lra).
    assert (0 <= basePrice * (1.134 - f)) by (apply Qmult_le_0_compat; lra).
    split; lra. }
  destruct (Math_round_near (basePrice * f)) as [Hlo Hhi].
  assert (Hnonneg : 0 <= Math_round (basePrice * f)) by (apply Math_round_nonneg; lra).
  set (spread := if Qlt_bool 10 sellerCount then 0.15
                 else if Qlt_bool 5 sellerCount then 0.10 else 0.05).
  assert (Hs : 0 <= spread /\ spread <= 1).
  { subst spread. destruct (Qlt_bool 10 sellerCount); [split; lra|].
    destruct (Qlt_bool 5 sellerCount); split; lra. }
  destruct Hs as [Hs1 Hs2].
  split; [reflexivity|]. split; [split; lra|]. split; [|exact Hsellers].
  unfold Math_round in Hnonneg. unfold Math_round at 2 3 5 6.
  set (z := Qfloor (basePrice * f + 0.5)) in *.
  assert (0 <= inject_Z z * spread) by (apply Qmult_le_0_compat; lra).
  assert (Elo : inject_Z z * (1 - spread) == inject_Z z - inject_Z z * spread) by ring.
  assert (Ehi : inject_Z z * (1 + spread) == inject_Z z + inject_Z z * spread) by ring.
  split.
  - apply (@Math_round_upper _ z). rewrite Elo. lra.
  - apply (@Math_round_lower _ z). rewrite Ehi. lra.
Qed.

Lemma returns_mapM_Forall {A B} (f : A -> M B) (P : A -> Prop) (R : A -> B -> Prop)
    (l : list A) :
  Forall P l -> (forall a, P a -> returns (f a) (R a)) ->
  returns (mapM f l) (Forall2 R l).
Proof.
  intros Hl Hf. induction Hl as [|a l Ha Hl IH]; simpl.
  - apply returns_ret. constructor.
  - eapply returns_bind; [apply Hf, Ha|]. intros b Hb.
    eapply returns_bind; [apply IH|]. intros bs Hbs.
    apply returns_ret. constructor; assumption.
Qed.

Lemma returns_mapM_Forall2 {A B C} (f : B -> M C) (R1 : A -> B -> Prop)
    (R2 : A -> C -> Prop) (l1 : list A) (l2 : list B) :
  Forall2 R1 l1 l2 -> (forall a b, R1 a b -> returns (f b) (R2 a)) ->
  returns (mapM f l2) (Forall2 R2 l1).
Proof.
  intros Hl Hf. induction Hl as [|a b l1 l2 Hab Hl IH]; simpl.
  - apply returns_ret. constructor.
  - eapply returns_bind; [apply (Hf a b Hab)|]. intros c Hc.
    eapply returns_bind; [apply IH|]. intros cs Hcs.
    apply returns_ret. constructor; assumption.
Qed.

(** The market records of a product with a usable price: one per relevant
    platform, each sound for that price. *)
Lemma market_records (host : Host) (productName productUrl : jsstring)
    (basePrice : number) :
  fairRandom host -> 0 < basePrice -> basePrice < 500000 ->
  returns (fetchRealMarketData host productName productUrl (Some basePrice))
          (fun marketData =>
             success marketData = true
             /\ exists marketPrices,
                  data marketData = Some marketPrices
                  /\ Forall2 (fun platform priceData =>
                                soundMarketPrice basePrice (plat_name platform) priceData)
                       (getRelevantPlatforms
                          (pi_category (extractProductInfo productName productUrl)))
                       (prices marketPrices)).
Proof.
  intros Hfair Hpos Hmax. unfold fetchRealMarketData. apply returns_try_catch.
  unfold generateRealisticMarketData.
  assert (Eusable : negb (isZero basePrice) && Qlt_bool 0 basePrice
                    && Qlt_bool basePrice 500000 = true).
  { rewrite (proj2 (isZero_false basePrice)) by lra.
    rewrite (proj2 (Qlt_bool_iff 0 basePrice) Hpos).
    rewrite (proj2 (Qlt_bool_iff basePrice 500000) Hmax). reflexivity. }
  rewrite Eusable.
  eapply returns_bind with (P := fun price => price = basePrice);
    [apply returns_ret; reflexivity | intros price ->].
  eapply returns_bind.
  { apply returns_mapM_Forall with (1 := relevant_multipliers _).
    intros platform [Hm1 Hm2].
    apply market_price_record; [exact Hfair | lra | exact Hm1 | exact Hm2]. }
  intros marketPrices Hprices.
  eapply returns_bind with (P := fun _ => True).
  { unfold generateRealisticPriceHistory. returns_steps; exact I. }
  intros _ _. apply returns_ret. split; [reflexivity|].
  eexists. split; [reflexivity | exact Hprices].
Qed.

(** X16. A product with a usable price, above 0 and below 500000, gets one
    market record per relevant platform, in the order of
    getRelevantPlatforms; the price of each record is the product's price
    scaled by a factor between 0.912 and 1.134 and rounded, its price range
    brackets that price, and its seller count is at least 1. *)
Theorem fetchRealMarketData_records (host : Host) (productName productUrl : jsstring)
    (basePrice : number) :
  fairRandom host -> 0 < basePrice -> basePrice < 500000 ->
  returns (fetchRealMarketData host productName productUrl (Some basePrice))
          (fun marketData =>
             success marketData = true
             /\ exists marketPrices,
                  data marketData = Some marketPrices
                  /\ Forall2 (fun platform priceData =>
                                soundMarketPrice basePrice (plat_name platform) priceData)
                       (getRelevantPlatforms
                          (pi_category (extractProductInfo productName productUrl)))
                       (prices marketPrices)).
Proof. apply market_records. Qed.

Lemma fetchRealMarketData_records_witness :
  returns (fetchRealMarketData offlineHost (js "Leather Wallet") myntraUrl (Some 599))
          (fun marketData =>
             success marketData = true
             /\ exists marketPrices,
                  data marketData = Some marketPrices
                  /\ Forall2 (fun platform priceData =>
                                soundMarketPrice 599 (plat_name platform) priceData)
                       (getRelevantPlatforms
                          (pi_category (extractProductInfo (js "Leather Wallet") myntraUrl)))
                       (prices marketPrices)).
Proof.
  apply (@fetchRealMarketData_records offlineHost (js "Leather Wallet") myntraUrl 599).
  - intro n. simpl. split; lra.
  - lra.
  - lra.
Defined.

(** ** The comparisons made of market records *)

Lemma Math_floor_lower (x : Q) (a : Z) : inject_Z a <= x -> inject_Z a <= Math_floor x.
Proof.
  intro Ha. unfold Math_floor. rewrite <- Zle_Qle. rewrite <- (Qfloor_Z a).
  apply Qfloor_resp_le. exact Ha.
Qed.

Lemma rating_table_sound (platform : jsstring) :
  let range :=
    match lookup platformRatings platform with
    | Some range => range
    | None => (3.5, 4.5)
    end in
  3.5 <= fst range /\ fst range <= snd range /\ snd range <= 4.6.
Proof.
  assert (Htable : Forall (fun entry =>
            3.5 <= fst (snd entry) /\ fst (snd entry) <= snd (snd entry)
            /\ snd (snd entry) <= 4.6) platformRatings).
  { repeat constructor; vm_compute; discriminate. }
  destruct (lookup platformRatings platform) as [range|] eqn:E; cbv zeta.
  - destruct (lookup_in _ _ E) as [k Hin].
    exact (proj1 (Forall_forall _ _) Htable _ Hin).
  - simpl. repeat split; lra.
Qed.

Lemma rating_in_range (host : Host) (platform : jsstring) :
  fairRandom host ->
  returns (generateRealisticRating host platform)
          (fun rating => 3.5 <= rating /\ rating <= 4.6).
Proof.
  intro Hfair. unfold generateRealisticRating.
  pose proof (rating_table_sound platform) as Hr. cbv zeta in Hr.
  set (range := match lookup platformRatings platform with
                | Some range => range
                | None => (3.5, 4.5)
                end) in *.
  destruct Hr as (Hlo & Hle & Hhi).
  eapply returns_bind; [apply returns_fair_random, Hfair | intros r [H0 H1]].
  apply returns_ret.
  set (x := (fst range + r * (snd range - fst range)) * 10).
  assert (Hr0 : 0 <= r * (snd range - fst range)) by (apply Qmult_le_0_compat; lra).
  assert (Hr1 : 0 <= (1 - r) * (snd range - fst range))
    by (apply Qmult_le_0_compat; lra).
  assert (Hx : 35 <= x /\ x <= 46) by (subst x; split; lra).
  assert (H35 : inject_Z 35 <= Math_round x)
    by (apply Math_round_lower; change (inject_Z 35) with 35; lra).
  assert (H46 : Math_round x <= inject_Z 46)
    by (apply Math_round_upper; change (inject_Z 46) with 46; lra).
  change (inject_Z 35) with 35 in H35. change (inject_Z 46) with 46 in H46.
  split.
  - apply Qle_shift_div_l; lra.
  - apply Qle_shift_div_r; lra.
Qed.

Lemma review_count_floor (host : Host) (sellerCount : number) :
  fairRandom host -> 1 <= sellerCount ->
  returns (generateRealisticReviewCount host sellerCount)
          (fun reviewCount => 40 <= reviewCount).
Proof.
  intros Hfair Hsellers. unfold generateRealisticReviewCount.
  eapply returns_bind; [apply returns_fair_random, Hfair | intros r1 [H10 H11]].
  eapply returns_bind; [apply returns_fair_random, Hfair | intros r2 [H20 H21]].
  apply returns_ret.
  set (baseReviews := sellerCount * (50 + r1 * 200)).
  assert (Hbase : 50 <= baseReviews).
  { subst baseReviews.
    assert (0 <= (sellerCount - 1) * (50 + r1 * 200))
      by (apply Qmult_le_0_compat; lra).
    lra. }
  assert (Hprod : 40 <= baseReviews * (0.8 + r2 * 0.4)).
  { assert (0 <= (baseReviews - 50) * (0.8 + r2 * 0.4))
      by (apply Qmult_le_0_compat; lra).
    lra. }
  change 40 with (inject_Z 40). apply Math_floor_lower.
  change (inject_Z 40) with 40. exact Hprod.
Qed.

(** An index drawn as Math.floor(Math.random() * length) falls inside a
    list that is not empty. *)
Lemma atIndex_drawn {A} (l : list A) (r : Q) :
  l <> [] -> 0 <= r -> r < 1 ->
  exists a,
    atIndex l (Math_floor (r * inject_Z (Z.of_nat (List.length l)))) = Some a /\ In a l.
Proof.
  intros Hl H0 H1.
  set (len := Z.of_nat (List.length l)).
  assert (Hlen : (1 <= len)%Z) by (subst len; destruct l; [contradiction | simpl; lia]).
  assert (HlenQ : 1 <= inject_Z len)
    by (change 1 with (inject_Z 1); rewrite <- Zle_Qle; exact Hlen).
  assert (Hx0 : 0 <= r * inject_Z len) by (apply Qmult_le_0_compat; lra).
  assert (Hx1 : 0 < (1 - r) * inject_Z len) by (apply Qmult_lt_0_compat; lra).
  destruct (@Math_floor_between (r * inject_Z len) 0 (len - 1)) as [Hf0 Hf1].
  { change (inject_Z 0) with 0. exact Hx0. }
  { unfold Zminus. rewrite inject_Z_plus. change (inject_Z (- (1))%Z) with (-1).
    lra. }
  unfold atIndex.
  rewrite (proj2 (Qlt_bool_false _ 0)) by (change (inject_Z 0) with 0 in Hf0; exact Hf0).
  unfold Math_floor in *. rewrite Qfloor_Z.
  rewrite <- Zle_Qle in Hf0, Hf1.
  destruct (nth_error l (Z.to_nat (Qfloor (r * inject_Z len)))) as [a|] eqn:E.
  - exists a. split; [reflexivity|]. apply nth_error_In in E. exact E.
  - apply nth_error_None in E. subst len. lia.
Qed.

Lemma delivery_options_sound (platform : jsstring) :
  let options :=
    match lookup deliveryOptions platform with
    | Some options => options
    | None => match lookup deliveryOptions (js "default") with
              | Some options => options
              | None => []
              end
    end in
  options <> [] /\ Forall (fun option => option <> []) options.
Proof.
  assert (Htable : Forall (fun entry =>
            snd entry <> [] /\ Forall (fun option : jsstring => option <> []) (snd entry))
            deliveryOptions).
  { repeat constructor; discriminate. }
  destruct (lookup deliveryOptions platform) as [options|] eqn:E; cbv zeta.
  - destruct (lookup_in _ _ E) as [k Hin].
    exact (proj1 (Forall_forall _ _) Htable _ Hin).
  - split; [discriminate | repeat constructor; discriminate].
Qed.

Lemma delivery_time_defined (host : Host) (platform : jsstring) :
  fairRandom host ->
  returns (generateDeliveryTime host platform)
          (fun result => exists deliveryTime,
             result = Some deliveryTime /\ deliveryTime <> []).
Proof.
  intro Hfair. unfold generateDeliveryTime.
  pose proof (delivery_options_sound platform) as Ho. cbv zeta in Ho.
  set (options := match lookup deliveryOptions platform with
                  | Some options => options
                  | None => _
                  end) in *.
  destruct Ho as [Hne Hall].
  eapply returns_bind; [apply returns_fair_random, Hfair | intros r [H0 H1]].
  apply returns_ret.
  destruct (@atIndex_drawn _ options r Hne H0 H1) as (deliveryTime & E & Hin).
  exists deliveryTime. split; [exact E|].
  exact (proj1 (Forall_forall _ _) Hall _ Hin).
Qed.

Lemma buildPlatformUrl_nonempty (platform productName url : jsstring) :
  buildPlatformUrl platform productName = Some url -> url <> [].
Proof.
  unfold buildPlatformUrl.
  destruct (encodeURIComponent productName) as [encodedName|]; [|discriminate].
  intro H. apply some_injective in H. subst url. simpl.
  repeat match goal with
         | |- context [if ?b then _ else _] => destruct b
         end; discriminate.
Qed.

Lemma market_comparison (host : Host) (originalProduct : ProductData)
    (priceData : PlatformPrice) (basePrice : number) (platform : jsstring) :
  fairRandom host -> codePoints (pd_name originalProduct) <> None ->
  soundMarketPrice basePrice platform priceData ->
  returns (comparisonOfMarketPrice host originalProduct priceData)
          (soundComparison basePrice platform).
Proof.
  intros Hfair Hname (Hplatform & Hprice & _ & Hsellers). unfold comparisonOfMarketPrice.
  pose proof (@buildPlatformUrl_defined (pp_platform priceData) _ Hname) as Hurl.
  destruct (buildPlatformUrl _ _) as [url|] eqn:Eurl; [|contradiction]. simpl orThrow.
  apply buildPlatformUrl_nonempty in Eurl.
  eapply returns_bind with (P := fun built => built = url);
    [apply returns_ret; reflexivity | intros ? ->].
  eapply returns_bind; [apply rating_in_range, Hfair | intros rating Hrating].
  eapply returns_bind;
    [apply review_count_floor; [exact Hfair | exact Hsellers] | intros reviewCount Hreviews].
  eapply returns_bind;
    [apply delivery_time_defined, Hfair | intros ? (deliveryTime & -> & Hdelivery)].
  apply returns_ret. unfold soundComparison. cbn.
  split; [exact Hplatform|]. split; [exact Hprice|].
  split; [exists (pp_sellerCount priceData); split; [reflexivity | exact Hsellers]|].
  split; [exists rating; split; [reflexivity | exact Hrating]|].
  split; [exists reviewCount; split; [reflexivity | exact Hreviews]|].
  split; [exists deliveryTime; split; [reflexivity | exact Hdelivery]|].
  split; [exact Eurl|]. split; reflexivity.
Qed.

Lemma market_comparisons (host : Host) (product : ProductData) (productUrl : jsstring) :
  fairRandom host -> codePoints (pd_name product) <> None ->
  0 < pd_price product -> pd_price product < 500000 ->
  returns (getRealPriceComparisons host (Some product) productUrl)
          (Forall2 (fun platform comparison =>
                      soundComparison (pd_price product) (plat_name platform) comparison)
                   (getRelevantPlatforms
                      (pi_category (extractProductInfo (pd_name product) productUrl)))).
Proof.
  intros Hfair Hname Hpos Hmax. unfold getRealPriceComparisons.
  apply returns_try_catch.
  eapply returns_bind with (P := fun result => result = Some product);
    [apply returns_ret; reflexivity | intros ? ->].
  eapply returns_bind; [apply market_records; eassumption|].
  intros marketData (Hsuccess & marketPrices & Hdata & Hprices).
  unfold buildComparisons. rewrite Hsuccess, Hdata.
  apply returns_mapM_Forall2 with (1 := Hprices).
  intros platform priceData Hsound.
  apply market_comparison; assumption.
Qed.

(** X17. The comparisons of a product whose name encodes and whose price is
    above 0 and below 500000: one per relevant platform, in order, each with
    the platform's name, a price within the scaled and rounded product
    price, at least one seller, a rating between 3.5 and 4.6, at least 40
    reviews, a delivery time and a URL that are present and not empty, and
    no list price or discount. *)
Theorem getRealPriceComparisons_records (host : Host) (product : ProductData)
    (productUrl : jsstring) :
  fairRandom host -> codePoints (pd_name product) <> None ->
  0 < pd_price product -> pd_price product < 500000 ->
  returns (getRealPriceComparisons host (Some product) productUrl)
          (Forall2 (fun platform comparison =>
                      soundComparison (pd_price product) (plat_name platform) comparison)
                   (getRelevantPlatforms
                      (pi_category (extractProductInfo (pd_name product) productUrl)))).
Proof. apply market_comparisons. Qed.

Lemma getRealPriceComparisons_records_witness :
  returns (getRealPriceComparisons offlineHost
             (Some (generateFallbackData offlineHost amazonUrl (js "Amazon"))) amazonUrl)
          (Forall2 (fun platform comparison =>
                      soundComparison
                        (pd_price (generateFallbackData offlineHost amazonUrl (js "Amazon")))
                        (plat_name platform) comparison)
                   (getRelevantPlatforms
                      (pi_category
                         (extractProductInfo
                            (pd_name (generateFallbackData offlineHost amazonUrl (js "Amazon")))
                            amazonUrl)))).
Proof.
  apply (@getRealPriceComparisons_records offlineHost
           (generateFallbackData offlineHost amazonUrl (js "Amazon")) amazonUrl).
  - intro n. simpl. split; lra.
  - vm_compute. discriminate.
  - vm_compute. reflexivity.
  - vm_compute. reflexivity.
Defined.

(** ** The price history *)

Lemma jsRem_range (x m : Q) : 0 <= x -> 0 < m -> 0 <= jsRem x m /\ jsRem x m < m.
Proof.
  intros Hx Hm. unfold jsRem.
  rewrite (proj2 (Qlt_bool_false x 0) Hx).
  pose proof (Math_floor_le (x / m)) as Hle. pose proof (Math_floor_gt (x / m)) as Hgt.
  set (q := Math_floor (x / m)) in *.
  assert (Ex : x == m * (x / m)) by (field; lra).
  assert (H0 : 0 <= m * (x / m - q)) by (apply Qmult_le_0_compat; lra).
  assert (H1 : 0 < m * (q + 1 - x / m)) by (apply Qmult_lt_0_compat; lra).
  assert (E0 : m * (x / m - q) == x - m * q) by (rewrite Ex at 2; ring).
  assert (E1 : m * (q + 1 - x / m) == m * q + m - x) by (rewrite Ex at 2; ring).
  rewrite E0 in H0. rewrite E1 in H1. split; lra.
Qed.

Lemma nextSeed_range (randomSeed : number) :
  0 <= randomSeed ->
  0 <= PriceHistory.nextSeed randomSeed /\ PriceHistory.nextSeed randomSeed < 233280.
Proof.
  intro H. unfold PriceHistory.nextSeed. apply jsRem_range; lra.
Qed.

Lemma Math_round_monotone (x y : Q) : x <= y -> Math_round x <= Math_round y.
Proof.
  intro H. unfold Math_round. rewrite <- Zle_Qle. apply Qfloor_resp_le. lra.
Qed.

Lemma bounded_price_range (lo hi x : Q) :
  lo <= hi -> lo <= Math_max lo (Math_min hi x) /\ Math_max lo (Math_min hi x) <= hi.
Proof.
  intro H. unfold Math_max, Math_min.
  destruct (Qle_bool hi x) eqn:E1.
  - destruct (Qle_bool lo hi) eqn:E2; order_facts; split; lra.
  - destruct (Qle_bool lo x) eqn:E2; order_facts; split; lra.
Qed.

(** What holds of a point of the history. *)
Lemma historyLoop_points (clock : Z -> CalendarDay) (basePrice : number)
    (platforms : list Platform) (weeklyTrend : number) (days : list Z) :
  0 <= basePrice -> platforms <> [] ->
  forall (randomSeed currentPrice : number) (n : nat),
    0 <= randomSeed ->
    exists history,
      PriceHistory.historyLoop clock basePrice platforms weeklyTrend days
        randomSeed currentPrice n = (Return history, n)
      /\ map ph_date history = map (fun i => isoDate (clock i)) days
      /\ Forall (fun point =>
                   (Math_round (basePrice * 0.8) <= ph_price point
                    /\ ph_price point <= Math_round (basePrice * 1.15))
                   /\ In (ph_platform point) (map plat_name platforms)) history.
Proof.
  intros Hbase Hplatforms.
  induction days as [|i days IH]; intros randomSeed currentPrice n Hseed.
  - exists []. split; [reflexivity|]. split; [reflexivity | constructor].
  - cbn [PriceHistory.historyLoop]. cbv zeta.
    set (seed1 := PriceHistory.nextSeed randomSeed).
    destruct (nextSeed_range Hseed) as [H10 H11]. fold seed1 in H10, H11.
    set (seed2 := PriceHistory.nextSeed seed1).
    destruct (nextSeed_range H10) as [H20 H21]. fold seed2 in H20, H21.
    set (price := Math_max (basePrice * 0.8) (Math_min (basePrice * 1.15) _)).
    assert (Hprice : basePrice * 0.8 <= price /\ price <= basePrice * 1.15)
      by (apply bounded_price_range; lra).
    assert (Hr : 0 <= seed2 / 233280 /\ seed2 / 233280 < 1).
    { split; [apply Qle_shift_div_l | apply Qlt_shift_div_r]; lra. }
    destruct (@atIndex_drawn _ platforms (seed2 / 233280) Hplatforms (proj1 Hr) (proj2 Hr))
      as (platform & Eplatform & Hin).
    destruct (IH seed2 price n H20) as (history & Eloop & Hdates & Hpoints).
    eexists. unfold bind. rewrite Eplatform. cbn [orThrow]. unfold ret at 1.
    rewrite Eloop. unfold ret. split; [reflexivity|]. split.
    + cbn [map ph_date]. rewrite Hdates. reflexivity.
    + constructor; [|exact Hpoints]. cbn [ph_price ph_platform]. split.
      * split; apply Math_round_monotone; lra.
      * apply in_map, Hin.
Qed.

Lemma price_history (host : Host) (clock : Z -> CalendarDay) (basePrice : number)
    (platforms : list Platform) (productUrl : option jsstring) (n : nat) :
  fairRandom host -> 0 <= basePrice -> platforms <> [] ->
  exists history,
    PriceHistory.generateRealisticPriceHistory host clock basePrice platforms productUrl n
    = (Return history, snd (generateRealisticPriceHistory host productUrl n))
    /\ map ph_date history = map (fun i => isoDate (clock i)) daysBack
    /\ Forall (fun point =>
                 (Math_round (basePrice * 0.8) <= ph_price point
                  /\ ph_price point <= Math_round (basePrice * 1.15))
                 /\ In (ph_platform point) (map plat_name platforms)) history.
Proof.
  intros Hfair Hbase Hplatforms.
  assert (Hseeded : forall urlSeed n',
            0 <= urlSeed ->
            exists history,
              PriceHistory.historyLoop clock basePrice platforms
                ((PriceHistory.nextSeed urlSeed / 233280 - 0.5) * 0.02) daysBack
                (PriceHistory.nextSeed urlSeed) basePrice n' = (Return history, n')
              /\ map ph_date history = map (fun i => isoDate (clock i)) daysBack
              /\ Forall (fun point =>
                           (Math_round (basePrice * 0.8) <= ph_price point
                            /\ ph_price point <= Math_round (basePrice * 1.15))
                           /\ In (ph_platform point) (map plat_name platforms)) history).
  { intros urlSeed n' Hseed.
    apply historyLoop_points; [exact Hbase | exact Hplatforms|].
    apply (nextSeed_range Hseed). }
  assert (Hdrawn : 0 <= Math_random host n * 1000000)
    by (destruct (Hfair n); apply Qmult_le_0_compat; lra).
  assert (Hhash : forall url, 0 <= inject_Z (generateUrlHash url)).
  { intro url. change 0 with (inject_Z 0). rewrite <- Zle_Qle.
    unfold generateUrlHash. apply Z.abs_nonneg. }
  unfold PriceHistory.generateRealisticPriceHistory, generateRealisticPriceHistory.
  destruct productUrl as [url|]; [destruct (isEmpty url)|];
    unfold bind, random, ret; cbn [fst snd].
  - apply Hseeded, Hdrawn.
  - apply Hseeded, Hhash.
  - apply Hseeded, Hdrawn.
Qed.

(** X18. The price history generated for a base price that is not negative
    and a list of platforms that is not empty: the generator never throws,
    draws from Math.random exactly when there is no URL to hash, and
    returns one point per day from 30 days back to today, in that order;
    the price of each point lies between the rounded 80% and the rounded
    115% of the base price, and its platform is one of the given ones. *)
Theorem generateRealisticPriceHistory_points (host : Host) (clock : Z -> CalendarDay)
    (basePrice : number) (platforms : list Platform) (productUrl : option jsstring)
    (n : nat) :
  fairRandom host -> 0 <= basePrice -> platforms <> [] ->
  exists history,
    PriceHistory.generateRealisticPriceHistory host clock basePrice platforms productUrl n
    = (Return history, snd (generateRealisticPriceHistory host productUrl n))
    /\ List.length history = 31%nat
    /\ map ph_date history = map (fun i => isoDate (clock i)) daysBack
    /\ Forall (fun point =>
                 (Math_round (basePrice * 0.8) <= ph_price point
                  /\ ph_price point <= Math_round (basePrice * 1.15))
                 /\ In (ph_platform point) (map plat_name platforms)) history.
Proof.
  intros Hfair Hbase Hplatforms.
  destruct (@price_history host clock basePrice platforms productUrl n
              Hfair Hbase Hplatforms) as (history & E & Hdates & Hpoints).
  exists history. split; [exact E|]. split; [|split; assumption].
  rewrite <- (length_map ph_date), Hdates, length_map. reflexivity.
Qed.

Lemma generateRealisticPriceHistory_points_witness :
  exists history,
    PriceHistory.generateRealisticPriceHistory offlineHost
      (fun i => {| getDay := i mod 7; getDate := 28 - i; getMonth := 9;
                   isoDate := js "2024-10-01" |})
      599 (getRelevantPlatforms general) (Some myntraUrl) 0%nat
    = (Return history, snd (generateRealisticPriceHistory offlineHost (Some myntraUrl) 0%nat))
    /\ List.length history = 31%nat
    /\ map ph_date history
       = map (fun i => isoDate {| getDay := i mod 7; getDate := 28 - i; getMonth := 9;
                                  isoDate := js "2024-10-01" |}) daysBack
    /\ Forall (fun point =>
                 (Math_round (599 * 0.8) <= ph_price point
                  /\ ph_price point <= Math_round (599 * 1.15))
                 /\ In (ph_platform point) (map plat_name (getRelevantPlatforms general)))
              history.
Proof.
  apply (@generateRealisticPriceHistory_points offlineHost
           (fun i => {| getDay := i mod 7; getDate := 28 - i; getMonth := 9;
                        isoDate := js "2024-10-01" |})
           599 (getRelevantPlatforms general) (Some myntraUrl) 0%nat).
  - intro n. simpl. split; lra.
  - lra.
  - discriminate.
Defined.

(** ** The score of an analysis *)

Lemma ratingScore_pieces (r : Q) :
  0 < r ->
  (r < 3.5 -> ratingScore r = Math_round (r / 3.5 * 55) /\ ratingScore r <= 55)
  /\ (3.5 <= r -> r < 4 ->
      ratingScore r = 55 + Math_round ((r - 3.5) * 30)
      /\ 55 <= ratingScore r /\ ratingScore r <= 70)
  /\ (4 <= r -> r < 4.5 ->
      ratingScore r = 70 + Math_round ((r - 4.0) * 30)
      /\ 70 <= ratingScore r /\ ratingScore r <= 85)
  /\ (4.5 <= r ->
      ratingScore r = 85 + Math_round ((r - 4.5) * 20) /\ 85 <= ratingScore r).
Proof.
  intro Hpos. unfold ratingScore.
  rewrite (proj2 (Qlt_bool_iff 0 r) Hpos).
  split; [|split; [|split]].
  - intro H.
    rewrite (proj2 (Qle_bool_false 4.5 r)) by lra.
    rewrite (proj2 (Qle_bool_false 4.0 r)) by lra.
    rewrite (proj2 (Qle_bool_false 3.5 r)) by lra.
    split; [reflexivity|].
    change 55 with (inject_Z 55). apply Math_round_upper.
    change (inject_Z 55) with 55.
    assert (r / 3.5 < 1) by (apply Qlt_shift_div_r; lra). lra.
  - intros H1 H2.
    rewrite (proj2 (Qle_bool_false 4.5 r)) by lra.
    rewrite (proj2 (Qle_bool_false 4.0 r)) by lra.
    rewrite (proj2 (Qle_bool_iff 3.5 r)) by lra.
    split; [reflexivity|].
    assert (inject_Z 0 <= Math_round ((r - 3.5) * 30))
      by (apply Math_round_lower; change (inject_Z 0) with 0; lra).
    assert (Math_round ((r - 3.5) * 30) <= inject_Z 15)
      by (apply Math_round_upper; change (inject_Z 15) with 15; lra).
    change (inject_Z 0) with 0 in *. change (inject_Z 15) with 15 in *. split; lra.
  - intros H1 H2.
    rewrite (proj2 (Qle_bool_false 4.5 r)) by lra.
    rewrite (proj2 (Qle_bool_iff 4.0 r)) by lra.
    split; [reflexivity|].
    assert (inject_Z 0 <= Math_round ((r - 4.0) * 30))
      by (apply Math_round_lower; change (inject_Z 0) with 0; lra).
    assert (Math_round ((r - 4.0) * 30) <= inject_Z 15)
      by (apply Math_round_upper; change (inject_Z 15) with 15; lra).
    change (inject_Z 0) with 0 in *. change (inject_Z 15) with 15 in *. split; lra.
  - intro H.
    rewrite (proj2 (Qle_bool_iff 4.5 r)) by lra.
    split; [reflexivity|].
    assert (inject_Z 0 <= Math_round ((r - 4.5) * 20))
      by (apply Math_round_lower; change (inject_Z 0) with 0; lra).
    change (inject_Z 0) with 0 in *. lra.
Qed.

Lemma ratingScore_monotone (r1 r2 : Q) :
  0 < r1 -> r1 <= r2 -> ratingScore r1 <= ratingScore r2.
Proof.
  intros Hpos Hle.
  assert (Hpos2 : 0 < r2) by lra.
  destruct (ratingScore_pieces Hpos) as (A1 & B1 & C1 & D1).
  destruct (ratingScore_pieces Hpos2) as (A2 & B2 & C2 & D2).
  destruct (Qlt_le_dec r1 3.5) as [Ha1|Ha1];
    [|destruct (Qlt_le_dec r1 4) as [Hb1|Hb1];
      [|destruct (Qlt_le_dec r1 4.5) as [Hc1|Hc1]]];
  (destruct (Qlt_le_dec r2 3.5) as [Ha2|Ha2];
    [|destruct (Qlt_le_dec r2 4) as [Hb2|Hb2];
      [|destruct (Qlt_le_dec r2 4.5) as [Hc2|Hc2]]]);
  try (exfalso; lra);
  repeat match goal with
         | H : ?P -> _, HP : ?P |- _ => specialize (H HP)
         end.
  - destruct A1 as [E1 _], A2 as [E2 _]. rewrite E1, E2.
    apply Math_round_monotone.
    assert (r1 / 3.5 <= r2 / 3.5) by (apply Qmult_le_compat_r; [lra | discriminate]).
    lra.
  - lra.
  - lra.
  - lra.
  - destruct B1 as [E1 _], B2 as [E2 _]. rewrite E1, E2.
    assert (Math_round ((r1 - 3.5) * 30) <= Math_round ((r2 - 3.5) * 30))
      by (apply Math_round_monotone; lra).
    lra.
  - lra.
  - lra.
  - destruct C1 as [E1 _], C2 as [E2 _]. rewrite E1, E2.
    assert (Math_round ((r1 - 4.0) * 30) <= Math_round ((r2 - 4.0) * 30))
      by (apply Math_round_monotone; lra).
    lra.
  - lra.
  - destruct D1 as [E1 _], D2 as [E2 _]. rewrite E1, E2.
    assert (Math_round ((r1 - 4.5) * 20) <= Math_round ((r2 - 4.5) * 20))
      by (apply Math_round_monotone; lra).
    lra.
Qed.

Lemma bounded_score_monotone (s1 s2 : Q) :
  s1 <= s2 -> Math_max (Math_min s1 98) 25 <= Math_max (Math_min s2 98) 25.
Proof.
  intro H. unfold Math_max, Math_min.
  destruct (Qle_bool s1 98) eqn:E1; destruct (Qle_bool s2 98) eqn:E2;
    repeat match goal with
           | |- context [Qle_bool ?a ?b] => destruct (Qle_bool a b) eqn:?
           end;
    order_facts; lra.
Qed.

Lemma bounded_score_range (s : Q) :
  25 <= Math_max (Math_min s 98) 25 /\ Math_max (Math_min s 98) 25 <= 98.
Proof.
  unfold Math_max, Math_min.
  destruct (Qle_bool s 98) eqn:E1;
    repeat match goal with
           | |- context [Qle_bool ?a ?b] => destruct (Qle_bool a b) eqn:?
           end;
    order_facts; split; lra.
Qed.

(** X19. The score of an analysis never falls when the rating of the product
    rises: for two products with positive ratings, compared on the same
    comparisons and market intelligence, the better rated one scores at
    least as high; every score lies between 25 and 98. *)
Theorem calculateFlashStyleScore_monotone (product1 product2 : ProductData)
    (rating1 rating2 : number) (priceComparisons : list PriceComparison)
    (marketIntelligence : MarketIntelligence) :
  pd_rating product1 = Some rating1 -> pd_rating product2 = Some rating2 ->
  0 < rating1 -> rating1 <= rating2 ->
  calculateFlashStyleScore (Some product1) priceComparisons marketIntelligence
  <= calculateFlashStyleScore (Some product2) priceComparisons marketIntelligence
  /\ 25 <= calculateFlashStyleScore (Some product1) priceComparisons marketIntelligence
  /\ calculateFlashStyleScore (Some product2) priceComparisons marketIntelligence <= 98.
Proof.
  intros E1 E2 Hpos Hle. unfold calculateFlashStyleScore.
  rewrite E1, E2. cbn [ratingOrZero].
  rewrite (proj2 (isZero_false rating1)) by lra.
  rewrite (proj2 (isZero_false rating2)) by lra.
  cbn [andb].
  pose proof (ratingScore_monotone Hpos Hle) as Hscore.
  split; [|split].
  - apply bounded_score_monotone. lra.
  - apply bounded_score_range.
  - apply bounded_score_range.
Qed.

Lemma calculateFlashStyleScore_monotone_witness :
  calculateFlashStyleScore (Some (ratedWallet 3.9)) [] (getEmptyMarketIntelligence None)
  <= calculateFlashStyleScore (Some (ratedWallet 4.4)) [] (getEmptyMarketIntelligence None)
  /\ 25 <= calculateFlashStyleScore (Some (ratedWallet 3.9)) []
             (getEmptyMarketIntelligence None)
  /\ calculateFlashStyleScore (Some (ratedWallet 4.4)) []
       (getEmptyMarketIntelligence None) <= 98.
Proof.
  apply (@calculateFlashStyleScore_monotone (ratedWallet 3.9) (ratedWallet 4.4) 3.9 4.4
           [] (getEmptyMarketIntelligence None)).
  - reflexivity.
  - reflexivity.
  - lra.
  - lra.
Defined.

(** ** The market intelligence of market comparisons *)

Lemma minOf_range (lo hi first : Q) (rest : list Q) :
  lo <= first /\ first <= hi -> Forall (fun p => lo <= p /\ p <= hi) rest ->
  lo <= minOf first rest /\ minOf first rest <= hi.
Proof.
  intros Hfirst Hrest. revert first Hfirst. unfold minOf.
  induction Hrest as [|p rest Hp Hrest IH]; intros first Hfirst; simpl; [exact Hfirst|].
  apply IH. unfold Math_min. destruct (Qle_bool first p); assumption.
Qed.

Lemma maxOf_range (lo hi first : Q) (rest : list Q) :
  lo <= first /\ first <= hi -> Forall (fun p => lo <= p /\ p <= hi) rest ->
  lo <= maxOf first rest /\ maxOf first rest <= hi.
Proof.
  intros Hfirst Hrest. revert first Hfirst. unfold maxOf.
  induction Hrest as [|p rest Hp Hrest IH]; intros first Hfirst; simpl; [exact Hfirst|].
  apply IH. unfold Math_max. destruct (Qle_bool first p); assumption.
Qed.

Lemma minOf_in (first : Q) (rest : list Q) : In (minOf first rest) (first :: rest).
Proof.
  revert first. unfold minOf.
  induction rest as [|p rest IH]; intro first; simpl; [left; reflexivity|].
  destruct (IH (Math_min first p)) as [E|Hin].
  - unfold Math_min in E at 1. destruct (Qle_bool first p).
    + left. exact E.
    + right. left. exact E.
  - right. right. exact Hin.
Qed.

Lemma maxOf_in (first : Q) (rest : list Q) : In (maxOf first rest) (first :: rest).
Proof.
  revert first. unfold maxOf.
  induction rest as [|p rest IH]; intro first; simpl; [left; reflexivity|].
  destruct (IH (Math_max first p)) as [E|Hin].
  - unfold Math_max in E at 1. destruct (Qle_bool first p).
    + right. left. exact E.
    + left. exact E.
  - right. right. exact Hin.
Qed.

Lemma find_price (price : Q) (comparisons : list PriceComparison) :
  In price (map pc_price comparisons) ->
  find (fun p => Qeq_bool (pc_price p) price) comparisons <> None.
Proof.
  induction comparisons as [|p comparisons IH]; simpl; [contradiction|].
  intros [E|Hin].
  - rewrite E. rewrite (proj2 (Qeq_bool_iff price price)) by reflexivity. discriminate.
  - destruct (Qeq_bool (pc_price p) price); [discriminate | exact (IH Hin)].
Qed.

Lemma sound_comparison_prices (basePrice : number) (platforms : list Platform)
    (comparisons : list PriceComparison) :
  Forall2 (fun platform comparison =>
             soundComparison basePrice (plat_name platform) comparison)
          platforms comparisons ->
  Forall (fun comparison =>
            0.912 * basePrice - 0.5 <= pc_price comparison
            /\ pc_price comparison <= 1.134 * basePrice + 0.5) comparisons.
Proof.
  induction 1 as [|platform comparison platforms comparisons Hsound _ IH];
    constructor; [|exact IH].
  destruct Hsound as (_ & Hprice & _). exact Hprice.
Qed.

Lemma sum_range (lo hi : Q) (l : list Q) :
  Forall (fun p => lo <= p /\ p <= hi) l ->
  forall acc,
    acc + lo * inject_Z (Z.of_nat (List.length l)) <= fold_left Qplus l acc
    /\ fold_left Qplus l acc <= acc + hi * inject_Z (Z.of_nat (List.length l)).
Proof.
  induction 1 as [|p l [Hp1 Hp2] _ IH]; intro acc.
  - cbn [List.length fold_left Z.of_nat]. change (inject_Z 0) with 0. split; lra.
  - assert (E : inject_Z (Z.of_nat (List.length (p :: l)))
                == inject_Z (Z.of_nat (List.length l)) + 1).
    { cbn [List.length]. rewrite Nat2Z.inj_succ. unfold Z.succ.
      rewrite inject_Z_plus. reflexivity. }
    rewrite E. cbn [fold_left]. destruct (IH (acc + p)) as [H1 H2]. split; lra.
Qed.

(** The intelligence drawn from comparisons whose prices lie within the
    scaled base price. *)
Lemma market_intelligence (basePrice : number) (comparisons : list PriceComparison)
    (originalProduct : option ProductData) :
  188 <= basePrice -> (2 <= List.length comparisons)%nat ->
  Forall (fun comparison =>
            0.912 * basePrice - 0.5 <= pc_price comparison
            /\ pc_price comparison <= 1.134 * basePrice + 0.5) comparisons ->
  let intelligence := generateFlashStyleMarketIntelligence comparisons originalProduct in
  mi_priceVolatility intelligence <> js "high"
  /\ mi_lowestPrice intelligence <> None
  /\ mi_highestPrice intelligence <> None
  /\ (0.912 * basePrice - 1 <= mi_averagePrice intelligence
      /\ mi_averagePrice intelligence <= 1.134 * basePrice + 1)
  /\ mi_competitiveness intelligence <> js "poor".
Proof.
  intros Hbase Hcount Hprices. cbv zeta. unfold generateFlashStyleMarketIntelligence.
  apply Nat.leb_le in Hcount.
  destruct (List.length comparisons =? 0)%nat eqn:Eempty;
    [apply Nat.eqb_eq in Eempty; rewrite Eempty in Hcount; discriminate|].
  assert (Evalid : filter (fun p => Qlt_bool 0 (pc_price p)) comparisons = comparisons).
  { clear Hcount Eempty.
    induction Hprices as [|p l [Hp _] _ IH]; simpl; [reflexivity|].
    rewrite (proj2 (Qlt_bool_iff 0 (pc_price p))) by lra. rewrite IH. reflexivity. }
  rewrite Evalid.
  assert (Hmapped : Forall (fun p => 0.912 * basePrice - 0.5 <= p
                                     /\ p <= 1.134 * basePrice + 0.5)
                           (map pc_price comparisons)).
  { apply Forall_map. exact Hprices. }
  pose proof (fun price => @find_price price comparisons) as Hfind.
  destruct (map pc_price comparisons) as [|first rest] eqn:Emap.
  { apply map_eq_nil in Emap. rewrite Emap in Eempty. discriminate. }
  cbn [mi_priceVolatility mi_lowestPrice mi_highestPrice mi_averagePrice
       mi_competitiveness].
  inversion Hmapped as [|? ? Hfirst Hrest]; subst.
  destruct (minOf_range Hfirst Hrest) as [Hmin1 Hmin2].
  destruct (maxOf_range Hfirst Hrest) as [Hmax1 Hmax2].
  split; [|split; [|split; [|split]]].
  - assert (Hvar : (maxOf first rest - minOf first rest) / minOf first rest * 100 < 25).
    { assert ((maxOf first rest - minOf first rest) / minOf first rest < 0.25)
        by (apply Qlt_shift_div_r; lra).
      lra. }
    destruct (Qlt_bool _ 10); [discriminate|].
    rewrite (proj2 (Qlt_bool_iff _ 25) Hvar). discriminate.
  - apply Hfind, minOf_in.
  - apply Hfind, maxOf_in.
  - destruct (sum_range Hmapped 0) as [Hsum1 Hsum2].
    cbn [List.length] in Hsum1, Hsum2 |- *.
    set (count := inject_Z (Z.of_nat (S (List.length rest)))) in *.
    change (inject_Z (Z.of_nat _)) with count in Hsum1, Hsum2.
    assert (Hone : 1 <= count).
    { subst count. change 1 with (inject_Z 1). rewrite <- Zle_Qle. lia. }
    set (total := fold_left Qplus (first :: rest) 0) in *.
    clearbody count total.
    assert (Havg1 : 0.912 * basePrice - 0.5 <= total / count)
      by (apply Qle_shift_div_l; lra).
    assert (Havg2 : total / count <= 1.134 * basePrice + 0.5)
      by (apply Qle_shift_div_r; lra).
    destruct (Math_round_near (total / count)) as [Hr1 Hr2]. split; lra.
  - rewrite Hcount.
    destruct (_ && _ && _); [discriminate|].
    destruct (_ && _); discriminate.
Qed.

Lemma relevant_platforms_count (category : Category) :
  (2 <= List.length (getRelevantPlatforms category))%nat.
Proof. destruct category; simpl; lia. Qed.

Lemma returns_weaken {A} (m : M A) (P Q : A -> Prop) :
  returns m P -> (forall a, P a -> Q a) -> returns m Q.
Proof.
  intros Hm HPQ n. destruct (Hm n) as (a & n' & E & Ha).
  exists a, n'. split; [exact E | exact (HPQ a Ha)].
Qed.

(** X20. The market intelligence drawn from the comparisons of a product
    whose name encodes and whose price is at least 188 and below 500000:
    the price volatility is never high, a lowest and a highest offer are
    named, the average price lies within the scaled product price, and the
    competitiveness is never poor. *)
Theorem market_intelligence_of_comparisons (host : Host) (product : ProductData)
    (productUrl : jsstring) :
  fairRandom host -> codePoints (pd_name product) <> None ->
  188 <= pd_price product -> pd_price product < 500000 ->
  returns (getRealPriceComparisons host (Some product) productUrl)
          (fun comparisons =>
             let intelligence :=
               generateFlashStyleMarketIntelligence comparisons (Some product) in
             mi_priceVolatility intelligence <> js "high"
             /\ mi_lowestPrice intelligence <> None
             /\ mi_highestPrice intelligence <> None
             /\ (0.912 * pd_price product - 1 <= mi_averagePrice intelligence
                 /\ mi_averagePrice intelligence <= 1.134 * pd_price product + 1)
             /\ mi_competitiveness intelligence <> js "poor").
Proof.
  intros Hfair Hname Hbase Hmax.
  apply returns_weaken
    with (P := Forall2 (fun platform comparison =>
                          soundComparison (pd_price product) (plat_name platform) comparison)
                       (getRelevantPlatforms
                          (pi_category (extractProductInfo (pd_name product) productUrl)))).
  - apply market_comparisons; [exact Hfair | exact Hname | lra | exact Hmax].
  - intros comparisons Hsound.
    apply market_intelligence; [exact Hbase | |].
    + rewrite <- (Forall2_length Hsound). apply relevant_platforms_count.
    + exact (sound_comparison_prices Hsound).
Qed.

Lemma market_intelligence_of_comparisons_witness :
  returns (getRealPriceComparisons offlineHost (Some (ratedWallet 4.2)) myntraUrl)
          (fun comparisons =>
             let intelligence :=
               generateFlashStyleMarketIntelligence comparisons (Some (ratedWallet 4.2)) in
             mi_priceVolatility intelligence <> js "high"
             /\ mi_lowestPrice intelligence <> None
             /\ mi_highestPrice intelligence <> None
             /\ (0.912 * pd_price (ratedWallet 4.2) - 1 <= mi_averagePrice intelligence
                 /\ mi_averagePrice intelligence <= 1.134 * pd_price (ratedWallet 4.2) + 1)
             /\ mi_competitiveness intelligence <> js "poor").
Proof.
  apply (@market_intelligence_of_comparisons offlineHost (ratedWallet 4.2) myntraUrl).
  - intro n. simpl. split; lra.
  - vm_compute. discriminate.
  - vm_compute. discriminate.
  - vm_compute. reflexivity.
Defined.

(** ** The score of market comparisons *)

Lemma ratings_sum_range (lo hi : Q) (l : list PriceComparison) :
  Forall (fun p => lo <= ratingOrZero (pc_rating p)
                   /\ ratingOrZero (pc_rating p) <= hi) l ->
  forall acc,
    acc + lo * inject_Z (Z.of_nat (List.length l))
    <= fold_left (fun sum p => sum + ratingOrZero (pc_rating p)) l acc
    /\ fold_left (fun sum p => sum + ratingOrZero (pc_rating p)) l acc
       <= acc + hi * inject_Z (Z.of_nat (List.length l)).
Proof.
  induction 1 as [|p l [Hp1 Hp2] _ IH]; intro acc.
  - cbn [List.length fold_left Z.of_nat]. change (inject_Z 0) with 0. split; lra.
  - assert (E : inject_Z (Z.of_nat (List.length (p :: l)))
                == inject_Z (Z.of_nat (List.length l)) + 1).
    { cbn [List.length]. rewrite Nat2Z.inj_succ. unfold Z.succ.
      rewrite inject_Z_plus. reflexivity. }
    rewrite E. cbn [fold_left].
    destruct (IH (acc + ratingOrZero (pc_rating p))) as [H1 H2]. split; lra.
Qed.

Lemma sound_comparison_ratings (basePrice : number) (platforms : list Platform)
    (comparisons : list PriceComparison) :
  Forall2 (fun platform comparison =>
             soundComparison basePrice (plat_name platform) comparison)
          platforms comparisons ->
  Forall (fun comparison =>
            3.5 <= ratingOrZero (pc_rating comparison)
            /\ ratingOrZero (pc_rating comparison) <= 4.6) comparisons.
Proof.
  induction 1 as [|platform comparison platforms comparisons Hsound _ IH];
    constructor; [|exact IH].
  destruct Hsound as (_ & _ & _ & (rating & E & Hrating) & _).
  rewrite E. exact Hrating.
Qed.

Lemma ratingScore_from_55 (r : Q) : 3.5 <= r -> 55 <= ratingScore r.
Proof.
  intro H. assert (Hpos : 0 < r) by lra.
  destruct (ratingScore_pieces Hpos) as (_ & B & C & D).
  destruct (Qlt_le_dec r 4) as [H4|H4]; [destruct (B H H4) as (_ & Hb & _); exact Hb|].
  destruct (Qlt_le_dec r 4.5) as [H45|H45].
  - destruct (C H4 H45) as (_ & Hc & _). lra.
  - destruct (D H45) as (_ & Hd). lra.
Qed.

(** The score of a product without a rating of its own, on comparisons that
    are rated between 3.5 and 4.6. *)
Lemma unrated_score (product : ProductData) (comparisons : list PriceComparison)
    (marketIntelligence : MarketIntelligence) :
  ratingOrZero (pd_rating product) == 0 ->
  (2 <= List.length comparisons)%nat ->
  Forall (fun comparison =>
            3.5 <= ratingOrZero (pc_rating comparison)
            /\ ratingOrZero (pc_rating comparison) <= 4.6) comparisons ->
  64 <= calculateFlashStyleScore (Some product) comparisons marketIntelligence.
Proof.
  intros Hrating Hcount Hratings. unfold calculateFlashStyleScore.
  rewrite (proj2 (isZero_true _) Hrating).
  assert (Hsome : (0 <? List.length comparisons)%nat = true) by (apply Nat.ltb_lt; lia).
  assert (Hmany : (1 <? List.length comparisons)%nat = true) by (apply Nat.ltb_lt; lia).
  assert (Htwo : (2 <=? List.length comparisons)%nat = true) by (apply Nat.leb_le; lia).
  rewrite Hsome, Hmany, Htwo. cbn [andb].
  destruct (ratings_sum_range Hratings 0) as [Hsum _].
  fold (sumOfRatings comparisons) in Hsum.
  set (count := inject_Z (Z.of_nat (List.length comparisons))) in *.
  assert (Hone : 1 <= count).
  { subst count. change 1 with (inject_Z 1). rewrite <- Zle_Qle. lia. }
  set (total := sumOfRatings comparisons) in *.
  assert (Havg : 3.5 <= total / count)
    by (clearbody count total; apply Qle_shift_div_l; lra).
  pose proof (ratingScore_from_55 Havg) as Hscore.
  set (score := ratingScore (total / count)) in *.
  set (platformBonus := if (3 <=? List.length comparisons)%nat then 10 else 7).
  assert (HplatformBonus : 7 <= platformBonus)
    by (subst platformBonus; destruct (3 <=? _)%nat; lra).
  set (priceBonus := if str_eqb _ (js "high") then 5 else _).
  assert (HpriceBonus : 2 <= priceBonus).
  { subst priceBonus. destruct (str_eqb _ (js "high")); [lra|].
    destruct (str_eqb _ (js "medium")); lra. }
  set (inStock := inject_Z (Z.of_nat _)).
  assert (HinStock : 0 <= inStock).
  { subst inStock. change 0 with (inject_Z 0). rewrite <- Zle_Qle. lia. }
  set (stockBonus := Math_min inStock 3).
  assert (HstockBonus : 0 <= stockBonus)
    by (subst stockBonus; unfold Math_min; destruct (Qle_bool inStock 3); lra).
  clearbody score platformBonus priceBonus stockBonus.
  assert (Hsum64 : 64 <= score + platformBonus + priceBonus + stockBonus) by lra.
  apply bounded_score_monotone in Hsum64.
  change (Math_max (Math_min 64 98) 25) with 64 in Hsum64. exact Hsum64.
Qed.

(** X21. A product that has no rating of its own is scored by the ratings of
    its comparisons: with a name that encodes and a price above 0 and below
    500000, the score computed from the market comparisons and their
    intelligence is at least 64, and at most 98. *)
Theorem score_of_market_comparisons (host : Host) (product : ProductData)
    (productUrl : jsstring) :
  fairRandom host -> codePoints (pd_name product) <> None ->
  0 < pd_price product -> pd_price product < 500000 ->
  pd_rating product = None ->
  returns (getRealPriceComparisons host (Some product) productUrl)
          (fun comparisons =>
             64 <= calculateFlashStyleScore (Some product) comparisons
                     (generateFlashStyleMarketIntelligence comparisons (Some product))
             /\ calculateFlashStyleScore (Some product) comparisons
                  (generateFlashStyleMarketIntelligence comparisons (Some product)) <= 98).
Proof.
  intros Hfair Hname Hpos Hmax Hrating.
  apply returns_weaken
    with (P := Forall2 (fun platform comparison =>
                          soundComparison (pd_price product) (plat_name platform) comparison)
                       (getRelevantPlatforms
                          (pi_category (extractProductInfo (pd_name product) productUrl)))).
  - apply market_comparisons; assumption.
  - intros comparisons Hsound. split.
    + apply unrated_score.
      * rewrite Hrating. reflexivity.
      * rewrite <- (Forall2_length Hsound). apply relevant_platforms_count.
      * exact (sound_comparison_ratings Hsound).
    + apply bounded_score_range.
Qed.

Lemma score_of_market_comparisons_witness :
  returns (getRealPriceComparisons offlineHost
             (Some (generateFallbackData offlineHost amazonUrl (js "Amazon"))) amazonUrl)
          (fun comparisons =>
             64 <= calculateFlashStyleScore
                     (Some (generateFallbackData offlineHost amazonUrl (js "Amazon")))
                     comparisons
                     (generateFlashStyleMarketIntelligence comparisons
                        (Some (generateFallbackData offlineHost amazonUrl (js "Amazon"))))
             /\ calculateFlashStyleScore
                  (Some (generateFallbackData offlineHost amazonUrl (js "Amazon")))
                  comparisons
                  (generateFlashStyleMarketIntelligence comparisons
                     (Some (generateFallbackData offlineHost amazonUrl (js "Amazon"))))
                <= 98).
Proof.
  apply (@score_of_market_comparisons offlineHost
           (generateFallbackData offlineHost amazonUrl (js "Amazon")) amazonUrl).
  - intro n. simpl. split; lra.
  - vm_compute. discriminate.
  - vm_compute. reflexivity.
  - vm_compute. reflexivity.
  - reflexivity.
Defined.
